(** * SimpleAzureJobRunner: deployment utilities

    A shallow embedding of the scripts under [deploy/utils]:
    - [azure_vms.py]: the VM state model ([AzureVmState]) and the fleet
      controller ([AzureVms]) with its capacity cool-down window;
    - [az_cmd.py]: the command gateway [run_az_cmd];
    - [install_extensions.py]: the extension reconciler [process_vm];
    - [remove_orphaned_accounts.py]: the orphan-role reconciler.

    The Python code is effectful: it reads the clock, sleeps, logs, prints and
    calls the Azure SDK and the [az] command line.  These effects are threaded
    through a state-and-exception monad over a [World] (a logical clock and
    the chronological trace of observable events); the answers of the outside
    world are given by an environment [Env] that may depend on the whole
    history.  Timestamps ([time.time()], a float in Python) are modelled as
    integers. *)

From Stdlib Require Import ZArith List String Ascii Bool Lia Permutation.
From Stdlib Require Import DecimalString.
Import ListNotations.

Open Scope string_scope.
Open Scope list_scope.

Infix "+++" := String.append (right associativity, at level 60).

(* ================================================================== *)
(** ** Strings as Python uses them *)

(** [needle in s] on Python strings. *)
Fixpoint str_in (needle s : string) : bool :=
  if String.prefix needle s then true
  else match s with
       | EmptyString => false
       | String _ rest => str_in needle rest
       end.

(** [s.startswith(p)]. *)
Definition startswith (s p : string) : bool := String.prefix p s.

(** [str(n)] for a non-negative integer. *)
Definition str_of_nat (n : nat) : string := NilZero.string_of_uint (Nat.to_uint n).

(** The double-quote character, used inside command lines. *)
Definition dquote : string := String (ascii_of_nat 34) EmptyString.

(** [s.replace(" ", "")]. *)
Fixpoint remove_spaces (s : string) : string :=
  match s with
  | EmptyString => EmptyString
  | String c rest =>
      if Ascii.eqb c " "%char then remove_spaces rest
      else String c (remove_spaces rest)
  end.

(* ================================================================== *)
(** ** Python containers *)

(** A Python [set] of strings: kept as a duplicate-free list in insertion
    order.  The order in which Python iterates a set is not the insertion
    order; it is taken as a parameter ([set_iter]) where a loop runs over a
    set. *)
Definition pyset := list string.

Definition set_mem (x : string) (s : pyset) : bool :=
  existsb (String.eqb x) s.

Definition set_add (x : string) (s : pyset) : pyset :=
  if set_mem x s then s else s ++ [x].

(** A Python [dict] keyed by strings: an association list in insertion order
    (the order [dict.items()] iterates in). *)
Definition pydict (V : Type) := list (string * V).

Fixpoint dict_get {V} (k : string) (d : pydict V) : option V :=
  match d with
  | [] => None
  | (k', v) :: rest => if String.eqb k k' then Some v else dict_get k rest
  end.

(** [k in d]. *)
Definition dict_mem {V} (k : string) (d : pydict V) : bool :=
  match dict_get k d with Some _ => true | None => false end.

(** [d[k] = v]: overwrites in place when the key exists, appends otherwise. *)
Fixpoint dict_set {V} (k : string) (v : V) (d : pydict V) : pydict V :=
  match d with
  | [] => [(k, v)]
  | (k', v') :: rest =>
      if String.eqb k k' then (k', v) :: rest else (k', v') :: dict_set k v rest
  end.

Definition dict_keys {V} (d : pydict V) : list string := map fst d.

(* ================================================================== *)
(** ** Exceptions, events, the world *)

(** A raised Python exception (a subclass of [Exception]).
    [exn_conflict] tells whether it is an instance of
    [azure.core.exceptions.ResourceExistsError]; [exn_str] is [str(ex)];
    [exn_type] and [exn_tb] are what [get_exception_info] renders of the
    exception's class and traceback. *)
Record Exn := mkExn {
  exn_conflict : bool;
  exn_type : string;
  exn_str : string;
  exn_tb : string
}.

Inductive Level := INFO | WARNING | ERROR.

Inductive Event :=
| EvLog (lvl : Level) (msg : string)          (* log.info / warning / error *)
| EvPrint (msg : string)                      (* print(...) *)
| EvSleep (seconds : Z)                       (* time.sleep(...) *)
| EvBeginStart (rg vm_name : string)          (* client.virtual_machines.begin_start *)
| EvVmGet (rg vm_name : string)               (* client.virtual_machines.get *)
| EvInstanceView (rg vm_name : string)        (* client.virtual_machines.instance_view *)
| EvAz (cmd : string).                        (* subprocess.run(f"{az} {cmd}") *)

Record World := mkWorld {
  now : Z;
  trace : list Event
}.

Inductive Result (A : Type) :=
| Ok (a : A)
| Raise (e : Exn).
Arguments Ok {A} a.
Arguments Raise {A} e.

Definition M (A : Type) : Type := World -> Result A * World.

Definition ret {A} (a : A) : M A := fun w => (Ok a, w).

Definition bind {A B} (m : M A) (k : A -> M B) : M B :=
  fun w => match m w with
           | (Ok a, w') => k a w'
           | (Raise e, w') => (Raise e, w')
           end.

Definition raise {A} (e : Exn) : M A := fun w => (Raise e, w).

(** [try: m except Exception as e: h e]. *)
Definition try_except {A} (m : M A) (h : Exn -> M A) : M A :=
  fun w => match m w with
           | (Ok a, w') => (Ok a, w')
           | (Raise e, w') => h e w'
           end.

Notation "x <- c ;; k" := (bind c (fun x => k))
  (at level 61, c at next level, right associativity).
Notation "c ;;; k" := (bind c (fun _ => k))
  (at level 61, right associativity).

Definition emit (e : Event) : M unit :=
  fun w => (Ok tt, mkWorld (now w) (trace w ++ [e])).

Definition log_info (msg : string) : M unit := emit (EvLog INFO msg).
Definition log_warning (msg : string) : M unit := emit (EvLog WARNING msg).
Definition log_error (msg : string) : M unit := emit (EvLog ERROR msg).
Definition print (msg : string) : M unit := emit (EvPrint msg).

(** [time.time()]. *)
Definition time_time : M Z := fun w => (Ok (now w), w).

(** [get_exception_info()] of ioutils.py, called inside an [except] block
    handling [e]. *)
Definition get_exception_info (e : Exn) : string :=
  "### Exception: " +++ exn_type e +++ ": " +++ exn_str e +++ exn_tb e.

(* ================================================================== *)
(** ** The outside world: Azure SDK objects and the [az] process *)

(** [azure.mgmt.compute] models, reduced to the attributes the scripts read. *)
Record InstanceViewStatus := mkStatus {
  code : option string                       (* [status.code], possibly None *)
}.

Record InstanceView := mkInstanceView {
  statuses : list InstanceViewStatus
}.

Record OSProfile := mkOSProfile {
  windows_configuration : option string;     (* None when absent *)
  linux_configuration : option string
}.

Record VirtualMachine := mkVirtualMachine {
  sdk_name : string;                         (* [vm.name] *)
  os_profile : option OSProfile;             (* [vm.os_profile], possibly None *)
  vm_identity : option string                (* [vm.identity], opaque *)
}.

(** What [subprocess.run(..., capture_output=True, text=True)] returns. *)
Record CompletedProcess := mkCompleted {
  returncode : Z;
  stdout : string;
  stderr : string
}.

(** One installed extension as [az vm extension list] reports it. *)
Record Extension := mkExtension {
  ext_name : string;                         (* ext["name"] *)
  provisioningState : string                 (* ext["provisioningState"] *)
}.

(** One role assignment as [az role assignment list] reports it; the fields
    read with [.get(key, "")] hold the empty string when the key is absent. *)
Record RoleAssignment := mkRoleAssignment {
  id : string;
  principalId : string;
  principalType : string;
  principalName : string;
  scope : string
}.

(** Decoded JSON payloads of the [az] commands the scripts issue. *)
Inductive AzData :=
| JObject (fields : pydict string)
| JExtensions (exts : list Extension)
| JRoleAssignments (items : list RoleAssignment).

(** The environment answers every external request; an answer may depend on
    everything that happened before ([history] is the trace at the moment of
    the call).  [latency] is the time an external call takes. *)
Record Env := mkEnv {
  begin_start_outcome : list Event -> string -> string -> option Exn;
  vm_get_outcome : list Event -> string -> string -> Exn + VirtualMachine;
  instance_view_outcome : list Event -> string -> string -> Exn + InstanceView;
  az_outcome : list Event -> string -> CompletedProcess;
  json_loads : string -> Exn + AzData;
  latency : list Event -> N
}.

Section External.
Variable env : Env.

(** Issue an external request: it is recorded in the trace and the clock
    advances by the time the call took. *)
Definition request (e : Event) : M (list Event) :=
  fun w =>
    let h := trace w in
    (Ok h, mkWorld (now w + Z.of_N (latency env (h ++ [e]))) (h ++ [e])).

(** [time.sleep(seconds)]. *)
Definition time_sleep (seconds : Z) : M unit :=
  fun w => (Ok tt, mkWorld (now w + seconds) (trace w ++ [EvSleep seconds])).

Definition sdk_begin_start (rg vm : string) : M unit :=
  h <- request (EvBeginStart rg vm) ;;
  match begin_start_outcome env h rg vm with
  | None => ret tt
  | Some e => raise e
  end.

Definition sdk_get (rg vm : string) : M VirtualMachine :=
  h <- request (EvVmGet rg vm) ;;
  match vm_get_outcome env h rg vm with
  | inr v => ret v
  | inl e => raise e
  end.

Definition sdk_instance_view (rg vm : string) : M InstanceView :=
  h <- request (EvInstanceView rg vm) ;;
  match instance_view_outcome env h rg vm with
  | inr v => ret v
  | inl e => raise e
  end.

(** [subprocess.run(f"{az} {cmd}", capture_output=True, ...)]. *)
Definition subprocess_run (cmd : string) : M CompletedProcess :=
  h <- request (EvAz cmd) ;;
  ret (az_outcome env h cmd).

(** az_cmd.py, [run_az_cmd]. *)
Definition run_az_cmd (cmd description : string) (no_data_ok : bool) : M AzData :=
  print description ;;;
  result <- subprocess_run cmd ;;
  if negb (returncode result =? 0)%Z then
    raise (mkExn false "<class 'Exception'>"
                 ("Error " +++ description +++ ": " +++ stderr result) "")
  else
    if negb (String.eqb (stdout result) "") then
      match json_loads env (stdout result) with
      | inr data => ret data
      | inl e => raise e
      end
    else if negb no_data_ok then
      raise (mkExn false "<class 'Exception'>"
                   ("No json data returned: " +++ stderr result) "")
    else ret (JObject []).
End External.

(* ================================================================== *)
(** ** azure_vms.py *)

Definition AZURE_VM_RUNNING_MSG : string := "VM guest agent was detected running".
Definition DEFAULT_UNAVAILABLE_TIMEOUT : Z := 600.

Module AzureVmState.

Definition DEALLOCATED : string := "PowerState/deallocated".
Definition DEALLOCATING : string := "PowerState/deallocating".
Definition RUNNING : string := "PowerState/running".
Definition STARTING : string := "PowerState/starting".
Definition STOPPED : string := "PowerState/stopped".
Definition KNOWN_STATES : list string :=
  [DEALLOCATED; DEALLOCATING; RUNNING; STARTING; STOPPED].

Record t := mk {
  name : string;
  state : string;
  is_linux : bool;
  is_windows : bool;
  identity : option string;
  subscription_id : string;
  resource_group : string;
  starting : bool;
  deallocating : bool;
  start_time : Z;
  deallocate_time : Z
}.

Definition AssertionError (msg : string) : Exn :=
  mkExn false "<class 'AssertionError'>" msg "".

(** [AzureVmState.__init__]. *)
Definition init (name state : string) (is_linux is_windows : bool) : M t :=
  if negb (xorb is_linux is_windows) then   (* assert is_linux != is_windows *)
    raise (AssertionError "is_linux and is_windows are mutually exclusive!")
  else
    let self := mk name state is_linux is_windows None "" "" false false 0 0 in
    if String.eqb state STARTING then
      now <- time_time ;;
      ret (mk name state is_linux is_windows None "" "" true false now 0)
    else if String.eqb state DEALLOCATING then
      now <- time_time ;;
      ret (mk name state is_linux is_windows None "" "" false true 0 now)
    else ret self.

Definition is_unknown_state (self : t) : bool :=
  negb (existsb (String.eqb (state self)) KNOWN_STATES).

Definition is_running (self : t) : bool :=
  String.eqb (state self) RUNNING.

Definition is_starting_or_running (self : t) : bool :=
  is_running self || String.eqb (state self) STARTING.

Definition is_deallocated (self : t) : bool :=
  String.eqb (state self) DEALLOCATING
  || String.eqb (state self) DEALLOCATED
  || String.eqb (state self) STOPPED.

(** [on_start]: the four assignments, in source order. *)
Definition on_start (self : t) : M t :=
  now <- time_time ;;
  ret (mk (name self) STARTING (is_linux self) (is_windows self)
          (identity self) (subscription_id self) (resource_group self)
          true false now (deallocate_time self)).

Definition on_deallocate (self : t) : M t :=
  now <- time_time ;;
  ret (mk (name self) DEALLOCATING (is_linux self) (is_windows self)
          (identity self) (subscription_id self) (resource_group self)
          false true (start_time self) now).

(** [vm.starting = b]. *)
Definition set_starting (b : bool) (self : t) : t :=
  mk (name self) (state self) (is_linux self) (is_windows self)
     (identity self) (subscription_id self) (resource_group self)
     b (deallocating self) (start_time self) (deallocate_time self).

(** The three assignments [get_vm_state] makes on a fresh object. *)
Definition set_origin (ident : option string) (sub rg : string) (self : t) : t :=
  mk (name self) (state self) (is_linux self) (is_windows self)
     ident sub rg
     (starting self) (deallocating self) (start_time self) (deallocate_time self).

End AzureVmState.

Module AzureVms.

Record t := mk {
  subscription_id : string;
  resource_group : string;
  managed_identity : option string;
  unavailable_timeout : Z;
  unavailable_retry_time : Z;
  unavailable_state : bool
}.

(** [AzureVms.__init__] (the SDK client it builds is the environment). *)
Definition init (subscription_id resource_group : string)
           (managed_identity : option string) (unavailable_timeout : Z) : t :=
  mk subscription_id resource_group managed_identity unavailable_timeout 0 false.

(** [AzureVms(subscription_id, resource_group)] with the default arguments. *)
Definition init_default (subscription_id resource_group : string) : t :=
  init subscription_id resource_group None DEFAULT_UNAVAILABLE_TIMEOUT.

Definition set_unavailable (st : bool) (retry : Z) (self : t) : t :=
  mk (subscription_id self) (resource_group self) (managed_identity self)
     (unavailable_timeout self) retry st.

(** [get_power_state]. *)
Fixpoint get_power_state_statuses (l : list InstanceViewStatus) : string :=
  match l with
  | [] => "unknown"
  | status :: rest =>
      match code status with
      | Some c =>
          if negb (String.eqb c "") && startswith c "PowerState" then c
          else get_power_state_statuses rest
      | None => get_power_state_statuses rest
      end
  end.

Definition get_power_state (instance_view : InstanceView) : string :=
  get_power_state_statuses (statuses instance_view).

Section WithEnv.
Variable env : Env.

(** [get_vm_state]. *)
Definition get_vm_state (self : t) (vm_name : string) : M AzureVmState.t :=
  vm <- sdk_get env (resource_group self) vm_name ;;
  let name := sdk_name vm in
  instance_view <- sdk_instance_view env (resource_group self) name ;;
  let power_status := get_power_state instance_view in
  let is_windows :=
    match os_profile vm with
    | Some p => match windows_configuration p with Some _ => true | None => false end
    | None => false
    end in
  let is_linux :=
    match os_profile vm with
    | Some p => match linux_configuration p with Some _ => true | None => false end
    | None => false
    end in
  result <- AzureVmState.init name power_status is_linux is_windows ;;
  ret (AzureVmState.set_origin (vm_identity vm) (subscription_id self)
         (resource_group self) result).

(** The [try: ... except ResourceExistsError: ... except Exception: ...]
    statement of [try_start_vm]. *)
Definition start_attempt (self : t) (vm : AzureVmState.t)
  : M (t * AzureVmState.t) :=
  try_except
    (log_info ("VM " +++ AzureVmState.name vm
                 +++ " is deallocated, attempting restart...") ;;;
     sdk_begin_start env (resource_group self) (AzureVmState.name vm) ;;;
     vm' <- AzureVmState.on_start vm ;;
     ret (self, vm'))
    (fun ex =>
       if exn_conflict ex then
         let err_status_msg := get_exception_info ex in
         log_error ("VM " +++ AzureVmState.name vm
                      +++ " failed to start: " +++ err_status_msg) ;;;
         now <- time_time ;;
         ret (set_unavailable true (now + unavailable_timeout self)%Z self,
              AzureVmState.set_starting false vm)
       else
         let s := exn_str ex in
         let vm' := AzureVmState.set_starting false vm in
         if str_in AZURE_VM_RUNNING_MSG s then
           log_warning s ;;; ret (self, vm')
         else
           let s := get_exception_info ex in
           log_error ("VM " +++ AzureVmState.name vm
                        +++ " failed to start: " +++ s) ;;;
           ret (self, vm')).

(** [try_start_vm].  The controller and the VM are mutated in place by
    the Python code; here the updated pair is returned. *)
Definition try_start_vm (self : t) (vm : AzureVmState.t)
  : M (t * AzureVmState.t) :=
  if unavailable_state self then
    now <- time_time ;;
    if (now >? unavailable_retry_time self)%Z then
      start_attempt (set_unavailable false 0 self) vm
    else
      log_warning ("Ignoring request to start vm " +++ AzureVmState.name vm
                     +++ " because of capacity restrictions...") ;;;
      ret (self, vm)
  else start_attempt self vm.

End WithEnv.
End AzureVms.

(* ================================================================== *)
(** ** install_extensions.py *)

(** [json.dumps] of a Python string (quoting and escaping) is the standard
    library's; it is a parameter of the model. *)
Section InstallExtensions.
Variable env : Env.
Variable json_dumps_str : string -> string.

Definition TypeError (msg : string) : Exn := mkExn false "<class 'TypeError'>" msg "".
Definition KeyError (msg : string) : Exn := mkExn false "<class 'KeyError'>" msg "".

(** The loop [for ext in data: found[ext["name"]] = ext]. *)
Fixpoint index_extensions (data : list Extension) (found : pydict Extension)
  : pydict Extension :=
  match data with
  | [] => found
  | ext :: rest => index_extensions rest (dict_set (ext_name ext) ext found)
  end.

Definition list_extensions (vm : AzureVmState.t) (resource_group : string)
  : M (pydict Extension) :=
  let cmd := "vm extension list --resource-group " +++ resource_group
             +++ " --vm-name " +++ AzureVmState.name vm in
  data <- run_az_cmd env cmd ("listing extensions on " +++ AzureVmState.name vm) false ;;
  match data with
  | JExtensions exts => ret (index_extensions exts [])
  | JObject [] => ret []
  | JObject (_ :: _) => raise (TypeError "string indices must be integers, not 'str'")
  | JRoleAssignments [] => ret []
  | JRoleAssignments (_ :: _) => raise (KeyError "'name'")
  end.

(** *** Monitor agent *)

Definition get_monitor_agent_name (vm : AzureVmState.t) : string :=
  if AzureVmState.is_linux vm then "AzureMonitorLinuxAgent"
  else "AzureMonitorWindowsAgent".

Definition check_monitor_agent (vm : AzureVmState.t) (extensions : pydict Extension)
  : M bool :=
  let name := get_monitor_agent_name vm in
  match dict_get name extensions with
  | Some ext =>
      let state := provisioningState ext in
      print ("Monitor agent " +++ name +++ " is installed and in state: " +++ state) ;;;
      ret true
  | None => ret false
  end.

(** [json.dumps(settings)] for the nested dictionary of
    [install_monitor_agent]. *)
Definition monitor_settings_json (managed_identity : string) : string :=
  "{" +++ dquote +++ "authentication" +++ dquote +++ ": {"
      +++ dquote +++ "managedIdentity" +++ dquote +++ ": {"
      +++ dquote +++ "identifier-name" +++ dquote +++ ": "
      +++ dquote +++ "mi_res_id" +++ dquote +++ ", "
      +++ dquote +++ "identifier-value" +++ dquote +++ ": "
      +++ json_dumps_str managed_identity +++ "}}}".

Definition install_monitor_agent_cmd (vm : AzureVmState.t)
           (subscription resource_group uami : string) : string :=
  let name := get_monitor_agent_name vm in
  let vm_id :=
    "/subscriptions/" +++ subscription +++ "/resourceGroups/" +++ resource_group
      +++ "/providers/Microsoft.Compute/"
      +++ "virtualMachines/" +++ AzureVmState.name vm in
  let cmd :=
    "vm extension set --name " +++ name +++ " --publisher Microsoft.Azure.Monitor "
      +++ "--ids " +++ vm_id +++ " --enable-auto-upgrade true --no-wait" in
  if AzureVmState.is_windows vm && negb (String.eqb uami "") then
    let managed_identity :=
      "/subscriptions/" +++ subscription +++ "/resourceGroups/" +++ resource_group
        +++ "/providers/"
        +++ "Microsoft.ManagedIdentity/userAssignedIdentities/" +++ uami in
    let data := remove_spaces (monitor_settings_json managed_identity) in
    cmd +++ " --settings '" +++ data +++ "'"
  else cmd.

Definition install_monitor_agent (vm : AzureVmState.t)
           (subscription resource_group uami : string) : M unit :=
  let name := get_monitor_agent_name vm in
  run_az_cmd env (install_monitor_agent_cmd vm subscription resource_group uami)
    ("Installing monitor agent " +++ name +++ " on " +++ AzureVmState.name vm) true ;;;
  ret tt.

(** *** Guest configuration *)

Definition get_guest_configuration_extension_name (vm : AzureVmState.t)
  : string * string :=
  if AzureVmState.is_windows vm
  then ("ConfigurationforWindows", "AzurePolicyforWindows")
  else ("ConfigurationForLinux", "AzurePolicyforLinux").

Definition check_guest_configuration_extension (vm : AzureVmState.t)
           (extensions : pydict Extension) : M bool :=
  let '(_, extension_name) := get_guest_configuration_extension_name vm in
  match dict_get extension_name extensions with
  | Some ext =>
      let state := provisioningState ext in
      print ("Guest configuration extension " +++ extension_name
               +++ " is installed and in state: " +++ state) ;;;
      ret true
  | None => ret false
  end.

Definition install_guest_configuration_extension_cmd (vm : AzureVmState.t)
           (resource_group : string) : string :=
  let '(name, extension_name) := get_guest_configuration_extension_name vm in
  "vm extension set --publisher Microsoft.GuestConfiguration --name " +++ name +++ " "
    +++ "--extension-instance-name " +++ extension_name
    +++ " --resource-group " +++ resource_group +++ " "
    +++ "--vm-name " +++ AzureVmState.name vm +++ " --enable-auto-upgrade true --no-wait".

Definition install_guest_configuration_extension (vm : AzureVmState.t)
           (resource_group : string) : M unit :=
  run_az_cmd env (install_guest_configuration_extension_cmd vm resource_group)
    ("Installing guest extensions on " +++ AzureVmState.name vm) true ;;;
  ret tt.

(** *** AAD SSH login *)

Definition get_aad_ssh_extension_name (vm : AzureVmState.t) : string :=
  if AzureVmState.is_windows vm then "AADLoginForWindows" else "AADSSHLoginForLinux".

Definition check_aad_ssh_login (vm : AzureVmState.t) (extensions : pydict Extension)
  : M bool :=
  let name := get_aad_ssh_extension_name vm in
  match dict_get name extensions with
  | Some ext =>
      let state := provisioningState ext in
      print ("AAD SSH Login extension " +++ name
               +++ " is installed and in state: " +++ state) ;;;
      ret true
  | None => ret false
  end.

Definition install_aad_ssh_login_cmd (vm : AzureVmState.t) (resource_group : string)
  : string :=
  let name := get_aad_ssh_extension_name vm in
  "vm extension set --publisher Microsoft.Azure.ActiveDirectory --name " +++ name +++ " "
    +++ "--resource-group " +++ resource_group +++ " "
    +++ "--vm-name " +++ AzureVmState.name vm +++ " "
    +++ "--no-wait".

Definition install_aad_ssh_login (vm : AzureVmState.t) (resource_group : string)
  : M unit :=
  run_az_cmd env (install_aad_ssh_login_cmd vm resource_group)
    ("Installing aad ssh extension on " +++ AzureVmState.name vm) true ;;;
  ret tt.

(** *** Guest attestation *)

Definition get_guest_attestation_extension_publisher (vm : AzureVmState.t) : string :=
  if AzureVmState.is_windows vm
  then "Microsoft.Azure.Security.WindowsAttestation"
  else "Microsoft.Azure.Security.LinuxAttestation".

Definition check_guest_attestation (vm : AzureVmState.t) (extensions : pydict Extension)
  : M bool :=
  let name := "GuestAttestation" in
  match dict_get name extensions with
  | Some ext =>
      let state := provisioningState ext in
      print ("GuestAttestation extension " +++ name
               +++ " is installed and in state: " +++ state) ;;;
      ret true
  | None => ret false
  end.

Definition install_guest_attestation_cmd (vm : AzureVmState.t) (resource_group : string)
  : string :=
  let publisher := get_guest_attestation_extension_publisher vm in
  "vm extension set --publisher " +++ publisher +++ " --name GuestAttestation "
    +++ "--resource-group " +++ resource_group +++ " "
    +++ "--vm-name " +++ AzureVmState.name vm +++ " "
    +++ "--no-wait".

Definition install_guest_attestation (vm : AzureVmState.t) (resource_group : string)
  : M unit :=
  run_az_cmd env (install_guest_attestation_cmd vm resource_group)
    ("Installing GuestAttestation extension on " +++ AzureVmState.name vm) true ;;;
  ret tt.
End InstallExtensions.

Module Timeout.
Record t := mk {
  title : string;
  interval : Z;
  timeout_seconds : Z;
  start : Z
}.

(** [Timeout.__init__]. *)
Definition init (timeout_seconds interval : Z) (title : string) : M t :=
  now <- time_time ;;
  ret (mk title interval timeout_seconds now).

(** [Timeout.step]. *)
Definition step (self : t) : M bool :=
  now <- time_time ;;
  if (now - start self <? timeout_seconds self)%Z then
    time_sleep (interval self) ;;;
    ret true
  else
    print ("Timeout: " +++ title self) ;;;
    ret false.
End Timeout.

(** Computations that contain a [while] loop: the loop is unrolled at most
    [fuel] times, and [None] stands for a loop that is still running when the
    fuel is spent. *)
Definition P (A : Type) : Type := World -> option (Result A * World).

Definition liftP {A} (m : M A) : P A := fun w => Some (m w).

Definition bindP {A B} (m : P A) (k : A -> P B) : P B :=
  fun w => match m w with
           | None => None
           | Some (Ok a, w') => k a w'
           | Some (Raise e, w') => Some (Raise e, w')
           end.

Section ProcessVm.
Variable env : Env.
Variable json_dumps_str : string -> string.

(** The loop
    [while not vm.is_running() and timeout.step(): vm = monitor.get_vm_state(vm.name)];
    it returns the last value bound to [vm]. *)
Fixpoint wait_for_running (fuel : nat) (monitor : AzureVms.t) (timeout : Timeout.t)
         (vm : AzureVmState.t) : P AzureVmState.t :=
  if negb (AzureVmState.is_running vm) then
    match fuel with
    | O => fun _ => None
    | S fuel' =>
        bindP (liftP (Timeout.step timeout)) (fun again =>
          if again then
            bindP (liftP (AzureVms.get_vm_state env monitor (AzureVmState.name vm)))
                  (fun vm' => wait_for_running fuel' monitor timeout vm')
          else liftP (ret vm))
    end
  else liftP (ret vm).

(** The four [if not check_x(...): install_x(...)] statements, one by one. *)
Definition ensure_monitor_agent (vm : AzureVmState.t) (extensions : pydict Extension)
           (subscription_id resource_group uami : string) : M unit :=
  present <- check_monitor_agent vm extensions ;;
  if negb present
  then install_monitor_agent env json_dumps_str vm subscription_id resource_group uami
  else ret tt.

Definition ensure_guest_configuration_extension (vm : AzureVmState.t)
           (extensions : pydict Extension) (resource_group : string) : M unit :=
  present <- check_guest_configuration_extension vm extensions ;;
  if negb present
  then install_guest_configuration_extension env vm resource_group
  else ret tt.

Definition ensure_aad_ssh_login (vm : AzureVmState.t)
           (extensions : pydict Extension) (resource_group : string) : M unit :=
  present <- check_aad_ssh_login vm extensions ;;
  if negb present then install_aad_ssh_login env vm resource_group else ret tt.

Definition ensure_guest_attestation (vm : AzureVmState.t)
           (extensions : pydict Extension) (resource_group : string) : M unit :=
  present <- check_guest_attestation vm extensions ;;
  if negb present then install_guest_attestation env vm resource_group else ret tt.

(** Lines 179-189 of [process_vm]: the checks over a given listing. *)
Definition install_missing (vm : AzureVmState.t) (extensions : pydict Extension)
           (subscription_id resource_group uami : string) : M unit :=
  ensure_monitor_agent vm extensions subscription_id resource_group uami ;;;
  ensure_guest_configuration_extension vm extensions resource_group ;;;
  ensure_aad_ssh_login vm extensions resource_group ;;;
  ensure_guest_attestation vm extensions resource_group.

(** Lines 178-189 of [process_vm]: list the extensions, then check them. *)
Definition reconcile_extensions (vm : AzureVmState.t)
           (subscription_id resource_group uami : string) : M unit :=
  extensions <- list_extensions env vm resource_group ;;
  install_missing vm extensions subscription_id resource_group uami.

(** Lines 171-176 of [process_vm]: start the VM and wait for it.  Returns
    the controller as mutated by [try_start_vm] and the last [vm]. *)
Definition start_and_wait (fuel : nat) (monitor : AzureVms.t) (vm : AzureVmState.t)
  : P (AzureVms.t * AzureVmState.t) :=
  if negb (AzureVmState.is_running vm) then
    bindP (liftP (print ("Wait for " +++ AzureVmState.name vm +++ " to be running...") ;;;
                  AzureVms.try_start_vm env monitor vm)) (fun '(monitor', vm') =>
    bindP (liftP (Timeout.init 600 15 ("starting vm " +++ AzureVmState.name vm')))
          (fun timeout =>
    bindP (wait_for_running fuel monitor' timeout vm') (fun vm'' =>
    liftP (ret (monitor', vm'')))))
  else liftP (ret (monitor, vm)).

(** [process_vm]; the result is the controller, which the caller shares
    with the next call. *)
Definition process_vm (fuel : nat) (monitor : AzureVms.t) (vm : AzureVmState.t)
           (subscription_id resource_group uami : string) : P AzureVms.t :=
  bindP (liftP (print ("Checking extensions are installed on VM "
                         +++ AzureVmState.name vm +++ "..."))) (fun _ =>
  bindP (start_and_wait fuel monitor vm) (fun '(monitor', vm') =>
  bindP (liftP (reconcile_extensions vm' subscription_id resource_group uami)) (fun _ =>
  liftP (ret monitor')))).
End ProcessVm.

(* ================================================================== *)
(** ** remove_orphaned_accounts.py *)

(** One record of the stale-identity report. *)
Record Identity := mkIdentity {
  RoleName : string;
  PrincipalName : string;
  Scope : string;
  UserName : string;
  IdentityType : string;
  AssignmentType : string
}.

(** The JSON object loaded from the report file: [stale_identities] is the
    value under the key ["Stale identities"], [None] when the key is absent. *)
Record Report := mkReport {
  stale_identities : option (list Identity)
}.

(** [str(n)] for an integer. *)
Definition str_of_Z (z : Z) : string := NilZero.string_of_int (Z.to_int z).

Definition newline : string := String (ascii_of_nat 10) EmptyString.

Definition AttributeError (msg : string) : Exn :=
  mkExn false "<class 'AttributeError'>" msg "".

(** [d.get(key, default)] on a decoded JSON object. *)
Definition dict_get_default (k default : string) (d : pydict string) : string :=
  match dict_get k d with Some v => v | None => default end.

(** [roles_by_scope[scope].add(role_id)], creating the empty set first when
    [scope] is not yet a key. *)
Definition add_role (scope role_id : string) (roles_by_scope : pydict pyset)
  : pydict pyset :=
  let current := match dict_get scope roles_by_scope with
                 | Some s => s
                 | None => []
                 end in
  dict_set scope (set_add role_id current) roles_by_scope.

Section RemoveOrphanedAccounts.
Variable env : Env.
(** The order in which Python iterates over a set. *)
Variable set_iter : pyset -> list string.

Definition list_role_assignments (prompt scope : string) : M AzData :=
  if negb (String.eqb scope "") then
    let cmd := "role assignment list --scope " +++ dquote +++ scope +++ dquote in
    run_az_cmd env cmd prompt false
  else
    let cmd := "role assignment list --all" in
    run_az_cmd env cmd prompt false.

Fixpoint get_unique_users_from (l : list Identity) (unique_users : pyset) : pyset :=
  match l with
  | [] => unique_users
  | identity :: rest =>
      let principal_id := UserName identity in
      get_unique_users_from rest (set_add principal_id unique_users)
  end.

(** [get_unique_users(data)], on the list under ["Stale identities"]. *)
Definition get_unique_users (stale : list Identity) : pyset :=
  get_unique_users_from stale [].

(** The body of the first loop of [check_orphans]. *)
Definition check_user (count pos : nat) (principal_id : string) (to_remove : pyset)
  : M pyset :=
  let cmd := "ad user show --id " +++ principal_id in
  try_except
    (result <- run_az_cmd env cmd
                 ("check user " +++ str_of_nat pos +++ " of " +++ str_of_nat count
                    +++ ": " +++ principal_id +++ " exists") false ;;
     match result with
     | JObject fields =>
         let givenName := dict_get_default "givenName" "" fields in
         let surname := dict_get_default "surname" "" fields in
         let mail := dict_get_default "userPrincipalName" "None" fields in
         print ("  User exists as: " +++ givenName +++ " " +++ surname
                  +++ " <" +++ mail +++ "> therefore is not an orphan!") ;;;
         ret (set_add principal_id to_remove)
     | _ => raise (AttributeError "'list' object has no attribute 'get'")
     end)
    (fun e =>
       let msg := exn_str e in
       if str_in "does not exist" msg then
         print "  ok, we've verified this user really does not exist." ;;;
         ret to_remove
       else
         print ("  Unexpected error, please try " +++ principal_id
                  +++ " again later.") ;;;
         ret (set_add principal_id to_remove)).

(** [for pos, principal_id in enumerate(unique_users): ...]. *)
Fixpoint check_users (count pos : nat) (users : list string) (to_remove : pyset)
  : M pyset :=
  match users with
  | [] => ret to_remove
  | principal_id :: rest =>
      to_remove' <- check_user count pos principal_id to_remove ;;
      check_users count (S pos) rest to_remove'
  end.

(** [for principal_id in to_remove: data[...] = [identity for ... if ...]]. *)
Fixpoint drop_identities (to_remove : list string) (stale : list Identity)
  : list Identity :=
  match to_remove with
  | [] => stale
  | principal_id :: rest =>
      drop_identities rest
        (filter (fun identity => negb (String.eqb (UserName identity) principal_id))
                stale)
  end.

(** [check_orphans(data)].  The first component of the result is the list
    [data["Stale identities"]] holds after the call, the second the number
    [removed], the third the returned boolean. *)
Definition check_orphans (stale : list Identity) : M (list Identity * Z * bool) :=
  let unique_users := get_unique_users stale in
  let count := List.length unique_users in
  to_remove <- check_users count 0 (set_iter unique_users) [] ;;
  let before := stale in
  let after := drop_identities (set_iter to_remove) stale in
  let updated_unique_users := get_unique_users after in
  let new_len := List.length updated_unique_users in
  (if negb (List.length to_remove =? 0)%nat then
     print ("Removed " +++ str_of_nat (List.length to_remove)
              +++ " non-orphaned identities from the list, leaving "
              +++ str_of_nat new_len +++ ".")
   else ret tt) ;;;
  let removed := (Z.of_nat (List.length before) - Z.of_nat (List.length after))%Z in
  (if (removed >? 0)%Z then
     print ("Removed " +++ str_of_Z removed
              +++ " non-orphaned roles from the list, we now have "
              +++ str_of_nat (List.length after) +++ ".")
   else ret tt) ;;;
  ret (after, removed, (removed >? 0)%Z).

(** The body of the loop of [find_orphaned_roles]; the state is
    [(known_good_users, orphaned_roles_by_scope)]. *)
Definition scan_item (item : RoleAssignment) (st : pyset * pydict pyset)
  : M (pyset * pydict pyset) :=
  let '(known_good_users, orphaned_roles_by_scope) := st in
  let principal_type := principalType item in
  if negb (String.eqb principal_type "User") then ret st
  else
    let principal_id := principalId item in
    let principal_name := principalName item in
    if set_mem principal_id known_good_users then ret st
    else
      let known_good_users := set_add principal_id known_good_users in
      try_except
        (data <- run_az_cmd env
                   ("ad user show --id " +++ principal_id +++ " --output json")
                   ("check if principal " +++ principal_id +++ " " +++ principal_name
                      +++ " is an orphan") false ;;
         match data with
         | JObject fields =>
             let givenName := dict_get_default "givenName" "" fields in
             let surname := dict_get_default "surname" "" fields in
             print ("  Principal exists as user " +++ givenName +++ " " +++ surname
                      +++ " therefore is not an orphan!") ;;;
             ret (known_good_users, orphaned_roles_by_scope)
         | _ => raise (AttributeError "'list' object has no attribute 'get'")
         end)
        (fun e =>
           let msg := exn_str e in
           if str_in "does not exist" msg then
             let scope := scope item in
             let role_id := id item in
             ret (known_good_users, add_role scope role_id orphaned_roles_by_scope)
           else
             print ("Unexpected error, please check principal " +++ principal_id
                      +++ " again later.") ;;;
             ret (known_good_users, orphaned_roles_by_scope)).

Fixpoint scan_items (items : list RoleAssignment) (st : pyset * pydict pyset)
  : M (pyset * pydict pyset) :=
  match items with
  | [] => ret st
  | item :: rest => st' <- scan_item item st ;; scan_items rest st'
  end.

(** [find_orphaned_roles()]. *)
Definition find_orphaned_roles : M (pydict pyset) :=
  result <- list_role_assignments
              "list all role assignments to find orphaned accounts" "" ;;
  match result with
  | JRoleAssignments items =>
      st <- scan_items items ([], []) ;; ret (snd st)
  | JObject [] => ret []
  | JObject (_ :: _) => raise (AttributeError "'str' object has no attribute 'get'")
  | JExtensions _ => ret []   (* no item has principalType "User" *)
  end.
End RemoveOrphanedAccounts.

Section RemoveOrphanedAccount.
Variable env : Env.
Variable set_iter : pyset -> list string.

(** [for item in all_roles: ...] of [remove_orphaned_account], over the
    decoded answer cached for [scope]. *)
Fixpoint match_roles (all_roles : list RoleAssignment) (principal_id scope : string)
         (roles_to_remove_by_scope : pydict pyset) : pydict pyset :=
  match all_roles with
  | [] => roles_to_remove_by_scope
  | item :: rest =>
      let role_id := id item in
      if String.eqb (principalId item) principal_id
      then match_roles rest principal_id scope
             (add_role scope role_id roles_to_remove_by_scope)
      else match_roles rest principal_id scope roles_to_remove_by_scope
  end.

(** The body of the loop over [data["Stale identities"]]; the state is
    [(role_assignments_by_scope, roles_to_remove_by_scope)]. *)
Definition lookup_identity (count pos : nat) (identity : Identity)
           (st : pydict AzData * pydict pyset) : M (pydict AzData * pydict pyset) :=
  let '(role_assignments_by_scope, roles_to_remove_by_scope) := st in
  let principal_id := UserName identity in
  let scope := Scope identity in
  role_assignments_by_scope' <-
    (if negb (dict_mem scope role_assignments_by_scope) then
       let prompt := str_of_nat pos +++ " of " +++ str_of_nat count
                       +++ ": list role assignments for scope " +++ scope in
       fetched <- list_role_assignments env prompt scope ;;
       ret (dict_set scope fetched role_assignments_by_scope)
     else ret role_assignments_by_scope) ;;
  match dict_get scope role_assignments_by_scope' with
  | Some (JRoleAssignments all_roles) =>
      ret (role_assignments_by_scope',
           match_roles all_roles principal_id scope roles_to_remove_by_scope)
  | Some (JObject []) | Some (JExtensions []) =>
      ret (role_assignments_by_scope', roles_to_remove_by_scope)
  | Some (JObject (_ :: _)) =>
      raise (TypeError "string indices must be integers, not 'str'")
  | Some (JExtensions (_ :: _)) => raise (KeyError "'id'")
  | None => raise (KeyError scope)
  end.

Fixpoint lookup_identities (count pos : nat) (stale : list Identity)
         (st : pydict AzData * pydict pyset) : M (pydict AzData * pydict pyset) :=
  match stale with
  | [] => ret st
  | identity :: rest =>
      st' <- lookup_identity count pos identity st ;;
      lookup_identities count (S pos) rest st'
  end.

(** Lines 118-140: the role ids to remove for the surviving report entries. *)
Definition collect_roles_to_remove (stale : list Identity) : M (pydict pyset) :=
  print "Looking up role assignment info for orphaned accounts..." ;;;
  let count := List.length stale in
  st <- lookup_identities count 0 stale ([], []) ;;
  ret (snd st).

(** The body of [for role_id in roles]; the state is the list [errors]. *)
Definition remove_role (dry_run : bool) (role_id : string) (errors : list string)
  : M (list string) :=
  if dry_run then
    print ("DRY RUN: would remove role " +++ role_id) ;;; ret errors
  else
    let prompt := "Removing stale role " +++ role_id +++ " ..." in
    let cmd := "role assignment delete --ids " +++ dquote +++ role_id +++ dquote in
    try_except
      (result <- run_az_cmd env cmd prompt true ;;
       match result with
       | JObject fields =>
           match dict_get "provisioningState" fields with
           | Some st => print st ;;; ret errors
           | None => ret errors
           end
       | _ => ret errors
       end)
      (fun e =>
         let msg := exn_str e in
         print ("  Failed to remove role " +++ role_id +++ ": " +++ msg) ;;;
         ret (errors ++ ["Failed to remove role " +++ role_id +++ ": " +++ msg])).

Fixpoint remove_roles (dry_run : bool) (roles : list string) (errors : list string)
  : M (list string) :=
  match roles with
  | [] => ret errors
  | role_id :: rest =>
      errors' <- remove_role dry_run role_id errors ;;
      remove_roles dry_run rest errors'
  end.

(** [for scope, roles in roles_to_remove_by_scope.items(): ...]. *)
Fixpoint remove_scopes (dry_run : bool) (items : pydict pyset) (errors : list string)
  : M (list string) :=
  match items with
  | [] => ret errors
  | (scope, roles) :: rest =>
      (if dry_run then
         print ("DRY_RUN: would remove " +++ str_of_nat (List.length roles)
                  +++ " role assignments from scope " +++ scope)
       else
         print ("Removing " +++ str_of_nat (List.length roles)
                  +++ " role assignments from scope " +++ scope +++ " ...")) ;;;
      errors' <- remove_roles dry_run (set_iter roles) errors ;;
      remove_scopes dry_run rest errors'
  end.

(** Lines 144-174: the deletion phase. *)
Definition delete_roles (roles_to_remove_by_scope : pydict pyset) (dry_run : bool)
  : M unit :=
  if (List.length roles_to_remove_by_scope =? 0)%nat then
    print "No stale role assignments found for orphaned accounts, nothing to remove!"
  else
    errors <- remove_scopes dry_run roles_to_remove_by_scope [] ;;
    match errors with
    | [] => ret tt
    | _ :: _ => print (String.concat newline errors)
    end.

(** [remove_orphaned_account(json_file, dry_run)].  [json_file] is the
    report loaded from the file, [None] when no file name is given. *)
Definition remove_orphaned_account (json_file : option Report) (dry_run : bool)
  : M unit :=
  match json_file with
  | Some data =>
      match stale_identities data with
      | None => print "No 'Stale identities' found"
      | Some stale =>
          checked <- check_orphans env set_iter stale ;;
          let '(stale', _, _) := checked in
          match stale' with
          | [] => print "No stale identities to process"
          | _ :: _ =>
              roles_to_remove_by_scope <- collect_roles_to_remove stale' ;;
              delete_roles roles_to_remove_by_scope dry_run
          end
      end
  | None =>
      roles_to_remove_by_scope <- find_orphaned_roles env ;;
      delete_roles roles_to_remove_by_scope dry_run
  end.
End RemoveOrphanedAccount.

(* ================================================================== *)
(** ** Vocabulary of the properties *)

(** The exclusivity invariant of a VM state. *)
Definition os_exclusive (vm : AzureVmState.t) : Prop :=
  AzureVmState.is_linux vm <> AzureVmState.is_windows vm.

Definition is_begin_start (e : Event) : bool :=
  match e with EvBeginStart _ _ => true | _ => false end.

(** Number of start requests among some events. *)
Definition start_requests (evs : list Event) : nat :=
  List.length (filter is_begin_start evs).

(** Time passing between two calls. *)
Definition advance (dt : Z) (w : World) : World :=
  mkWorld (now w + dt) (trace w).

Definition restart_msg (vm : AzureVmState.t) : string :=
  "VM " +++ AzureVmState.name vm +++ " is deallocated, attempting restart...".

Definition ignoring_msg (vm : AzureVmState.t) : string :=
  "Ignoring request to start vm " +++ AzureVmState.name vm
    +++ " because of capacity restrictions...".

Definition failed_msg (vm : AzureVmState.t) (e : Exn) : string :=
  "VM " +++ AzureVmState.name vm +++ " failed to start: " +++ get_exception_info e.

(** The history the SDK sees when [try_start_vm] asks for the start. *)
Definition start_history (vm : AzureVmState.t) (w : World) : list Event :=
  trace w ++ [EvLog INFO (restart_msg vm)].

(** The world right after the start request returned or raised. *)
Definition start_world (env : Env) (self : AzureVms.t) (vm : AzureVmState.t)
           (w : World) : World :=
  let e := EvBeginStart (AzureVms.resource_group self) (AzureVmState.name vm) in
  mkWorld (now w + Z.of_N (latency env (start_history vm w ++ [e])))
          (start_history vm w ++ [e]).

(** The answer of the SDK to the start request. *)
Definition start_outcome (env : Env) (self : AzureVms.t) (vm : AzureVmState.t)
           (w : World) : option Exn :=
  begin_start_outcome env (start_history vm w)
    (AzureVms.resource_group self) (AzureVmState.name vm).

Definition log_to (w : World) (lvl : Level) (msg : string) : World :=
  mkWorld (now w) (trace w ++ [EvLog lvl msg]).

(** The start request is really made: the controller is not in its
    cool-down window, or the window is over. *)
Definition window_closed (self : AzureVms.t) (w : World) : Prop :=
  AzureVms.unavailable_state self = false \/
  (now w > AzureVms.unavailable_retry_time self)%Z.

(** The [az] command lines among some events, in order. *)
Fixpoint az_commands (evs : list Event) : list string :=
  match evs with
  | [] => []
  | EvAz cmd :: rest => cmd :: az_commands rest
  | _ :: rest => az_commands rest
  end.

(** [l1] is an initial segment of [l2]. *)
Definition initial_segment {A} (l1 l2 : list A) : Prop :=
  exists rest, l2 = l1 ++ rest.




(** *** The identifiers of the four extensions, as the specification lists
    them (section 6), by operating system. *)
Module SpecNames.
Definition monitor_agent (linux : bool) : string :=
  if linux then "AzureMonitorLinuxAgent" else "AzureMonitorWindowsAgent".
End SpecNames.

(** The durations of the sleeps among some events, in order. *)
Fixpoint sleep_events (evs : list Event) : list Z :=
  match evs with
  | [] => []
  | EvSleep s :: rest => s :: sleep_events rest
  | _ :: rest => sleep_events rest
  end.

(** The timeout object [process_vm] builds. *)
Definition poll_timeout (title : string) (start : Z) : Timeout.t :=
  Timeout.mk title 15 600 start.

(** How the polling loop can end with a VM state in hand: the VM runs, or
    the timeout was reached (and only printed). *)
Definition loop_exit (title : string) (start : Z) (vm' : AzureVmState.t)
           (w' : World) (evs : list Event) : Prop :=
  AzureVmState.is_running vm' = true \/
  (AzureVmState.is_running vm' = false /\
   (600 <= now w' - start)%Z /\
   exists evs0, evs = evs0 ++ [EvPrint ("Timeout: " +++ title)]).

Definition print_to (w : World) (msg : string) : World :=
  mkWorld (now w) (trace w ++ [EvPrint msg]).



Definition list_extensions_cmd (vm : AzureVmState.t) (resource_group : string) : string :=
  "vm extension list --resource-group " +++ resource_group
    +++ " --vm-name " +++ AzureVmState.name vm.

(** The set stored under [scope], empty when [scope] is not a key. *)
Definition roles_of (scope : string) (roles_by_scope : pydict pyset) : pyset :=
  match dict_get scope roles_by_scope with
  | Some s => s
  | None => []
  end.

(** Number of role ids held in all the sets together. *)
Fixpoint total_roles (roles_by_scope : pydict pyset) : nat :=
  match roles_by_scope with
  | [] => 0
  | (_, s) :: rest => List.length s + total_roles rest
  end.

Definition lookup_cmd (principal_id : string) : string :=
  "ad user show --id " +++ principal_id.

Definition lookup_description (count pos : nat) (principal_id : string) : string :=
  "check user " +++ str_of_nat pos +++ " of " +++ str_of_nat count
    +++ ": " +++ principal_id +++ " exists".

(** The directory lookup [check_orphans] makes for a principal. *)
Definition lookup (env : Env) (count pos : nat) (principal_id : string) : M AzData :=
  run_az_cmd env (lookup_cmd principal_id) (lookup_description count pos principal_id) false.

Definition unexpected_msg (principal_id : string) : string :=
  "  Unexpected error, please try " +++ principal_id +++ " again later.".

Definition verified_msg : string :=
  "  ok, we've verified this user really does not exist.".

Definition user_exists_msg (fields : pydict string) : string :=
  "  User exists as: " +++ dict_get_default "givenName" "" fields +++ " "
    +++ dict_get_default "surname" "" fields
    +++ " <" +++ dict_get_default "userPrincipalName" "None" fields
    +++ "> therefore is not an orphan!".

(** A user whose lookup, whenever it is made, does not confirm that the user
    is missing ends up in [to_remove]. *)
Definition confirms_missing (r : Result AzData) : bool :=
  match r with
  | Raise e => str_in "does not exist" (exn_str e)
  | Ok _ => false
  end.

(** What is assumed of the order in which a set is iterated: it visits the
    elements of the set, each once. *)
Definition iterates_elements (set_iter : pyset -> list string) : Prop :=
  forall s, Permutation (set_iter s) s.


Definition dry_run_msg (role_id : string) : string :=
  "DRY RUN: would remove role " +++ role_id.

Definition delete_cmd (role_id : string) : string :=
  "role assignment delete --ids " +++ dquote +++ role_id +++ dquote.

Definition list_scope_cmd (scope : string) : string :=
  "role assignment list --scope " +++ dquote +++ scope +++ dquote.

Definition is_user (item : RoleAssignment) : bool :=
  String.eqb (principalType item) "User".

(** The assignments the scan really examines: those of type "User" whose
    principal is neither in [known] nor the principal of an earlier
    examined assignment. *)
Fixpoint first_assignments (known : pyset) (items : list RoleAssignment)
  : list RoleAssignment :=
  match items with
  | [] => []
  | item :: rest =>
      if negb (is_user item) then first_assignments known rest
      else if set_mem (principalId item) known then first_assignments known rest
      else item :: first_assignments (set_add (principalId item) known) rest
  end.

(** The principals seen once the scan has gone through [items]. *)
Fixpoint seen_after (known : pyset) (items : list RoleAssignment) : pyset :=
  match items with
  | [] => known
  | item :: rest =>
      if negb (is_user item) then seen_after known rest
      else seen_after (set_add (principalId item) known) rest
  end.

Definition orphan_lookup_cmd (principal_id : string) : string :=
  "ad user show --id " +++ principal_id +++ " --output json".

(** The elements of [l] selected by a list of booleans. *)
Fixpoint pick {A} (mask : list bool) (l : list A) : list A :=
  match mask, l with
  | b :: mask', x :: l' => if b then x :: pick mask' l' else pick mask' l'
  | _, _ => []
  end.

(** The orphan sets once the role ids of [items] have been added, in order. *)
Definition add_roles_of (items : list RoleAssignment) (orphans : pydict pyset)
  : pydict pyset :=
  fold_left (fun o item => add_role (scope item) (id item) o) items orphans.

(* ================================================================== *)
(** ** Concrete scenarios *)

Definition quote_json (s : string) : string := dquote +++ s +++ dquote.

(** A Linux VM that Azure reports as deallocated. *)
Definition linux_vm_descriptor : VirtualMachine :=
  mkVirtualMachine "vm1" (Some (mkOSProfile None (Some "linux"))) None.

Definition deallocated_view : InstanceView :=
  mkInstanceView [mkStatus (Some "ProvisioningState/succeeded");
                  mkStatus (Some "PowerState/deallocated")].

Definition capacity_conflict : Exn :=
  mkExn true "<class 'azure.core.exceptions.ResourceExistsError'>"
        "Allocation failed: the requested size is not available." "".

(** An environment without latency whose answers do not depend on the
    history: [start] answers start requests, [az] runs commands, [loads]
    decodes their output; the VM is the deallocated Linux VM. *)
Definition scenario_env (start : option Exn) (az : string -> CompletedProcess)
           (loads : string -> Exn + AzData) : Env :=
  mkEnv (fun _ _ _ => start)
        (fun _ _ _ => inr linux_vm_descriptor)
        (fun _ _ _ => inr deallocated_view)
        (fun _ cmd => az cmd)
        loads
        (fun _ => 0%N).

Definition no_extensions_env (start : option Exn) : Env :=
  scenario_env start (fun _ => mkCompleted 0 "[]" "")
               (fun _ => inr (JExtensions [])).

Definition vm1 : AzureVmState.t :=
  AzureVmState.mk "vm1" AzureVmState.DEALLOCATED true false None "sub" "rg"
                  false false 0 0.

Definition win1 : AzureVmState.t :=
  AzureVmState.mk "win1" AzureVmState.RUNNING false true None "sub" "rg"
                  false false 0 0.

Definition fleet : AzureVms.t := AzureVms.init_default "sub" "rg".

Definition noon : World := mkWorld 1000 [].

(** The directory knows nobody and role assignments can be listed. *)
Definition two_assignments : list RoleAssignment :=
  [mkRoleAssignment "/sub/x/roleAssignments/1" "abc" "User" "" "/sub/x";
   mkRoleAssignment "/sub/x/roleAssignments/2" "abc" "User" "" "/sub/x";
   mkRoleAssignment "/sub/x/roleAssignments/3" "xyz" "ServicePrincipal" "" "/sub/x"].

Definition orphan_env : Env :=
  scenario_env None
    (fun cmd => if String.prefix "ad user show" cmd
                then mkCompleted 1 "" "ERROR: Resource 'abc' does not exist."
                else mkCompleted 0 "roles" "")
    (fun _ => inr (JRoleAssignments two_assignments)).

(** The directory knows everybody. *)
Definition real_user_env : Env :=
  scenario_env None (fun _ => mkCompleted 0 "user" "")
    (fun _ => inr (JObject [("givenName", "Ada"); ("surname", "Lovelace");
                            ("userPrincipalName", "ada@example.org")])).

(** The directory cannot be reached. *)
Definition unreachable_env : Env :=
  scenario_env None (fun _ => mkCompleted 1 "" "ERROR: connection reset") 
    (fun _ => inr (JObject [])).

Definition stale_entry (user scope : string) : Identity :=
  mkIdentity "Unknown" "identity not found or stale account" scope user
             "User" "Permanent".

(** Iterating a set in insertion order. *)
Definition insertion_order (s : pyset) : list string := s.

(* ================================================================== *)
(** ** More of azure_vms.py *)

Definition ValueError (msg : string) : Exn := mkExn false "<class 'ValueError'>" msg "".

(** The property [AzureVmState.vm_type]. *)
Definition vm_type (self : AzureVmState.t) : Result string :=
  if AzureVmState.is_linux self then Ok "Linux"
  else if AzureVmState.is_windows self then Ok "Windows11"
  else Raise (ValueError "Unknown VM type!").

Section ListVms.
Variable env : Env.

(** The loop of [AzureVms.list_vms] over the descriptors that
    [client.virtual_machines.list] enumerated. *)
Fixpoint list_vms_from (self : AzureVms.t) (vms : list VirtualMachine)
         (results : pydict AzureVmState.t) : M (pydict AzureVmState.t) :=
  match vms with
  | [] => ret results
  | vm :: rest =>
      let name := sdk_name vm in
      st <- AzureVms.get_vm_state env self name ;;
      list_vms_from self rest (dict_set name st results)
  end.

(** [AzureVms.list_vms]; [listed] is what the SDK's listing call enumerates
    for the resource group. *)
Definition list_vms (self : AzureVms.t) (listed : list VirtualMachine)
  : M (pydict AzureVmState.t) :=
  list_vms_from self listed [].
End ListVms.

(* ================================================================== *)
(** ** More of az_cmd.py *)

(** [s.split(sep)] for a one-character separator. *)
Fixpoint split_on (sep : ascii) (s : string) : list string :=
  match s with
  | EmptyString => [EmptyString]
  | String c rest =>
      if Ascii.eqb c sep then EmptyString :: split_on sep rest
      else match split_on sep rest with
           | part :: parts => String c part :: parts
           | [] => [String c EmptyString]
           end
  end.

(** The loop of [find_az_cmd] over the directories of PATH. *)
Fixpoint find_az_cmd_in (path_join : string -> string -> string)
         (path_exists : string -> bool) (paths : list string) : Result string :=
  match paths with
  | [] => Raise (mkExn false "<class 'Exception'>" "az.cmd not found in PATH" "")
  | path :: rest =>
      let az := path_join path "az.cmd" in
      if path_exists az then Ok az
      else find_az_cmd_in path_join path_exists rest
  end.

(** [find_az_cmd]: [environ_PATH] is [os.environ["PATH"]] ([None] when the
    variable is not set), [pathsep] is [os.pathsep]; [os.path.join] and
    [os.path.exists] are the platform's. *)
Definition find_az_cmd (environ_PATH : option string) (pathsep : ascii)
           (path_join : string -> string -> string)
           (path_exists : string -> bool) : Result string :=
  match environ_PATH with
  | None => Raise (KeyError "'PATH'")
  | Some path => find_az_cmd_in path_join path_exists (split_on pathsep path)
  end.

(* ================================================================== *)
(** ** More of install_extensions.py *)

Section InstallAll.
Variable env : Env.
Variable json_dumps_str : string -> string.

(** The loop [for vm_name in names: ...] of [install_extensions]. *)
Fixpoint select_vms (names : list string) (vms found : pydict AzureVmState.t)
  : M (pydict AzureVmState.t) :=
  match names with
  | [] => ret found
  | vm_name :: rest =>
      match dict_get vm_name vms with
      | None =>
          print ("VM " +++ vm_name +++ " not found") ;;;
          select_vms rest vms found
      | Some vm => select_vms rest vms (dict_set vm_name vm found)
      end
  end.

(** The loop [for vm in vms.values(): process_vm(monitor, vm, ...)]; the
    controller [monitor] is one object shared by all the calls. *)
Fixpoint process_vms (fuel : nat) (monitor : AzureVms.t) (vms : list AzureVmState.t)
         (subscription_id resource_group uami : string) : P AzureVms.t :=
  match vms with
  | [] => liftP (ret monitor)
  | vm :: rest =>
      bindP (process_vm env json_dumps_str fuel monitor vm
               subscription_id resource_group uami)
            (fun monitor' =>
               process_vms fuel monitor' rest subscription_id resource_group uami)
  end.

(** [install_extensions]; [listed] is what the SDK's listing call
    enumerates, [fuel] bounds each polling loop. *)
Definition install_extensions (fuel : nat) (listed : list VirtualMachine)
           (names : list string) (resource_group subscription_id uami : string)
  : P AzureVms.t :=
  bindP (liftP (print "finding vms...")) (fun _ =>
  let monitor := AzureVms.init_default subscription_id resource_group in
  bindP (liftP (list_vms env monitor listed)) (fun vms =>
  bindP (liftP (match names with
                | [] => ret vms
                | _ :: _ => select_vms names vms []
                end)) (fun vms =>
  process_vms fuel monitor (map snd vms) subscription_id resource_group uami))).
End InstallAll.

(* ================================================================== *)
(** ** logger.py *)

Definition PREFIX : string := "smart_replay".

(** The name of the logger [Logger.get_logger(name)] asks [logging] for. *)
Definition get_logger_name (name : string) : string :=
  if startswith name (PREFIX +++ ".") then name
  else PREFIX +++ "." +++ name.

(** The attributes of a [logging.LogRecord] that are read or written. *)
Record LogRecord := mkLogRecord {
  rec_asctime : string;
  rec_hostname : string;
  rec_levelname : string;
  rec_message : string
}.

(** [" ".join(parts)]. *)
Definition join_spaces (parts : list string) : string := String.concat " " parts.

(** [_mirror_format_message]: the record as it is handed to
    [parent.oldFormatMessage]. *)
Definition mirror_format_message (record : LogRecord) : LogRecord :=
  let msg := rec_message record in
  let parts := split_on " "%char msg in
  match parts with
  | p0 :: p1 :: p2 :: p3 :: p4 :: more =>       (* len(parts) > 4 *)
      mkLogRecord (p0 +++ " " +++ p1) p2 p3 (join_spaces (p4 :: more))
  | _ => record
  end.

(* ================================================================== *)
(** ** Vocabulary of the further properties *)

(** The test [status.code and status.code.startswith("PowerState")]. *)
Definition is_power_status (status : InstanceViewStatus) : bool :=
  match code status with
  | Some c => negb (String.eqb c "") && startswith c "PowerState"
  | None => false
  end.

Definition is_sdk_request (e : Event) : bool :=
  match e with
  | EvVmGet _ _ | EvInstanceView _ _ | EvBeginStart _ _ => true
  | _ => false
  end.

(** Number of SDK calls among some events. *)
Definition sdk_requests (evs : list Event) : nat :=
  List.length (filter is_sdk_request evs).

(** The distinct strings of a list, in order of first occurrence. *)
Definition distinct (l : list string) : pyset :=
  fold_left (fun s x => set_add x s) l [].

(** The flags of a VM state that came out of the constructor agree with its
    power state. *)
Definition flags_follow_state (vm : AzureVmState.t) (clock : Z) : Prop :=
  AzureVmState.starting vm = String.eqb (AzureVmState.state vm) AzureVmState.STARTING /\
  AzureVmState.deallocating vm
  = String.eqb (AzureVmState.state vm) AzureVmState.DEALLOCATING /\
  AzureVmState.start_time vm = (if AzureVmState.starting vm then clock else 0%Z) /\
  AzureVmState.deallocate_time vm = (if AzureVmState.deallocating vm then clock else 0%Z).

(** Whether the SDK descriptor exposes a Linux or a Windows configuration. *)
Definition has_linux_configuration (vm : VirtualMachine) : bool :=
  match os_profile vm with
  | Some p => match linux_configuration p with Some _ => true | None => false end
  | None => false
  end.

Definition has_windows_configuration (vm : VirtualMachine) : bool :=
  match os_profile vm with
  | Some p => match windows_configuration p with Some _ => true | None => false end
  | None => false
  end.

(** A descriptor whose OS profile is missing, and an environment that
    serves it. *)
Definition bare_vm_descriptor : VirtualMachine := mkVirtualMachine "vm0" None None.

Definition bare_vm_env : Env :=
  mkEnv (fun _ _ _ => None)
        (fun _ _ _ => inr bare_vm_descriptor)
        (fun _ _ _ => inr deallocated_view)
        (fun _ _ => mkCompleted 0 "[]" "")
        (fun _ => inr (JExtensions []))
        (fun _ => 0%N).

(** The command [list_role_assignments] runs for a scope. *)
Definition list_cmd (scope : string) : string :=
  if String.eqb scope "" then "role assignment list --all" else list_scope_cmd scope.

(** Commands that only read: a directory lookup or a listing of role
    assignments. *)
Definition is_read_only (cmd : string) : bool :=
  startswith cmd "ad user show --id " || startswith cmd "role assignment list ".

(** All the role ids held for deletion, in the order the deletion loop
    visits them. *)
Definition ids_in_order (set_iter : pyset -> list string) (roles_by_scope : pydict pyset)
  : list string :=
  List.concat (map (fun kv => set_iter (snd kv)) roles_by_scope).

(* ================================================================== *)
(** ** Vocabulary of the polling loop and of the deletion loop *)


(** The descriptor requests ([client.virtual_machines.get]) among some
    events, in order: resource group and VM name. *)
Fixpoint vm_get_requests (evs : list Event) : list (string * string) :=
  match evs with
  | [] => []
  | EvVmGet rg vm_name :: rest => (rg, vm_name) :: vm_get_requests rest
  | _ :: rest => vm_get_requests rest
  end.



(** Whether a character occurs in a string. *)
Fixpoint has_char (c : ascii) (s : string) : bool :=
  match s with
  | EmptyString => false
  | String c' rest => Ascii.eqb c' c || has_char c rest
  end.

(** The messages of the deletion loop. *)
Definition removing_scope_msg (roles : pyset) (scope : string) : string :=
  "Removing " +++ str_of_nat (List.length roles)
    +++ " role assignments from scope " +++ scope +++ " ...".

Definition removing_msg (role_id : string) : string :=
  "Removing stale role " +++ role_id +++ " ...".

Definition failure_msg (role_id msg : string) : string :=
  "Failed to remove role " +++ role_id +++ ": " +++ msg.

(* ================================================================== *)
(** * Properties *)

(** ** The VM state model *)

Lemma init_fails_iff name state l wd w :
  (exists e, fst (AzureVmState.init name state l wd w) = Raise e) <-> l = wd.
Proof.
  unfold AzureVmState.init.
  destruct l, wd; cbn; split; intros H; try reflexivity; try discriminate;
    try (eexists; reflexivity); destruct H as [e H];
    repeat match type of H with
           | context [String.eqb ?a ?b] => destruct (String.eqb a b); cbn in H
           end; discriminate.
Qed.

Lemma init_ok_fields name state l wd w vm :
  fst (AzureVmState.init name state l wd w) = Ok vm ->
  AzureVmState.name vm = name /\ AzureVmState.state vm = state /\
  AzureVmState.is_linux vm = l /\ AzureVmState.is_windows vm = wd /\ l <> wd.
Proof.
  unfold AzureVmState.init.
  destruct l, wd; cbn; intros H; try discriminate;
    repeat match type of H with
           | context [String.eqb ?a ?b] => destruct (String.eqb a b); cbn in H
           end; inversion H; subst; cbn; repeat split; discriminate.
Qed.

Lemma init_world name state l wd w :
  snd (AzureVmState.init name state l wd w) = w.
Proof.
  unfold AzureVmState.init.
  destruct l, wd; cbn; try reflexivity;
    repeat match goal with
           | |- context [String.eqb ?a ?b] => destruct (String.eqb a b); cbn
           end; reflexivity.
Qed.

Lemma get_vm_state_exclusive env self vm_name w vm :
  fst (AzureVms.get_vm_state env self vm_name w) = Ok vm -> os_exclusive vm.
Proof.
  unfold AzureVms.get_vm_state, sdk_get, sdk_instance_view, request, bind.
  cbn.
  destruct (vm_get_outcome env _ _ _) as [e | v]; cbn; [discriminate |].
  destruct (instance_view_outcome env _ _ _) as [e | iv]; cbn; [discriminate |].
  match goal with
  | |- context [AzureVmState.init ?n ?s ?l ?wd ?w0] =>
      pose proof (init_ok_fields n s l wd w0) as Hf;
      destruct (AzureVmState.init n s l wd w0) as [[r | e] w1] eqn:Hi
  end; cbn; [| discriminate].
  intros H; inversion H; subst; clear H.
  destruct (Hf r eq_refl) as (_ & _ & Hl & Hw & Hne).
  unfold os_exclusive; cbn. now rewrite Hl, Hw.
Qed.

(** C5.  Constructing a VM state raises the assertion error exactly when
    [is_linux] equals [is_windows] (both or neither configuration present),
    succeeds whenever exactly one of them is true, and every state that was
    constructed, directly or by [get_vm_state], has exactly one of the two
    flags set. *)
Theorem C5_vmstate_os_exclusive :
  forall name state (l wd : bool) (w : World),
    (l = wd ->
       fst (AzureVmState.init name state l wd w)
       = Raise (AzureVmState.AssertionError
                  "is_linux and is_windows are mutually exclusive!")) /\
    (xorb l wd = true ->
       exists vm, fst (AzureVmState.init name state l wd w) = Ok vm) /\
    (forall vm, fst (AzureVmState.init name state l wd w) = Ok vm ->
       os_exclusive vm /\ xorb (AzureVmState.is_linux vm) (AzureVmState.is_windows vm) = true) /\
    (forall env self vm,
       fst (AzureVms.get_vm_state env self name w) = Ok vm -> os_exclusive vm).
Proof.
  intros name state l wd w. repeat split.
  - intros ->. unfold AzureVmState.init. destruct wd; reflexivity.
  - intros Hx.
    destruct (AzureVmState.init name state l wd w) as [[vm | e] w'] eqn:Hi.
    + now exists vm.
    + exfalso. assert (l = wd) as ->.
      { apply (init_fails_iff name state l wd w). exists e. now rewrite Hi. }
      now rewrite xorb_nilpotent in Hx.
  - destruct (init_ok_fields _ _ _ _ _ _ H) as (_ & _ & Hl & Hw & Hne).
    unfold os_exclusive. now rewrite Hl, Hw.
  - destruct (init_ok_fields _ _ _ _ _ _ H) as (_ & _ & Hl & Hw & Hne).
    rewrite Hl, Hw. destruct l, wd; try reflexivity; now elim Hne.
  - intros env self vm. apply get_vm_state_exclusive.
Qed.

(** C6.  Whatever power state a VM holds, [on_start] sets [starting],
    records the current time as start time, forces the state to the
    starting classification and clears [deallocating]; right after it
    [is_starting_or_running] answers true. *)
Theorem C6_on_start_then_starting_or_running :
  forall (vm : AzureVmState.t) (w : World),
    exists vm',
      AzureVmState.on_start vm w = (Ok vm', w) /\
      AzureVmState.starting vm' = true /\
      AzureVmState.start_time vm' = now w /\
      AzureVmState.state vm' = AzureVmState.STARTING /\
      AzureVmState.deallocating vm' = false /\
      AzureVmState.is_starting_or_running vm' = true.
Proof.
  intros vm w. eexists. split; [reflexivity |].
  cbn. repeat split; reflexivity.
Qed.

(** ** The fleet controller: [try_start_vm] *)

Lemma start_attempt_accepted env self vm w :
  start_outcome env self vm w = None ->
  exists vm',
    AzureVms.start_attempt env self vm w = (Ok (self, vm'), start_world env self vm w) /\
    AzureVmState.on_start vm (start_world env self vm w)
    = (Ok vm', start_world env self vm w).
Proof.
  unfold start_outcome, start_history, restart_msg. intros H.
  eexists. split; [| reflexivity].
  unfold AzureVms.start_attempt, try_except, bind, log_info, emit, sdk_begin_start,
    request, bind. cbn [trace now fst snd]. rewrite H. reflexivity.
Qed.

Lemma start_attempt_conflict env self vm w e :
  start_outcome env self vm w = Some e -> exn_conflict e = true ->
  let w1 := start_world env self vm w in
  AzureVms.start_attempt env self vm w
  = (Ok (AzureVms.set_unavailable true (now w1 + AzureVms.unavailable_timeout self)%Z self,
         AzureVmState.set_starting false vm),
     log_to w1 ERROR (failed_msg vm e)).
Proof.
  unfold start_outcome, start_history, restart_msg. intros H Hc.
  unfold AzureVms.start_attempt, try_except, bind, log_info, emit, sdk_begin_start,
    request, bind. cbn [trace now fst snd]. rewrite H.
  unfold raise. cbn [trace now fst snd]. rewrite Hc.
  reflexivity.
Qed.

Lemma start_attempt_other env self vm w e :
  start_outcome env self vm w = Some e -> exn_conflict e = false ->
  let w1 := start_world env self vm w in
  AzureVms.start_attempt env self vm w
  = (Ok (self, AzureVmState.set_starting false vm),
     if str_in AZURE_VM_RUNNING_MSG (exn_str e)
     then log_to w1 WARNING (exn_str e)
     else log_to w1 ERROR (failed_msg vm e)).
Proof.
  unfold start_outcome, start_history, restart_msg. intros H Hc.
  unfold AzureVms.start_attempt, try_except, bind, log_info, emit, sdk_begin_start,
    request, bind. cbn [trace now fst snd]. rewrite H.
  unfold raise. cbn [trace now fst snd]. rewrite Hc.
  destruct (str_in AZURE_VM_RUNNING_MSG (exn_str e)); reflexivity.
Qed.

(** Every start attempt sends exactly one start request and never raises. *)
Lemma start_attempt_one_request env self vm w :
  exists self' vm' evs,
    fst (AzureVms.start_attempt env self vm w) = Ok (self', vm') /\
    trace (snd (AzureVms.start_attempt env self vm w)) = trace w ++ evs /\
    start_requests evs = 1%nat /\
    In (EvBeginStart (AzureVms.resource_group self) (AzureVmState.name vm)) evs.
Proof.
  destruct (start_outcome env self vm w) as [e |] eqn:Ho.
  - destruct (exn_conflict e) eqn:Hc.
    + rewrite (start_attempt_conflict env self vm w e Ho Hc).
      do 2 eexists.
      exists [EvLog INFO (restart_msg vm);
              EvBeginStart (AzureVms.resource_group self) (AzureVmState.name vm);
              EvLog ERROR (failed_msg vm e)].
      cbn. unfold start_history. rewrite <- !app_assoc. cbn.
      repeat split; auto.
    + rewrite (start_attempt_other env self vm w e Ho Hc).
      do 2 eexists.
      destruct (str_in AZURE_VM_RUNNING_MSG (exn_str e)).
      * exists [EvLog INFO (restart_msg vm);
                EvBeginStart (AzureVms.resource_group self) (AzureVmState.name vm);
                EvLog WARNING (exn_str e)].
        cbn. unfold start_history. rewrite <- !app_assoc. cbn. repeat split; auto.
      * exists [EvLog INFO (restart_msg vm);
                EvBeginStart (AzureVms.resource_group self) (AzureVmState.name vm);
                EvLog ERROR (failed_msg vm e)].
        cbn. unfold start_history. rewrite <- !app_assoc. cbn. repeat split; auto.
  - destruct (start_attempt_accepted env self vm w Ho) as (vm' & -> & _).
    do 2 eexists.
    exists [EvLog INFO (restart_msg vm);
            EvBeginStart (AzureVms.resource_group self) (AzureVmState.name vm)].
    cbn. unfold start_history. rewrite <- !app_assoc. cbn. repeat split; auto.
Qed.

Lemma try_start_vm_suppressed env self vm w :
  AzureVms.unavailable_state self = true ->
  (now w <= AzureVms.unavailable_retry_time self)%Z ->
  AzureVms.try_start_vm env self vm w
  = (Ok (self, vm), log_to w WARNING (ignoring_msg vm)).
Proof.
  intros Hs Ht. unfold AzureVms.try_start_vm. rewrite Hs.
  unfold bind, time_time. cbn.
  destruct (now w >? AzureVms.unavailable_retry_time self)%Z eqn:Hg; [lia |].
  reflexivity.
Qed.

Lemma try_start_vm_expired env self vm w :
  AzureVms.unavailable_state self = true ->
  (now w > AzureVms.unavailable_retry_time self)%Z ->
  AzureVms.try_start_vm env self vm w
  = AzureVms.start_attempt env (AzureVms.set_unavailable false 0 self) vm w.
Proof.
  intros Hs Ht. unfold AzureVms.try_start_vm. rewrite Hs.
  unfold bind, time_time. cbn.
  destruct (now w >? AzureVms.unavailable_retry_time self)%Z eqn:Hg; [| lia].
  reflexivity.
Qed.

Lemma try_start_vm_open env self vm w :
  AzureVms.unavailable_state self = false ->
  AzureVms.try_start_vm env self vm w = AzureVms.start_attempt env self vm w.
Proof. intros Hs. unfold AzureVms.try_start_vm. now rewrite Hs. Qed.

Lemma try_start_vm_closed env self vm w :
  window_closed self w ->
  exists self0,
    AzureVms.try_start_vm env self vm w = AzureVms.start_attempt env self0 vm w /\
    AzureVms.unavailable_state self0 = false /\
    AzureVms.resource_group self0 = AzureVms.resource_group self /\
    AzureVms.unavailable_timeout self0 = AzureVms.unavailable_timeout self /\
    (AzureVms.unavailable_state self = false -> self0 = self) /\
    (AzureVms.unavailable_state self = true ->
       self0 = AzureVms.set_unavailable false 0 self).
Proof.
  unfold window_closed. intros Hc.
  destruct (AzureVms.unavailable_state self) eqn:Hs.
  - destruct Hc as [Hc | Hc]; [discriminate |].
    exists (AzureVms.set_unavailable false 0 self).
    rewrite (try_start_vm_expired env self vm w Hs Hc).
    repeat split; auto; discriminate.
  - exists self. rewrite (try_start_vm_open env self vm w Hs).
    repeat split; auto; discriminate.
Qed.

(** C1.  Inside the cool-down window a call only logs a warning: no start
    request, controller and VM unchanged.  The first call after the window
    clears the flag and the retry time and then attempts the start (one
    request).  Two calls, the first of which meets a conflict and the second
    of which falls inside the window so opened, make one start request in
    all, and the second call changes nothing. *)
Theorem C1_cooldown_window :
  forall env (self : AzureVms.t) (vm : AzureVmState.t) (w : World),
    (AzureVms.unavailable_state self = true ->
     (now w <= AzureVms.unavailable_retry_time self)%Z ->
       AzureVms.try_start_vm env self vm w
       = (Ok (self, vm), log_to w WARNING (ignoring_msg vm)) /\
       start_requests [EvLog WARNING (ignoring_msg vm)] = 0%nat) /\
    (AzureVms.unavailable_state self = true ->
     (now w > AzureVms.unavailable_retry_time self)%Z ->
       let cleared := AzureVms.set_unavailable false 0 self in
       AzureVms.unavailable_state cleared = false /\
       AzureVms.unavailable_retry_time cleared = 0%Z /\
       AzureVms.try_start_vm env self vm w = AzureVms.start_attempt env cleared vm w /\
       exists self' vm' evs,
         fst (AzureVms.try_start_vm env self vm w) = Ok (self', vm') /\
         trace (snd (AzureVms.try_start_vm env self vm w)) = trace w ++ evs /\
         start_requests evs = 1%nat) /\
    (forall e dt,
       window_closed self w ->
       start_outcome env self vm w = Some e ->
       exn_conflict e = true ->
       exists self1 vm1 w1,
         AzureVms.try_start_vm env self vm w = (Ok (self1, vm1), w1) /\
         AzureVms.unavailable_state self1 = true /\
         ((0 <= dt)%Z ->
          (now w1 + dt <= AzureVms.unavailable_retry_time self1)%Z ->
          exists w2 evs,
            AzureVms.try_start_vm env self1 vm1 (advance dt w1) = (Ok (self1, vm1), w2) /\
            trace w2 = trace w ++ evs /\
            start_requests evs = 1%nat /\
            evs = [EvLog INFO (restart_msg vm);
                   EvBeginStart (AzureVms.resource_group self) (AzureVmState.name vm);
                   EvLog ERROR (failed_msg vm e);
                   EvLog WARNING (ignoring_msg vm1)])).
Proof.
  intros env self vm w. split; [| split].
  - intros Hs Ht. split; [| reflexivity].
    now apply try_start_vm_suppressed.
  - intros Hs Ht cleared. repeat split.
    + now apply try_start_vm_expired.
    + rewrite (try_start_vm_expired env self vm w Hs Ht).
      destruct (start_attempt_one_request env cleared vm w)
        as (self' & vm' & evs & H1 & H2 & H3 & _).
      exists self', vm', evs. auto.
  - intros e dt Hc Ho He.
    destruct (try_start_vm_closed env self vm w Hc)
      as (self0 & Heq & Hs0 & Hrg & Hto & _).
    assert (Ho0 : start_outcome env self0 vm w = Some e).
    { unfold start_outcome in *. now rewrite Hrg. }
    rewrite Heq, (start_attempt_conflict env self0 vm w e Ho0 He).
    do 3 eexists. split; [reflexivity |]. split; [reflexivity |].
    intros Hdt Hin.
    do 2 eexists. split.
    + rewrite try_start_vm_suppressed; [reflexivity | reflexivity | exact Hin].
    + cbn. unfold start_history. rewrite Hrg, <- !app_assoc. cbn.
      repeat split; reflexivity.
Qed.

(** C2.  When the start request raises, [starting] is cleared in every case.
    A conflict opens the cool-down window: the flag is set and the retry
    time is the current time plus [unavailable_timeout] (600 by default).
    Any other exception leaves the window closed; its text only selects the
    log level: a warning when it contains the guest-agent message, an error
    otherwise. *)
Theorem C2_start_failure_handling :
  forall env (self : AzureVms.t) (vm : AzureVmState.t) (w : World) (e : Exn),
    window_closed self w ->
    start_outcome env self vm w = Some e ->
    let w1 := start_world env self vm w in
    exists self' w',
      AzureVms.try_start_vm env self vm w
      = (Ok (self', AzureVmState.set_starting false vm), w') /\
      AzureVmState.starting (AzureVmState.set_starting false vm) = false /\
      AzureVms.unavailable_timeout self' = AzureVms.unavailable_timeout self /\
      (exn_conflict e = true ->
         AzureVms.unavailable_state self' = true /\
         AzureVms.unavailable_retry_time self'
         = (now w1 + AzureVms.unavailable_timeout self)%Z /\
         w' = log_to w1 ERROR (failed_msg vm e)) /\
      (exn_conflict e = false ->
         AzureVms.unavailable_state self' = false /\
         w' = log_to w1 (if str_in AZURE_VM_RUNNING_MSG (exn_str e)
                         then WARNING else ERROR)
                        (if str_in AZURE_VM_RUNNING_MSG (exn_str e)
                         then exn_str e else failed_msg vm e)) /\
      (forall subscription_id resource_group,
         AzureVms.unavailable_timeout
           (AzureVms.init_default subscription_id resource_group) = 600%Z).
Proof.
  intros env self vm w e Hc Ho w1.
  destruct (try_start_vm_closed env self vm w Hc)
    as (self0 & Heq & Hs0 & Hrg & Hto & _).
  assert (Ho0 : start_outcome env self0 vm w = Some e).
  { unfold start_outcome in *. now rewrite Hrg. }
  assert (Hw : start_world env self0 vm w = w1).
  { unfold w1, start_world. now rewrite Hrg. }
  rewrite Heq. destruct (exn_conflict e) eqn:He.
  - rewrite (start_attempt_conflict env self0 vm w e Ho0 He), Hw.
    do 2 eexists. split; [reflexivity |].
    repeat split; try reflexivity; try discriminate; cbn; auto.
    now rewrite Hto.
  - rewrite (start_attempt_other env self0 vm w e Ho0 He), Hw.
    do 2 eexists. split; [reflexivity |].
    repeat split; try reflexivity; try discriminate; auto.
    destruct (str_in AZURE_VM_RUNNING_MSG (exn_str e)); reflexivity.
Qed.

(** ** The extension reconciler *)

Lemma az_commands_app evs1 evs2 :
  az_commands (evs1 ++ evs2) = az_commands evs1 ++ az_commands evs2.
Proof.
  induction evs1 as [| e evs1 IH]; [reflexivity |].
  destruct e; cbn; now rewrite ?IH.
Qed.


(** The gateway prints the description and runs the command, whatever the
    outcome. *)
Lemma run_az_cmd_trace env cmd description no_data_ok w :
  trace (snd (run_az_cmd env cmd description no_data_ok w))
  = trace w ++ [EvPrint description; EvAz cmd].
Proof.
  unfold run_az_cmd, bind, print, emit, subprocess_run, request, bind, ret, raise.
  cbn [trace now fst snd].
  destruct (negb _); [now rewrite <- app_assoc |].
  destruct (negb _).
  - destruct (json_loads env _); cbn; now rewrite <- app_assoc.
  - destruct (negb _); cbn; now rewrite <- app_assoc.
Qed.

(** What one guarded install does, given the answer of the check's lookup. *)
Section Guarded.
Variable env : Env.

End Guarded.



Section Reconciler.
Variable env : Env.
Variable json_dumps_str : string -> string.
Variable vm : AzureVmState.t.
Variable extensions : pydict Extension.
Variables subscription_id resource_group uami : string.









End Reconciler.


Lemma append_assoc (a b c : string) : (a +++ b) +++ c = a +++ (b +++ c).
Proof. induction a as [| x a IH]; cbn; [reflexivity | now rewrite IH]. Qed.

Lemma os_exclusive_windows vm :
  os_exclusive vm -> AzureVmState.is_windows vm = negb (AzureVmState.is_linux vm).
Proof.
  unfold os_exclusive.
  destruct (AzureVmState.is_linux vm), (AzureVmState.is_windows vm);
    intros H; try reflexivity; now elim H.
Qed.

Section SpecIdentifiers.
Variable vm : AzureVmState.t.
Hypothesis Hos : os_exclusive vm.

Lemma monitor_agent_name_spec :
  get_monitor_agent_name vm = SpecNames.monitor_agent (AzureVmState.is_linux vm).
Proof. reflexivity. Qed.







End SpecIdentifiers.


(** ** Waiting for the VM to run *)

Lemma sleep_events_app evs1 evs2 :
  sleep_events (evs1 ++ evs2) = sleep_events evs1 ++ sleep_events evs2.
Proof.
  induction evs1 as [| e evs1 IH]; [reflexivity |].
  destruct e; cbn; now rewrite ?IH.
Qed.

(** Fetching the VM state takes some time, sends the two SDK requests (one
    when the first raises) and does not sleep. *)
Lemma get_vm_state_effects env monitor vm_name w :
  exists evs,
    trace (snd (AzureVms.get_vm_state env monitor vm_name w)) = trace w ++ evs /\
    (now w <= now (snd (AzureVms.get_vm_state env monitor vm_name w)))%Z /\
    sleep_events evs = [] /\ az_commands evs = [] /\ start_requests evs = 0%nat.
Proof.
  unfold AzureVms.get_vm_state, sdk_get, sdk_instance_view, request, bind.
  cbn [trace now fst snd ret].
  destruct (vm_get_outcome env _ _ _) as [e | v]; cbn [trace now fst snd ret raise].
  - eexists [_]. cbn. repeat split; auto. lia.
  - destruct (instance_view_outcome env _ _ _) as [e | iv];
      cbn [trace now fst snd ret raise].
    + eexists [_; _]. cbn. rewrite <- app_assoc. repeat split; auto. lia.
    + match goal with
      | |- context [AzureVmState.init ?n ?s ?l ?wd ?w0] =>
          pose proof (init_world n s l wd w0) as Hw;
          destruct (AzureVmState.init n s l wd w0) as [[r | e] w1]
      end; cbn [snd] in Hw; subst w1; cbn [trace now fst snd ret raise];
        eexists [_; _]; cbn; rewrite <- app_assoc; repeat split; auto; lia.
Qed.


Lemma wait_for_running_total env :
  forall fuel monitor title start vm w,
    (1 <= fuel)%nat ->
    (600 - (now w - start) <= 15 * (Z.of_nat fuel - 1))%Z ->
    exists res w' evs,
      wait_for_running env fuel monitor (poll_timeout title start) vm w = Some (res, w') /\
      trace w' = trace w ++ evs /\
      (now w <= now w')%Z /\
      az_commands evs = [] /\ start_requests evs = 0%nat /\
      (exists n, sleep_events evs = repeat 15%Z n /\
                 (15 * Z.of_nat n <= Z.max 0 (600 - (now w - start) + 14))%Z) /\
      match res with
      | Ok vm' => loop_exit title start vm' w' evs
      | Raise _ => True
      end.
Proof.
  induction fuel as [| fuel IH]; intros monitor title start vm w Hf Hb; [lia |].
  cbn [wait_for_running].
  destruct (AzureVmState.is_running vm) eqn:Hrun; cbn [negb].
  - exists (Ok vm), w, []. rewrite app_nil_r. repeat split; auto; try lia.
    + exists 0%nat. split; [reflexivity | lia].
    + now left.
  - unfold bindP, liftP, Timeout.step, bind, time_time, time_sleep, print, emit, ret.
    cbn [Timeout.start Timeout.timeout_seconds Timeout.interval Timeout.title
         poll_timeout trace now fst snd].
    destruct (Z.ltb_spec (now w - start) 600) as [Hlt | Hge].
    + (* one more round: sleep, then fetch *)
      set (w1 := mkWorld (now w + 15) (trace w ++ [EvSleep 15])).
      destruct (get_vm_state_effects env monitor (AzureVmState.name vm) w1)
        as (evsg & Htg & Hng & Hsg & Hag & Hrg).
      destruct (AzureVms.get_vm_state env monitor (AzureVmState.name vm) w1)
        as [[vm' | e] w2] eqn:Hg; cbn [fst snd] in *.
      * destruct (IH monitor title start vm' w2) as
          (res & w' & evs & Hw & Ht & Hn & Ha & Hr & (n & Hs & Hnb) & Hres).
        { subst w1; cbn in Hng; lia. }
        { subst w1; cbn in Hng; lia. }
        exists res, w', (EvSleep 15 :: evsg ++ evs).
        split; [exact Hw |]. split.
        { rewrite Ht, Htg. subst w1. cbn. now rewrite <- !app_assoc. }
        split; [subst w1; cbn in Hng; lia |].
        split; [cbn; now rewrite az_commands_app, Hag, Ha |].
        split.
        { unfold start_requests in *. cbn. rewrite filter_app, length_app. lia. }
        split.
        { exists (S n). cbn [sleep_events repeat].
          rewrite sleep_events_app, Hsg, Hs. split; [reflexivity |].
          subst w1; cbn [now] in Hng; lia. }
        destruct res as [vm'' | e]; [| exact I].
        destruct Hres as [Hres | (Hnr & Hto & evs0 & Hev)]; [now left | right].
        repeat split; auto.
        exists (EvSleep 15 :: evsg ++ evs0). rewrite Hev. cbn.
        now rewrite <- app_assoc.
      * exists (Raise e), w2, (EvSleep 15 :: evsg).
        split; [reflexivity |]. split.
        { rewrite Htg. subst w1. cbn. now rewrite <- app_assoc. }
        split; [subst w1; cbn in Hng; lia |].
        split; [cbn; exact Hag |].
        split; [exact Hrg |].
        split; [| exact I].
        exists 1%nat. cbn [sleep_events repeat]. rewrite Hsg.
        split; [reflexivity | lia].
    + (* the timeout is reached: print and leave the loop *)
      exists (Ok vm), (mkWorld (now w) (trace w ++ [EvPrint ("Timeout: " +++ title)])),
        [EvPrint ("Timeout: " +++ title)].
      split; [reflexivity |]. split; [reflexivity |].
      split; [cbn [now]; lia |]. split; [reflexivity |]. split; [reflexivity |].
      split; [exists 0%nat; split; [reflexivity | lia] |].
      right. split; [exact Hrun |]. split; [cbn [now]; lia |]. now exists [].
Qed.

(** More fuel does not change the outcome of a loop that ended. *)
Lemma wait_for_running_more_fuel env :
  forall fuel fuel' monitor timeout vm w r,
    (fuel <= fuel')%nat ->
    wait_for_running env fuel monitor timeout vm w = Some r ->
    wait_for_running env fuel' monitor timeout vm w = Some r.
Proof.
  induction fuel as [| fuel IH]; intros fuel' monitor timeout vm w r Hle H.
  - cbn in H. destruct (AzureVmState.is_running vm) eqn:Hrun; cbn in H; [| discriminate].
    destruct fuel'; cbn; rewrite Hrun; exact H.
  - destruct fuel' as [| fuel']; [lia |].
    cbn [wait_for_running] in *.
    destruct (negb (AzureVmState.is_running vm)); [| exact H].
    unfold bindP, liftP in *.
    destruct (Timeout.step timeout w) as [[[] | e] w1]; try exact H.
    destruct (AzureVms.get_vm_state env monitor (AzureVmState.name vm) w1)
      as [[vm' | e] w2]; try exact H.
    apply IH; [lia | exact H].
Qed.





(** ** Sets and dictionaries *)

Lemma set_mem_In (x : string) (s : pyset) : set_mem x s = true <-> In x s.
Proof.
  unfold set_mem. rewrite existsb_exists. split.
  - intros (y & Hy & E). apply String.eqb_eq in E. now subst.
  - intros H. exists x. split; [exact H | apply String.eqb_refl].
Qed.

Lemma set_add_In (x y : string) (s : pyset) : In y (set_add x s) <-> y = x \/ In y s.
Proof.
  unfold set_add. destruct (set_mem x s) eqn:E.
  - apply set_mem_In in E. split; [auto |]. intros [-> | H]; auto.
  - rewrite in_app_iff. cbn. split.
    + intros [H | [H | []]]; auto.
    + intros [-> | H]; auto.
Qed.

Lemma set_add_NoDup (x : string) (s : pyset) : NoDup s -> NoDup (set_add x s).
Proof.
  intros Hs. unfold set_add. destruct (set_mem x s) eqn:E; [exact Hs |].
  apply NoDup_app; [exact Hs | repeat constructor; auto |].
  intros y Hy [<- | []]. apply set_mem_In in Hy. congruence.
Qed.

Lemma set_add_length (x : string) (s : pyset) :
  (List.length (set_add x s) <= S (List.length s))%nat.
Proof.
  unfold set_add. destruct (set_mem x s); [lia |].
  rewrite length_app. cbn. lia.
Qed.

Lemma dict_get_set_same {V} (k : string) (v : V) (d : pydict V) :
  dict_get k (dict_set k v d) = Some v.
Proof.
  induction d as [| [k' v'] d IH]; cbn.
  - now rewrite String.eqb_refl.
  - destruct (String.eqb k k') eqn:E; cbn; rewrite E; [reflexivity | exact IH].
Qed.

Lemma dict_get_set_other {V} (k k0 : string) (v : V) (d : pydict V) :
  k0 <> k -> dict_get k0 (dict_set k v d) = dict_get k0 d.
Proof.
  intros Hne. induction d as [| [k' v'] d IH]; cbn.
  - apply String.eqb_neq in Hne. now rewrite Hne.
  - destruct (String.eqb k k') eqn:E; cbn.
    + apply String.eqb_eq in E. subst k'.
      apply String.eqb_neq in Hne. now rewrite Hne.
    + destruct (String.eqb k0 k'); [reflexivity | exact IH].
Qed.

Lemma roles_of_add_role_same scope role_id roles :
  roles_of scope (add_role scope role_id roles) = set_add role_id (roles_of scope roles).
Proof. unfold roles_of, add_role. now rewrite dict_get_set_same. Qed.

Lemma roles_of_add_role_other scope scope0 role_id roles :
  scope0 <> scope ->
  roles_of scope0 (add_role scope role_id roles) = roles_of scope0 roles.
Proof. intros H. unfold roles_of, add_role. now rewrite dict_get_set_other. Qed.

Lemma total_roles_dict_set k (s : pyset) (d : pydict pyset) :
  (total_roles (dict_set k s d) + List.length (roles_of k d)
   = total_roles d + List.length s)%nat.
Proof.
  unfold roles_of. induction d as [| [k' s'] d IH]; cbn.
  - lia.
  - destruct (String.eqb k k') eqn:E; cbn; lia.
Qed.

Lemma total_roles_add_role scope role_id roles :
  (total_roles (add_role scope role_id roles) <= S (total_roles roles))%nat.
Proof.
  unfold add_role.
  pose proof (total_roles_dict_set scope
                (set_add role_id (roles_of scope roles)) roles) as H.
  pose proof (set_add_length role_id (roles_of scope roles)) as Hl.
  unfold roles_of in *. lia.
Qed.

(** ** The orphan-role reconciler: filtering the report *)

Section CheckUser.
Variable env : Env.
Variables count pos : nat.
Variable principal_id : string.
Variable to_remove : pyset.
Variable w : World.

Lemma check_user_exists fields w1 :
  lookup env count pos principal_id w = (Ok (JObject fields), w1) ->
  check_user env count pos principal_id to_remove w
  = (Ok (set_add principal_id to_remove), print_to w1 (user_exists_msg fields)).
Proof.
  unfold lookup, lookup_cmd, lookup_description. intros H.
  unfold check_user, try_except, bind. now rewrite H.
Qed.

Lemma check_user_missing e w1 :
  lookup env count pos principal_id w = (Raise e, w1) ->
  str_in "does not exist" (exn_str e) = true ->
  check_user env count pos principal_id to_remove w
  = (Ok to_remove, print_to w1 verified_msg).
Proof.
  unfold lookup, lookup_cmd, lookup_description. intros H Hs.
  unfold check_user, try_except, bind. rewrite H, Hs. reflexivity.
Qed.

Lemma check_user_unexpected e w1 :
  lookup env count pos principal_id w = (Raise e, w1) ->
  str_in "does not exist" (exn_str e) = false ->
  check_user env count pos principal_id to_remove w
  = (Ok (set_add principal_id to_remove), print_to w1 (unexpected_msg principal_id)).
Proof.
  unfold lookup, lookup_cmd, lookup_description. intros H Hs.
  unfold check_user, try_except, bind. rewrite H, Hs. reflexivity.
Qed.

(** In every case the loop body returns, having looked the principal up
    once and printed one verdict; it may only add the principal itself. *)
Lemma check_user_effects :
  exists to_remove' verdict,
    check_user env count pos principal_id to_remove w
    = (Ok to_remove',
       print_to (snd (lookup env count pos principal_id w)) verdict) /\
    (to_remove' = to_remove \/ to_remove' = set_add principal_id to_remove) /\
    trace (print_to (snd (lookup env count pos principal_id w)) verdict)
    = trace w ++ [EvPrint (lookup_description count pos principal_id);
                  EvAz (lookup_cmd principal_id); EvPrint verdict].
Proof.
  pose proof (run_az_cmd_trace env (lookup_cmd principal_id)
                (lookup_description count pos principal_id) false w) as Ht.
  fold (lookup env count pos principal_id) in Ht.
  assert (Htr : forall verdict,
             trace (print_to (snd (lookup env count pos principal_id w)) verdict)
             = trace w ++ [EvPrint (lookup_description count pos principal_id);
                           EvAz (lookup_cmd principal_id); EvPrint verdict]).
  { intros verdict. unfold print_to. cbn [trace]. now rewrite Ht, <- app_assoc. }
  destruct (lookup env count pos principal_id w) as [[data | e] w1] eqn:Hl.
  - destruct data as [fields | exts | items].
    + do 2 eexists. split; [apply (check_user_exists fields w1 Hl) |].
      split; [now right | apply Htr].
    + exists (set_add principal_id to_remove), (unexpected_msg principal_id).
      split; [| split; [now right | apply Htr]].
      unfold lookup, lookup_cmd, lookup_description in Hl.
      unfold check_user, try_except, bind. now rewrite Hl.
    + exists (set_add principal_id to_remove), (unexpected_msg principal_id).
      split; [| split; [now right | apply Htr]].
      unfold lookup, lookup_cmd, lookup_description in Hl.
      unfold check_user, try_except, bind. now rewrite Hl.
  - destruct (str_in "does not exist" (exn_str e)) eqn:Hs.
    + do 2 eexists. split; [apply (check_user_missing e w1 Hl Hs) |].
      split; [now left | apply Htr].
    + do 2 eexists. split; [apply (check_user_unexpected e w1 Hl Hs) |].
      split; [now right | apply Htr].
Qed.
End CheckUser.

(** The loop over the unique users always returns; it keeps what was in
    [to_remove] and adds users of the list only. *)
Lemma check_users_effects env count :
  forall users pos to_remove w,
    exists to_remove' evs,
      fst (check_users env count pos users to_remove w) = Ok to_remove' /\
      trace (snd (check_users env count pos users to_remove w)) = trace w ++ evs /\
      (forall x, In x to_remove -> In x to_remove') /\
      (forall x, In x to_remove' -> In x to_remove \/ In x users) /\
      (NoDup to_remove -> NoDup to_remove').
Proof.
  induction users as [| p users IH]; intros pos to_remove w.
  - exists to_remove, []. cbn. rewrite app_nil_r. repeat split; auto.
  - cbn [check_users]. unfold bind.
    destruct (check_user_effects env count pos p to_remove w)
      as (tr1 & verdict & Hc & Hor & Ht).
    rewrite Hc.
    destruct (IH (S pos) tr1 (print_to (snd (lookup env count pos p w)) verdict))
      as (tr2 & evs & Hf & Htr & Hkeep & Hfrom & Hnd).
    exists tr2, ([EvPrint (lookup_description count pos p);
                  EvAz (lookup_cmd p); EvPrint verdict] ++ evs).
    split; [exact Hf |]. split; [now rewrite Htr, Ht, <- app_assoc |].
    split; [| split].
    + intros x Hx. apply Hkeep. destruct Hor as [-> | ->]; [exact Hx |].
      apply set_add_In. now right.
    + intros x Hx. destruct (Hfrom x Hx) as [H | H]; [| right; now right].
      destruct Hor as [-> | ->]; [now left |].
      apply set_add_In in H. destruct H as [-> | H]; [right; now left | now left].
    + intros Hn. apply Hnd. destruct Hor as [-> | ->]; [exact Hn |].
      now apply set_add_NoDup.
Qed.

Lemma check_user_adds env count pos p to_remove w :
  confirms_missing (fst (lookup env count pos p w)) = false ->
  exists verdict,
    check_user env count pos p to_remove w
    = (Ok (set_add p to_remove), print_to (snd (lookup env count pos p w)) verdict) /\
    (forall e, fst (lookup env count pos p w) = Raise e -> verdict = unexpected_msg p).
Proof.
  intros Hv.
  destruct (lookup env count pos p w) as [[data | e] w1] eqn:Hl; cbn in Hv |- *.
  - destruct data as [fields | exts | items].
    + eexists. split; [apply (check_user_exists env count pos p to_remove w fields w1 Hl) |].
      discriminate.
    + exists (unexpected_msg p). split; [| discriminate].
      unfold lookup, lookup_cmd, lookup_description in Hl.
      unfold check_user, try_except, bind. now rewrite Hl.
    + exists (unexpected_msg p). split; [| discriminate].
      unfold lookup, lookup_cmd, lookup_description in Hl.
      unfold check_user, try_except, bind. now rewrite Hl.
  - exists (unexpected_msg p).
    split; [apply (check_user_unexpected env count pos p to_remove w e w1 Hl Hv) | auto].
Qed.


(** After the filtering loop an entry survives exactly when its principal
    is not one of those to remove. *)
Lemma drop_identities_In :
  forall to_remove stale identity,
    In identity (drop_identities to_remove stale)
    <-> In identity stale /\ ~ In (UserName identity) to_remove.
Proof.
  induction to_remove as [| p to_remove IH]; intros stale identity; cbn.
  - tauto.
  - rewrite IH, filter_In. cbv beta. split.
    + intros [[Hin Hne] Hnot]. split; [exact Hin |].
      intros [E | H]; [| now apply Hnot].
      rewrite <- E, String.eqb_refl in Hne. discriminate.
    + intros [Hin Hnot]. split; [split; [exact Hin |] |].
      * destruct (String.eqb_spec (UserName identity) p) as [E | E]; [| reflexivity].
        exfalso. apply Hnot. now left.
      * intros H. apply Hnot. now right.
Qed.

Lemma get_unique_users_from_In :
  forall stale unique_users x,
    In x (get_unique_users_from stale unique_users)
    <-> In x unique_users \/ In x (map UserName stale).
Proof.
  induction stale as [| identity stale IH]; intros unique_users x; cbn.
  - tauto.
  - rewrite IH, set_add_In. intuition.
Qed.

Lemma get_unique_users_In stale x :
  In x (get_unique_users stale) <-> In x (map UserName stale).
Proof.
  unfold get_unique_users. rewrite get_unique_users_from_In. cbn. tauto.
Qed.

Lemma iterates_singleton set_iter x :
  iterates_elements set_iter -> set_iter [x] = [x].
Proof.
  intros H. apply Permutation_length_1_inv, Permutation_sym, H.
Qed.

Lemma iterates_In set_iter s x :
  iterates_elements set_iter -> (In x (set_iter s) <-> In x s).
Proof.
  intros H. split; apply Permutation_in; [apply H | apply Permutation_sym, H].
Qed.

(** C7.  A report with exactly two entries that share one principal id, and
    a directory lookup that finds the user: both entries are removed (the
    list that is left is empty) and the removed count, the length of the
    original list minus the length of the filtered one, is 2. *)
Theorem C7_two_entries_real_user :
  forall env set_iter (e1 e2 : Identity) (fields : pydict string) (w w1 : World),
    iterates_elements set_iter ->
    UserName e1 = UserName e2 ->
    lookup env 1 0 (UserName e1) w = (Ok (JObject fields), w1) ->
    exists w',
      check_orphans env set_iter [e1; e2] w = (Ok ([], 2%Z, true), w') /\
      (Z.of_nat (List.length [e1; e2]) - Z.of_nat (List.length (@nil Identity)) = 2)%Z /\
      trace w'
      = trace w1
          ++ [EvPrint (user_exists_msg fields);
              EvPrint "Removed 1 non-orphaned identities from the list, leaving 0.";
              EvPrint "Removed 2 non-orphaned roles from the list, we now have 0."].
Proof.
  intros env set_iter e1 e2 fields w w1 Hiter Hsame Hl.
  set (p := UserName e1) in *.
  assert (Hu : get_unique_users [e1; e2] = [p]).
  { unfold get_unique_users. cbn [get_unique_users_from]. fold p. rewrite <- Hsame.
    unfold set_add. cbn [set_mem existsb app]. rewrite String.eqb_refl.
    reflexivity. }
  assert (Hd : drop_identities [p] [e1; e2] = []).
  { cbn [drop_identities filter]. fold p. rewrite <- Hsame.
    rewrite String.eqb_refl. reflexivity. }
  eexists. split; [| split; [reflexivity |]].
  - unfold check_orphans. rewrite Hu. cbn [List.length].
    rewrite (iterates_singleton set_iter p Hiter).
    unfold bind at 1. cbn [check_users]. unfold bind at 1.
    rewrite (check_user_exists env 1 0 p [] w fields w1 Hl).
    unfold ret at 1. unfold set_add. cbn [set_mem existsb app].
    rewrite (iterates_singleton set_iter p Hiter), Hd.
    reflexivity.
  - unfold print_to. cbn [trace]. rewrite <- !app_assoc. reflexivity.
Qed.

(** ** The orphan-role reconciler: deletion candidates *)

Lemma match_roles_In :
  forall all_roles principal_id scope roles scope0 r,
    In r (roles_of scope0 (match_roles all_roles principal_id scope roles)) <->
    In r (roles_of scope0 roles) \/
    (scope0 = scope /\
     exists item, In item all_roles /\ principalId item = principal_id /\ id item = r).
Proof.
  induction all_roles as [| item rest IH]; intros principal_id scope roles scope0 r.
  - cbn. split; [auto |]. intros [H | (_ & item & [] & _)]; exact H.
  - cbn [match_roles].
    destruct (String.eqb_spec (principalId item) principal_id) as [E | E].
    + rewrite IH. split.
      * intros [H | (Hs & it & Hin & Hp & Hi)].
        -- destruct (String.eqb_spec scope0 scope) as [-> | Hne].
           ++ rewrite roles_of_add_role_same in H. apply set_add_In in H.
              destruct H as [-> | H]; [| now left].
              right. split; [reflexivity |]. exists item. cbn. auto.
           ++ rewrite roles_of_add_role_other in H by exact Hne. now left.
        -- right. split; [exact Hs |]. exists it. cbn. auto.
      * intros [H | (Hs & it & [<- | Hin] & Hp & Hi)].
        -- left. destruct (String.eqb_spec scope0 scope) as [-> | Hne].
           ++ rewrite roles_of_add_role_same. apply set_add_In. now right.
           ++ now rewrite roles_of_add_role_other by exact Hne.
        -- left. subst scope0. rewrite roles_of_add_role_same.
           apply set_add_In. now left.
        -- right. split; [exact Hs |]. now exists it.
    + rewrite IH. split.
      * intros [H | (Hs & it & Hin & Hp & Hi)]; [now left |].
        right. split; [exact Hs |]. exists it. cbn. auto.
      * intros [H | (Hs & it & [<- | Hin] & Hp & Hi)]; [now left | contradiction |].
        right. split; [exact Hs |]. now exists it.
Qed.




(** [check_orphans] never raises, and what it leaves in the report is the
    original list without the entries of the users to remove. *)
Lemma check_orphans_result env set_iter stale w :
  exists to_remove w1 w2,
    check_users env (List.length (get_unique_users stale)) 0
      (set_iter (get_unique_users stale)) [] w = (Ok to_remove, w1) /\
    let after := drop_identities (set_iter to_remove) stale in
    let removed := (Z.of_nat (List.length stale) - Z.of_nat (List.length after))%Z in
    check_orphans env set_iter stale w = (Ok (after, removed, (removed >? 0)%Z), w2) /\
    exists evs, trace w2 = trace w1 ++ evs /\ az_commands evs = [].
Proof.
  destruct (check_users_effects env (List.length (get_unique_users stale))
              (set_iter (get_unique_users stale)) 0 [] w)
    as (to_remove & evs & Hf & _).
  destruct (check_users env (List.length (get_unique_users stale)) 0
              (set_iter (get_unique_users stale)) [] w) as [r w1] eqn:Hc.
  cbn [fst] in Hf. subst r.
  exists to_remove, w1.
  assert (H : exists w2,
             check_orphans env set_iter stale w
             = (Ok (drop_identities (set_iter to_remove) stale,
                    (Z.of_nat (List.length stale)
                     - Z.of_nat (List.length (drop_identities (set_iter to_remove) stale)))%Z,
                    (Z.of_nat (List.length stale)
                     - Z.of_nat (List.length (drop_identities (set_iter to_remove) stale))
                     >? 0)%Z), w2) /\
             exists evs, trace w2 = trace w1 ++ evs /\ az_commands evs = []).
  { unfold check_orphans. unfold bind at 1. rewrite Hc. cbv zeta.
    destruct (negb (List.length to_remove =? 0)%nat);
      destruct (Z.of_nat (List.length stale)
                - Z.of_nat (List.length (drop_identities (set_iter to_remove) stale)) >? 0)%Z;
      eexists; (split; [reflexivity |]); unfold print, emit, ret, bind; cbn [trace];
      eexists; (split;
        [first [reflexivity | rewrite <- !app_assoc; reflexivity
                | symmetry; apply app_nil_r]
        | reflexivity]). }
  destruct H as (w2 & H1 & H2). exists w2.
  split; [reflexivity |]. cbv zeta. split; assumption.
Qed.


(** ** The orphan-role reconciler: dry run *)

Lemma az_commands_prints (msgs : list string) :
  az_commands (map EvPrint msgs) = [].
Proof. induction msgs as [| m msgs IH]; [reflexivity | exact IH]. Qed.

Lemma remove_roles_dry_run env :
  forall roles errors w,
    remove_roles env true roles errors w
    = (Ok errors, mkWorld (now w) (trace w ++ map EvPrint (map dry_run_msg roles))).
Proof.
  induction roles as [| r roles IH]; intros errors w.
  - cbn. rewrite app_nil_r. now destruct w.
  - cbn [remove_roles]. unfold bind at 1. unfold remove_role.
    unfold bind at 1. unfold print, emit, ret. rewrite IH. cbn [now trace map].
    now rewrite <- app_assoc.
Qed.

Lemma remove_scopes_dry_run env set_iter :
  forall items errors w,
    exists msgs,
      remove_scopes env set_iter true items errors w
      = (Ok errors, mkWorld (now w) (trace w ++ map EvPrint msgs)) /\
      (forall scope s r, In (scope, s) items -> In r (set_iter s) ->
                         In (dry_run_msg r) msgs).
Proof.
  induction items as [| [scope s] items IH]; intros errors w.
  - exists []. cbn. rewrite app_nil_r. split; [now destruct w | easy].
  - cbn [remove_scopes]. unfold bind at 1. unfold print at 1, emit at 1.
    unfold bind at 1. rewrite remove_roles_dry_run. cbn [now trace].
    match goal with
    | |- context [remove_scopes env set_iter true items errors ?w0] =>
        destruct (IH errors w0) as (msgs & Hr & Hin)
    end.
    rewrite Hr. cbn [now trace].
    eexists (_ :: map dry_run_msg (set_iter s) ++ msgs). split.
    + rewrite <- !app_assoc. cbn [map app]. rewrite map_app. reflexivity.
    + intros scope0 s0 r [E | Hi] Hr0.
      * inversion E; subst. right. apply in_or_app. left. now apply in_map.
      * right. apply in_or_app. right. eapply Hin; eauto.
Qed.

Lemma dict_get_In {V} (k : string) (v : V) (d : pydict V) :
  dict_get k d = Some v -> In (k, v) d.
Proof.
  induction d as [| [k' v'] d IH]; cbn; [discriminate |].
  destruct (String.eqb_spec k k') as [-> | Hne].
  - intros H. inversion H. now left.
  - intros H. right. now apply IH.
Qed.

(** A dry run of the deletion phase returns, runs no command and prints the
    intended removal of every role id it was given. *)
Lemma delete_roles_dry_run env set_iter roles w :
  iterates_elements set_iter ->
  exists msgs,
    delete_roles env set_iter roles true w
    = (Ok tt, mkWorld (now w) (trace w ++ map EvPrint msgs)) /\
    az_commands (map EvPrint msgs) = [] /\
    (forall scope r, In r (roles_of scope roles) -> In (dry_run_msg r) msgs).
Proof.
  intros Hiter. unfold delete_roles.
  destruct roles as [| kv roles].
  - eexists [_]. cbn. split; [reflexivity |]. split; [reflexivity |].
    intros scope r []. 
  - cbn [List.length Nat.eqb]. unfold bind.
    destruct (remove_scopes_dry_run env set_iter (kv :: roles) [] w) as (msgs & Hr & Hin).
    rewrite Hr. exists msgs. split; [reflexivity |].
    split; [apply az_commands_prints |].
    intros scope r Hr0. unfold roles_of in Hr0.
    destruct (dict_get scope (kv :: roles)) as [s |] eqn:Hg; [| easy].
    apply (Hin scope s r); [now apply dict_get_In |].
    now apply (iterates_In set_iter s r Hiter).
Qed.

Lemma iterates_nil set_iter : iterates_elements set_iter -> set_iter [] = [].
Proof. intros H. apply Permutation_nil, Permutation_sym, H. Qed.

(** C8.  The report holds one entry, user "abc" under scope "/sub/x", and
    the directory says that "abc" does not exist.  Then the entry stays in
    the report, the role assignments of the scope are listed (once), the ids
    of the listed assignments whose principal is "abc" make up the removal
    set, and the dry run prints each intended removal without issuing any
    delete command: the lookup and the listing are the only commands run. *)
Theorem C8_report_driven_dry_run :
  forall env set_iter (role_name principal_name identity_type assignment_type : string)
         (e : Exn) (items : list RoleAssignment) (w w1 w4 : World),
    iterates_elements set_iter ->
    let entry := mkIdentity role_name principal_name "/sub/x" "abc"
                   identity_type assignment_type in
    let w2 := print_to w1 verified_msg in
    let w3 := print_to w2 "Looking up role assignment info for orphaned accounts..." in
    lookup env 1 0 "abc" w = (Raise e, w1) ->
    str_in "does not exist" (exn_str e) = true ->
    run_az_cmd env (list_scope_cmd "/sub/x")
      "0 of 1: list role assignments for scope /sub/x" false w3
    = (Ok (JRoleAssignments items), w4) ->
    exists roles evs w',
      check_orphans env set_iter [entry] w = (Ok ([entry], 0%Z, false), w2) /\
      collect_roles_to_remove env [entry] w2 = (Ok roles, w4) /\
      (forall scope r,
         In r (roles_of scope roles) <->
         scope = "/sub/x" /\
         exists item, In item items /\ principalId item = "abc" /\ id item = r) /\
      remove_orphaned_account env set_iter (Some (mkReport (Some [entry]))) true w
      = (Ok tt, w') /\
      trace w' = trace w ++ evs /\
      az_commands evs = [lookup_cmd "abc"; list_scope_cmd "/sub/x"] /\
      (forall r, ~ In (delete_cmd r) (az_commands evs)) /\
      (forall scope r, In r (roles_of scope roles) -> In (EvPrint (dry_run_msg r)) evs).
Proof.
  intros env set_iter role_name principal_name identity_type assignment_type
         e items w w1 w4 Hiter entry w2 w3 Hl Hs Hlist.
  assert (Hco : check_orphans env set_iter [entry] w = (Ok ([entry], 0%Z, false), w2)).
  { unfold check_orphans.
    change (get_unique_users [entry]) with ["abc"]. cbn [List.length].
    rewrite (iterates_singleton set_iter "abc" Hiter).
    unfold bind at 1. cbn [check_users]. unfold bind at 1.
    rewrite (check_user_missing env 1 0 "abc" [] w e w1 Hl Hs).
    unfold ret at 1. rewrite (iterates_nil set_iter Hiter). reflexivity. }
  assert (Hcol : collect_roles_to_remove env [entry] w2
                 = (Ok (match_roles items "abc" "/sub/x" []), w4)).
  { unfold collect_roles_to_remove. unfold bind at 1. unfold print, emit.
    change (mkWorld (now w2)
              (trace w2 ++ [EvPrint "Looking up role assignment info for orphaned accounts..."]))
      with w3.
    cbn [List.length lookup_identities]. unfold bind at 1. unfold bind at 1.
    unfold lookup_identity. cbn [dict_mem dict_get negb UserName Scope entry].
    unfold bind at 1. unfold bind at 1. unfold list_role_assignments.
    change (negb (String.eqb "/sub/x" "")) with true. cbv iota.
    change (run_az_cmd env _ _ false w3)
      with (run_az_cmd env (list_scope_cmd "/sub/x")
              "0 of 1: list role assignments for scope /sub/x" false w3).
    rewrite Hlist. reflexivity. }
  set (roles := match_roles items "abc" "/sub/x" []) in *.
  destruct (delete_roles_dry_run env set_iter roles w4 Hiter) as (msgs & Hdel & Haz & Hpr).
  pose proof (run_az_cmd_trace env (lookup_cmd "abc")
                (lookup_description 1 0 "abc") false w) as Ht1.
  fold (lookup env 1 0 "abc") in Ht1. rewrite Hl in Ht1. cbn [snd] in Ht1.
  pose proof (run_az_cmd_trace env (list_scope_cmd "/sub/x")
                "0 of 1: list role assignments for scope /sub/x" false w3) as Ht4.
  rewrite Hlist in Ht4. cbn [snd] in Ht4.
  exists roles.
  exists ([EvPrint (lookup_description 1 0 "abc"); EvAz (lookup_cmd "abc");
           EvPrint verified_msg;
           EvPrint "Looking up role assignment info for orphaned accounts...";
           EvPrint "0 of 1: list role assignments for scope /sub/x";
           EvAz (list_scope_cmd "/sub/x")] ++ map EvPrint msgs).
  eexists.
  split; [exact Hco |]. split; [exact Hcol |]. split.
  { intros scope r. unfold roles. rewrite match_roles_In. cbn [roles_of dict_get].
    split.
    - intros [[] | H]; exact H.
    - intros H. now right. }
  split.
  { unfold remove_orphaned_account. cbn [stale_identities].
    unfold bind at 1. rewrite Hco. cbv iota beta.
    unfold bind at 1. rewrite Hcol. exact Hdel. }
  split.
  { cbn [trace]. rewrite Ht4. unfold w3, w2, print_to. cbn [trace]. rewrite Ht1.
    rewrite <- !app_assoc. reflexivity. }
  assert (Hcmds : az_commands
                    ([EvPrint (lookup_description 1 0 "abc"); EvAz (lookup_cmd "abc");
                      EvPrint verified_msg;
                      EvPrint "Looking up role assignment info for orphaned accounts...";
                      EvPrint "0 of 1: list role assignments for scope /sub/x";
                      EvAz (list_scope_cmd "/sub/x")] ++ map EvPrint msgs)
                  = [lookup_cmd "abc"; list_scope_cmd "/sub/x"]).
  { rewrite az_commands_app, Haz. reflexivity. }
  split; [exact Hcmds |]. split.
  { intros r. rewrite Hcmds. intros [H | [H | []]]; discriminate H. }
  intros scope r Hr. apply in_or_app. right. apply in_map. now apply (Hpr scope).
Qed.

(** ** The orphan-role reconciler: the discovery scan *)

Lemma scan_item_skip env item known orphans w :
  is_user item = false \/ set_mem (principalId item) known = true ->
  scan_item env item (known, orphans) w = (Ok (known, orphans), w).
Proof.
  unfold scan_item, is_user. intros [H | H].
  - now rewrite H.
  - destruct (negb _); [reflexivity |]. now rewrite H.
Qed.

(** An examined assignment: one lookup, the principal becomes known, and at
    most one role id is added. *)
Lemma scan_item_lookup env item known orphans w :
  is_user item = true -> set_mem (principalId item) known = false ->
  exists orphans' evs,
    fst (scan_item env item (known, orphans) w)
    = Ok (set_add (principalId item) known, orphans') /\
    trace (snd (scan_item env item (known, orphans) w)) = trace w ++ evs /\
    az_commands evs = [orphan_lookup_cmd (principalId item)] /\
    (orphans' = orphans \/
     orphans' = add_role (scope item) (id item) orphans) /\
    (total_roles orphans' <= S (total_roles orphans))%nat.
Proof.
  intros Hu Hk. unfold scan_item. unfold is_user in Hu. rewrite Hu, Hk. cbn [negb].
  fold (orphan_lookup_cmd (principalId item)).
  unfold try_except, bind.
  match goal with
  | |- context [run_az_cmd env ?c ?d false w] =>
      pose proof (run_az_cmd_trace env c d false w) as Ht;
      destruct (run_az_cmd env c d false w) as [[data | e] w1]
  end; cbn [fst snd] in *.
  - destruct data as [fields | exts | items];
      unfold print, emit, ret, raise; cbn [fst snd trace now exn_str AttributeError];
      try change (str_in "does not exist" "'list' object has no attribute 'get'")
        with false; cbv iota; cbn [fst snd trace now];
      eexists; eexists [_; _; _];
      (split; [reflexivity |]); (split; [rewrite Ht, <- app_assoc; reflexivity |]);
      (split; [reflexivity |]); (split; [now left | lia]).
  - destruct (str_in "does not exist" (exn_str e));
      unfold print, emit, ret; cbn [fst snd trace now].
    + eexists; eexists [_; _].
      split; [reflexivity |]. split; [exact Ht |]. split; [reflexivity |].
      split; [now right | apply total_roles_add_role].
    + eexists; eexists [_; _; _].
      split; [reflexivity |]. split; [rewrite Ht, <- app_assoc; reflexivity |].
      split; [reflexivity |]. split; [now left | lia].
Qed.

Lemma scan_items_first env :
  forall items known orphans w,
    scan_items env items (known, orphans) w
    = scan_items env (first_assignments known items) (known, orphans) w.
Proof.
  induction items as [| item rest IH]; intros known orphans w; [reflexivity |].
  cbn [scan_items first_assignments].
  destruct (is_user item) eqn:Hu; cbn [negb].
  - destruct (set_mem (principalId item) known) eqn:Hk.
    + unfold bind. rewrite scan_item_skip by now right. apply IH.
    + cbn [scan_items]. unfold bind.
      destruct (scan_item_lookup env item known orphans w Hu Hk)
        as (orphans' & evs & Hf & _).
      destruct (scan_item env item (known, orphans) w) as [r w1].
      cbn [fst] in Hf. subst r. apply IH.
  - unfold bind. rewrite scan_item_skip by now left. apply IH.
Qed.

Lemma first_assignments_fresh :
  forall items known item,
    In item (first_assignments known items) ->
    is_user item = true /\ ~ In (principalId item) known.
Proof.
  induction items as [| a rest IH]; intros known item; cbn; [easy |].
  destruct (is_user a) eqn:Hu; cbn [negb]; [| apply IH].
  destruct (set_mem (principalId a) known) eqn:Hk; [apply IH |].
  intros [<- | H].
  - split; [exact Hu |]. intros Hin. apply set_mem_In in Hin. congruence.
  - destruct (IH _ _ H) as [H1 H2]. split; [exact H1 |].
    intros Hin. apply H2, set_add_In. now right.
Qed.

Lemma first_assignments_NoDup :
  forall items known, NoDup (map principalId (first_assignments known items)).
Proof.
  induction items as [| a rest IH]; intros known; cbn; [constructor |].
  destruct (is_user a); cbn [negb]; [| apply IH].
  destruct (set_mem (principalId a) known); [apply IH |].
  cbn. constructor; [| apply IH].
  intros Hin. apply in_map_iff in Hin. destruct Hin as (x & Hx & Hxin).
  apply first_assignments_fresh in Hxin. destruct Hxin as [_ Hn].
  apply Hn, set_add_In. now left.
Qed.

Lemma pydict_eq_dec (a b : pydict pyset) : {a = b} + {a <> b}.
Proof.
  apply list_eq_dec. intros [k1 s1] [k2 s2].
  destruct (string_dec k1 k2) as [-> | Hk];
    [| right; intros H; inversion H; contradiction].
  destruct (list_eq_dec string_dec s1 s2) as [-> | Hs];
    [now left | right; intros H; inversion H; contradiction].
Defined.

Lemma pick_NoDup {A B} (f : A -> B) :
  forall (mask : list bool) (l : list A),
    NoDup (map f l) -> NoDup (map f (pick mask l)) /\ incl (pick mask l) l.
Proof.
  induction mask as [| b mask IH]; intros l Hnd.
  - cbn. split; [constructor | easy].
  - destruct l as [| x l]; cbn; [split; [constructor | easy] |].
    cbn in Hnd. inversion Hnd as [| ? ? Hx Hl]; subst.
    destruct (IH l Hl) as [Hn Hi].
    destruct b; cbn.
    + split.
      * constructor; [| exact Hn]. intros Hin. apply Hx.
        apply in_map_iff in Hin. destruct Hin as (y & Hy & Hyin).
        apply in_map_iff. exists y. split; [exact Hy | now apply Hi].
      * intros y [-> | Hy]; [now left | right; now apply Hi].
    + split; [exact Hn |]. intros y Hy. right. now apply Hi.
Qed.

(** The whole scan: it returns, it looks up each examined principal once,
    in order, and what it collects is the role id of some of the examined
    assignments, one id for each assignment chosen. *)
Lemma scan_items_effects env :
  forall items known orphans w,
    exists known' orphans' evs mask,
      fst (scan_items env items (known, orphans) w) = Ok (known', orphans') /\
      trace (snd (scan_items env items (known, orphans) w)) = trace w ++ evs /\
      az_commands evs
      = map orphan_lookup_cmd (map principalId (first_assignments known items)) /\
      orphans' = add_roles_of (pick mask (first_assignments known items)) orphans /\
      (total_roles orphans'
       <= total_roles orphans + List.length (first_assignments known items))%nat.
Proof.
  induction items as [| item rest IH]; intros known orphans w.
  - exists known, orphans, [], []. cbn. rewrite app_nil_r. repeat split; auto. lia.
  - cbn [scan_items first_assignments]. unfold bind.
    destruct (is_user item) eqn:Hu; cbn [negb].
    + destruct (set_mem (principalId item) known) eqn:Hk.
      * rewrite scan_item_skip by now right. apply IH.
      * destruct (scan_item_lookup env item known orphans w Hu Hk)
          as (orphans1 & evs1 & Hf & Ht & Ha & Hor & Hn).
        destruct (scan_item env item (known, orphans) w) as [r w1].
        cbn [fst snd] in Hf, Ht. subst r.
        destruct (IH (set_add (principalId item) known) orphans1 w1)
          as (known' & orphans' & evs & mask & Hf2 & Ht2 & Ha2 & Hpick & Hn2).
        exists known', orphans', (evs1 ++ evs).
        exists ((if pydict_eq_dec orphans1 orphans then false else true) :: mask).
        split; [exact Hf2 |]. split; [now rewrite Ht2, Ht, app_assoc |].
        split; [rewrite az_commands_app, Ha, Ha2; reflexivity |].
        split; [| cbn [List.length]; lia].
        cbn [pick]. destruct (pydict_eq_dec orphans1 orphans) as [E | E].
        -- now rewrite <- E.
        -- destruct Hor as [Hor | Hor]; [contradiction |].
           cbn [add_roles_of fold_left]. rewrite <- Hor. exact Hpick.
    + rewrite scan_item_skip by now left. apply IH.
Qed.

Lemma seen_after_keeps :
  forall items known x, In x known -> In x (seen_after known items).
Proof.
  induction items as [| a rest IH]; intros known x Hx; cbn; [exact Hx |].
  destruct (is_user a); cbn [negb]; apply IH; [apply set_add_In; now right | exact Hx].
Qed.

Lemma seen_after_In :
  forall items known first,
    In first items -> is_user first = true ->
    In (principalId first) (seen_after known items).
Proof.
  induction items as [| a rest IH]; intros known first Hin Hu; [easy |].
  cbn. destruct Hin as [-> | Hin].
  - rewrite Hu. cbn [negb]. apply seen_after_keeps, set_add_In. now left.
  - destruct (is_user a); cbn [negb]; now apply IH.
Qed.

Lemma first_assignments_app :
  forall l1 l2 known,
    first_assignments known (l1 ++ l2)
    = first_assignments known l1 ++ first_assignments (seen_after known l1) l2.
Proof.
  induction l1 as [| a l1 IH]; intros l2 known; [reflexivity |].
  cbn [app first_assignments seen_after].
  destruct (is_user a); cbn [negb]; [| apply IH].
  destruct (set_mem (principalId a) known) eqn:Hk.
  - rewrite IH. unfold set_add. now rewrite Hk.
  - cbn [app]. now rewrite IH.
Qed.

(** A later assignment of a principal already examined is skipped: the scan
    over the listing and over the listing without it are the same run. *)
Lemma scan_items_later_assignment env l1 item l2 first w :
  In first l1 -> is_user first = true -> principalId first = principalId item ->
  scan_items env (l1 ++ item :: l2) ([], []) w = scan_items env (l1 ++ l2) ([], []) w.
Proof.
  intros Hin Hu Hp.
  rewrite (scan_items_first env (l1 ++ item :: l2)), (scan_items_first env (l1 ++ l2)).
  rewrite !first_assignments_app. cbn [first_assignments].
  destruct (is_user item); cbn [negb]; [| reflexivity].
  assert (Hk : set_mem (principalId item) (seen_after [] l1) = true).
  { apply set_mem_In. rewrite <- Hp. now apply seen_after_In. }
  now rewrite Hk.
Qed.

(** C9.  In the discovery scan the run over a listing is the run over its
    first "User" assignment per principal id: each of those principals is
    looked up once, a later assignment of a principal already seen is
    skipped without any effect, and the orphan sets are made of the role id
    of some of those first assignments, so at most one role id per distinct
    principal is collected. *)
Theorem C9_one_role_per_principal :
  forall env (items : list RoleAssignment) (w : World),
    let firsts := first_assignments [] items in
    scan_items env items ([], []) w = scan_items env firsts ([], []) w /\
    NoDup (map principalId firsts) /\
    (exists known orphans evs mask,
       fst (scan_items env items ([], []) w) = Ok (known, orphans) /\
       trace (snd (scan_items env items ([], []) w)) = trace w ++ evs /\
       az_commands evs = map orphan_lookup_cmd (map principalId firsts) /\
       orphans = add_roles_of (pick mask firsts) [] /\
       NoDup (map principalId (pick mask firsts)) /\
       incl (pick mask firsts) firsts /\
       (total_roles orphans <= List.length (map principalId firsts))%nat) /\
    (forall l1 item l2 first,
       items = l1 ++ item :: l2 ->
       In first l1 -> is_user first = true -> principalId first = principalId item ->
       scan_items env items ([], []) w = scan_items env (l1 ++ l2) ([], []) w) /\
    (forall w0,
       list_role_assignments env
         "list all role assignments to find orphaned accounts" "" w0
       = (Ok (JRoleAssignments items), w) ->
       find_orphaned_roles env w0
       = (match scan_items env items ([], []) w with
          | (Ok st, w') => (Ok (snd st), w')
          | (Raise e, w') => (Raise e, w')
          end)).
Proof.
  intros env items w firsts. split; [apply scan_items_first |].
  split; [apply first_assignments_NoDup |]. split; [| split].
  - destruct (scan_items_effects env items [] [] w)
      as (known & orphans & evs & mask & Hf & Ht & Ha & Hpick & Hn).
    destruct (pick_NoDup principalId mask firsts (first_assignments_NoDup items []))
      as [Hnd Hincl].
    exists known, orphans, evs, mask. rewrite length_map. cbn in Hn.
    repeat split; auto.
  - intros l1 item l2 first -> Hin Hu Hp.
    now apply (scan_items_later_assignment env l1 item l2 first w).
  - intros w0 Hl. unfold find_orphaned_roles, bind. rewrite Hl.
    destruct (scan_items env items ([], []) w) as [[st | e] w']; reflexivity.
Qed.

(* ================================================================== *)
(** * The properties on the concrete scenarios *)

Lemma insertion_order_iterates : iterates_elements insertion_order.
Proof. intros s. apply Permutation_refl. Defined.

(** A capacity conflict at noon, then a second call five minutes later. *)
Lemma C1_cooldown_window_witness :
  window_closed fleet noon /\
  start_outcome (no_extensions_env (Some capacity_conflict)) fleet vm1 noon
  = Some capacity_conflict /\
  exists self1 vm' w1 w2 evs,
    AzureVms.try_start_vm (no_extensions_env (Some capacity_conflict)) fleet vm1 noon
    = (Ok (self1, vm'), w1) /\
    AzureVms.unavailable_retry_time self1 = 1600%Z /\
    AzureVms.try_start_vm (no_extensions_env (Some capacity_conflict)) self1 vm'
      (advance 300 w1) = (Ok (self1, vm'), w2) /\
    trace w2 = trace noon ++ evs /\ start_requests evs = 1%nat.
Proof.
  split; [left; reflexivity |]. split; [reflexivity |].
  destruct (C1_cooldown_window (no_extensions_env (Some capacity_conflict))
              fleet vm1 noon) as (_ & _ & H).
  destruct (H capacity_conflict 300%Z (or_introl eq_refl) eq_refl eq_refl)
    as (self1 & vm' & w1 & H1 & _ & H2).
  assert (Hc : now w1 = 1000%Z /\ AzureVms.unavailable_retry_time self1 = 1600%Z).
  { vm_compute in H1. inversion H1. split; reflexivity. }
  destruct Hc as [Hnow Hretry].
  destruct H2 as (w2 & evs & Hsecond & Htr & Hn & _); [lia | lia |].
  exists self1, vm', w1, w2, evs. split; [exact H1 |]. split; [exact Hretry |].
  split; [exact Hsecond |]. split; [exact Htr | exact Hn].
Defined.

Lemma C2_start_failure_handling_witness :
  window_closed fleet noon /\
  start_outcome (no_extensions_env (Some capacity_conflict)) fleet vm1 noon
  = Some capacity_conflict /\
  exists self' w',
    AzureVms.try_start_vm (no_extensions_env (Some capacity_conflict)) fleet vm1 noon
    = (Ok (self', AzureVmState.set_starting false vm1), w') /\
    AzureVms.unavailable_state self' = true /\
    AzureVms.unavailable_retry_time self' = (1000 + 600)%Z.
Proof.
  split; [left; reflexivity |]. split; [reflexivity |].
  destruct (C2_start_failure_handling (no_extensions_env (Some capacity_conflict))
              fleet vm1 noon capacity_conflict (or_introl eq_refl) eq_refl)
    as (self' & w' & Hrun & _ & _ & Hconflict & _).
  destruct (Hconflict eq_refl) as (Hs & Hr & _).
  exists self', w'. split; [exact Hrun |]. split; [exact Hs | exact Hr].
Defined.

Lemma vm1_os_exclusive : os_exclusive vm1.
Proof. unfold os_exclusive. cbn. discriminate. Defined.



Lemma C5_vmstate_os_exclusive_witness :
  fst (AzureVmState.init "vm1" AzureVmState.RUNNING true true noon)
  = Raise (AzureVmState.AssertionError "is_linux and is_windows are mutually exclusive!") /\
  fst (AzureVmState.init "vm1" AzureVmState.RUNNING false false noon)
  = Raise (AzureVmState.AssertionError "is_linux and is_windows are mutually exclusive!") /\
  exists vm, fst (AzureVmState.init "vm1" AzureVmState.RUNNING true false noon) = Ok vm.
Proof.
  split; [| split].
  - exact (proj1 (C5_vmstate_os_exclusive "vm1" AzureVmState.RUNNING true true noon)
             eq_refl).
  - exact (proj1 (C5_vmstate_os_exclusive "vm1" AzureVmState.RUNNING false false noon)
             eq_refl).
  - exact (proj1 (proj2 (C5_vmstate_os_exclusive "vm1" AzureVmState.RUNNING
                           true false noon)) eq_refl).
Defined.

Lemma C7_two_entries_real_user_witness :
  iterates_elements insertion_order /\
  UserName (stale_entry "p" "/s1") = UserName (stale_entry "p" "/s2") /\
  exists w',
    check_orphans real_user_env insertion_order
      [stale_entry "p" "/s1"; stale_entry "p" "/s2"] noon
    = (Ok ([], 2%Z, true), w').
Proof.
  split; [exact insertion_order_iterates |]. split; [reflexivity |].
  destruct (C7_two_entries_real_user real_user_env insertion_order
              (stale_entry "p" "/s1") (stale_entry "p" "/s2")
              [("givenName", "Ada"); ("surname", "Lovelace");
               ("userPrincipalName", "ada@example.org")]
              noon (snd (lookup real_user_env 1 0 "p" noon))
              insertion_order_iterates eq_refl eq_refl)
    as (w' & Hrun & _).
  exists w'. exact Hrun.
Defined.

Lemma C8_report_driven_dry_run_witness :
  iterates_elements insertion_order /\
  (exists e,
     fst (lookup orphan_env 1 0 "abc" noon) = Raise e /\
     str_in "does not exist" (exn_str e) = true) /\
  exists evs,
    trace (snd (remove_orphaned_account orphan_env insertion_order
                  (Some (mkReport (Some [stale_entry "abc" "/sub/x"]))) true noon))
    = evs /\
    az_commands evs = [lookup_cmd "abc"; list_scope_cmd "/sub/x"] /\
    In (EvPrint (dry_run_msg "/sub/x/roleAssignments/1")) evs /\
    In (EvPrint (dry_run_msg "/sub/x/roleAssignments/2")) evs.
Proof.
  split; [exact insertion_order_iterates |].
  split; [eexists; split; reflexivity |].
  destruct (C8_report_driven_dry_run orphan_env insertion_order
              "Unknown" "identity not found or stale account" "User" "Permanent"
              (mkExn false "<class 'Exception'>"
                 "Error check user 0 of 1: abc exists: ERROR: Resource 'abc' does not exist."
                 "")
              two_assignments noon
              (snd (lookup orphan_env 1 0 "abc" noon))
              (snd (run_az_cmd orphan_env (list_scope_cmd "/sub/x")
                      "0 of 1: list role assignments for scope /sub/x" false
                      (print_to (print_to (snd (lookup orphan_env 1 0 "abc" noon))
                                   verified_msg)
                         "Looking up role assignment info for orphaned accounts...")))
              insertion_order_iterates eq_refl eq_refl eq_refl)
    as (roles & evs & w' & _ & _ & Hroles & Hrun & Htr & Haz & _ & Hpr).
  exists evs. unfold stale_entry. rewrite Hrun. cbn [snd].
  split; [exact Htr |]. split; [exact Haz |].
  split; apply (Hpr "/sub/x"), Hroles; (split; [reflexivity |]).
  - exists (mkRoleAssignment "/sub/x/roleAssignments/1" "abc" "User" "" "/sub/x").
    cbn. auto.
  - exists (mkRoleAssignment "/sub/x/roleAssignments/2" "abc" "User" "" "/sub/x").
    cbn. auto.
Defined.

(** The second assignment of the orphaned principal is never collected. *)
Lemma C9_one_role_per_principal_witness :
  find_orphaned_roles orphan_env noon
  = (match scan_items orphan_env two_assignments ([], [])
             (snd (list_role_assignments orphan_env
                     "list all role assignments to find orphaned accounts" "" noon)) with
     | (Ok st, w') => (Ok (snd st), w')
     | (Raise e, w') => (Raise e, w')
     end) /\
  fst (find_orphaned_roles orphan_env noon)
  = Ok [("/sub/x", ["/sub/x/roleAssignments/1"])].
Proof.
  split; [| reflexivity].
  exact (proj2 (proj2 (proj2 (proj2
           (C9_one_role_per_principal orphan_env two_assignments
              (snd (list_role_assignments orphan_env
                      "list all role assignments to find orphaned accounts" "" noon))))))
           noon eq_refl).
Defined.


(** ** Runs of the model *)

(** A VM that never runs: forty sleeps of 15 seconds, the timeout is
    printed, and the extensions are listed and installed all the same. *)
Example never_running_vm_is_still_reconciled :
  match process_vm (no_extensions_env None) quote_json 41 fleet vm1 "sub" "rg" "" noon with
  | Some (Ok _, w) =>
      sleep_events (trace w) = repeat 15%Z 40 /\
      now w = 1600%Z /\
      In (EvPrint "Timeout: starting vm vm1") (trace w) /\
      List.length (az_commands (trace w)) = 5%nat /\
      start_requests (trace w) = 1%nat
  | _ => False
  end.
Proof.
  vm_compute. repeat split; try reflexivity.
  repeat (first [left; reflexivity | right]).
Qed.

(** Fuel beyond the 41 rounds changes nothing. *)
Example more_fuel_same_run :
  process_vm (no_extensions_env None) quote_json 100 fleet vm1 "sub" "rg" "" noon
  = process_vm (no_extensions_env None) quote_json 41 fleet vm1 "sub" "rg" "" noon.
Proof. vm_compute. reflexivity. Qed.

(** A running VM that has the four extensions: only the listing is run. *)
Example nothing_to_install :
  let listed := [mkExtension "AzureMonitorWindowsAgent" "Succeeded";
                 mkExtension "AzurePolicyforWindows" "Succeeded";
                 mkExtension "AADLoginForWindows" "Succeeded";
                 mkExtension "GuestAttestation" "Succeeded"] in
  let env := scenario_env None (fun _ => mkCompleted 0 "[...]" "")
                          (fun _ => inr (JExtensions listed)) in
  option_map (fun r => az_commands (trace (snd r)))
             (process_vm env quote_json 41 fleet win1 "sub" "rg" "" noon)
  = Some ["vm extension list --resource-group rg --vm-name win1"].
Proof. vm_compute. reflexivity. Qed.

(** In the report-driven mode both assignments of the orphan are held. *)
Example report_mode_collects_every_assignment :
  fst (collect_roles_to_remove orphan_env [stale_entry "abc" "/sub/x"] noon)
  = Ok [("/sub/x", ["/sub/x/roleAssignments/1"; "/sub/x/roleAssignments/2"])].
Proof. vm_compute. reflexivity. Qed.

(* ================================================================== *)
(** * Further properties *)

(** ** azure_vms.py *)

Lemma get_power_state_statuses_none l :
  (forall status, In status l -> is_power_status status = false) ->
  AzureVms.get_power_state_statuses l = "unknown".
Proof.
  induction l as [| s l IH]; intros H; [reflexivity |].
  cbn [AzureVms.get_power_state_statuses].
  pose proof (H s (or_introl eq_refl)) as Hs. unfold is_power_status in Hs.
  destruct (code s) as [c |]; [rewrite Hs |]; apply IH; intros x Hx; apply H; now right.
Qed.

Lemma get_power_state_statuses_first l1 status l2 c :
  (forall s, In s l1 -> is_power_status s = false) ->
  code status = Some c -> is_power_status status = true ->
  AzureVms.get_power_state_statuses (l1 ++ status :: l2) = c.
Proof.
  intros H Hc Hp. induction l1 as [| s l1 IH]; cbn [app AzureVms.get_power_state_statuses].
  - unfold is_power_status in Hp. rewrite Hc in *. now rewrite Hp.
  - pose proof (H s (or_introl eq_refl)) as Hs. unfold is_power_status in Hs.
    destruct (code s) as [c' |]; [rewrite Hs |]; apply IH; intros x Hx; apply H; now right.
Qed.

Lemma get_power_state_statuses_found l :
  AzureVms.get_power_state_statuses l = "unknown" \/
  exists l1 status l2,
    l = l1 ++ status :: l2 /\
    (forall s, In s l1 -> is_power_status s = false) /\
    is_power_status status = true /\
    code status = Some (AzureVms.get_power_state_statuses l).
Proof.
  induction l as [| s l IH]; [now left |].
  destruct (is_power_status s) eqn:Hs.
  - right. exists [], s, l. cbn [app AzureVms.get_power_state_statuses].
    split; [reflexivity |]. split; [easy |]. split; [exact Hs |].
    unfold is_power_status in Hs. destruct (code s) as [c |]; [| discriminate].
    now rewrite Hs.
  - assert (E : AzureVms.get_power_state_statuses (s :: l)
                = AzureVms.get_power_state_statuses l).
    { cbn [AzureVms.get_power_state_statuses]. unfold is_power_status in Hs.
      destruct (code s) as [c |]; [now rewrite Hs | reflexivity]. }
    rewrite E. destruct IH as [IH | (l1 & st & l2 & -> & Hl1 & Hp & Hc)]; [now left |].
    right. exists (s :: l1), st, l2. repeat split; auto.
    intros x [<- | Hx]; auto.
Qed.

(** X1.  [get_power_state] returns the code of the first status whose code
    is non-empty and starts with "PowerState", whatever follows it, and
    "unknown" when no status has such a code; a result other than "unknown"
    always starts with "PowerState". *)
Theorem X1_get_power_state_first_match :
  forall (iv : InstanceView),
    (AzureVms.get_power_state iv = "unknown" \/
     exists l1 status l2,
       statuses iv = l1 ++ status :: l2 /\
       (forall s, In s l1 -> is_power_status s = false) /\
       is_power_status status = true /\
       code status = Some (AzureVms.get_power_state iv)) /\
    ((forall status, In status (statuses iv) -> is_power_status status = false) ->
     AzureVms.get_power_state iv = "unknown") /\
    (forall l1 status l2 c,
       statuses iv = l1 ++ status :: l2 ->
       (forall s, In s l1 -> is_power_status s = false) ->
       code status = Some c -> is_power_status status = true ->
       AzureVms.get_power_state iv = c) /\
    (AzureVms.get_power_state iv <> "unknown" ->
     startswith (AzureVms.get_power_state iv) "PowerState" = true).
Proof.
  intros iv. unfold AzureVms.get_power_state.
  split; [apply get_power_state_statuses_found |].
  split; [apply get_power_state_statuses_none |].
  split.
  - intros l1 status l2 c ->. apply get_power_state_statuses_first.
  - intros Hne.
    destruct (get_power_state_statuses_found (statuses iv))
      as [H | (l1 & st & l2 & _ & _ & Hp & Hc)]; [contradiction |].
    unfold is_power_status in Hp. rewrite Hc in Hp.
    now apply andb_true_iff in Hp.
Qed.

(** X2.  The classification predicates split the power states: a state is
    running, starting or deallocated (deallocating, deallocated or stopped),
    never two of these at once, and it is unknown exactly when it is none of
    them. *)
Theorem X2_power_state_classification :
  forall (vm : AzureVmState.t),
    let r := AzureVmState.is_running vm in
    let s := String.eqb (AzureVmState.state vm) AzureVmState.STARTING in
    let d := AzureVmState.is_deallocated vm in
    AzureVmState.is_starting_or_running vm = r || s /\
    AzureVmState.is_unknown_state vm = negb (r || s || d) /\
    r && s = false /\ r && d = false /\ s && d = false.
Proof.
  intros vm r s d. subst r s d.
  unfold AzureVmState.is_starting_or_running, AzureVmState.is_unknown_state,
    AzureVmState.is_running, AzureVmState.is_deallocated, AzureVmState.KNOWN_STATES.
  cbn [existsb].
  split; [reflexivity |]. split.
  - destruct (String.eqb (AzureVmState.state vm) AzureVmState.DEALLOCATED),
      (String.eqb (AzureVmState.state vm) AzureVmState.DEALLOCATING),
      (String.eqb (AzureVmState.state vm) AzureVmState.RUNNING),
      (String.eqb (AzureVmState.state vm) AzureVmState.STARTING),
      (String.eqb (AzureVmState.state vm) AzureVmState.STOPPED); reflexivity.
  - repeat split.
    + destruct (String.eqb_spec (AzureVmState.state vm) AzureVmState.RUNNING) as [E | E];
        [rewrite E; reflexivity | reflexivity].
    + destruct (String.eqb_spec (AzureVmState.state vm) AzureVmState.RUNNING) as [E | E];
        [rewrite E; reflexivity | reflexivity].
    + destruct (String.eqb_spec (AzureVmState.state vm) AzureVmState.STARTING) as [E | E];
        [rewrite E; reflexivity | reflexivity].
Qed.

(** X3.  [on_deallocate] marks the VM as deallocating at the current time
    and clears [starting]; like [on_start] it keeps the name, the OS flags
    and the origin of the VM, and each keeps the other's timestamp.  Applied
    one after the other, the last one decides the classification. *)
Theorem X3_start_and_deallocate_markers :
  forall (vm : AzureVmState.t) (w : World),
    exists vs vd,
      AzureVmState.on_start vm w = (Ok vs, w) /\
      AzureVmState.on_deallocate vm w = (Ok vd, w) /\
      (AzureVmState.is_deallocated vd = true /\
       AzureVmState.is_starting_or_running vd = false /\
       AzureVmState.starting vd = false /\ AzureVmState.deallocating vd = true /\
       AzureVmState.deallocate_time vd = now w /\
       AzureVmState.start_time vd = AzureVmState.start_time vm) /\
      (AzureVmState.is_deallocated vs = false /\
       AzureVmState.deallocate_time vs = AzureVmState.deallocate_time vm) /\
      (forall v, v = vs \/ v = vd ->
         AzureVmState.name v = AzureVmState.name vm /\
         AzureVmState.is_linux v = AzureVmState.is_linux vm /\
         AzureVmState.is_windows v = AzureVmState.is_windows vm /\
         AzureVmState.identity v = AzureVmState.identity vm /\
         AzureVmState.subscription_id v = AzureVmState.subscription_id vm /\
         AzureVmState.resource_group v = AzureVmState.resource_group vm /\
         (os_exclusive vm -> os_exclusive v)) /\
      (forall w', exists v,
         AzureVmState.on_start vd w' = (Ok v, w') /\
         AzureVmState.is_starting_or_running v = true /\
         AzureVmState.is_deallocated v = false /\
         AzureVmState.deallocating v = false /\
         AzureVmState.deallocate_time v = now w) /\
      (forall w', exists v,
         AzureVmState.on_deallocate vs w' = (Ok v, w') /\
         AzureVmState.is_starting_or_running v = false /\
         AzureVmState.is_deallocated v = true /\
         AzureVmState.starting v = false /\
         AzureVmState.start_time v = now w).
Proof.
  intros vm w. do 2 eexists.
  split; [reflexivity |]. split; [reflexivity |].
  split; [cbn; repeat split; reflexivity |].
  split; [cbn; repeat split; reflexivity |].
  split.
  - intros v [-> | ->]; cbn; repeat split; auto.
  - split; intros w'; eexists; (split; [reflexivity |]); cbn; repeat split; reflexivity.
Qed.

(** X4.  For a VM state with exactly one OS flag, [vm_type] returns "Linux"
    for a Linux VM and "Windows11" for a Windows VM; it raises the
    ValueError only when neither flag is set. *)
Theorem X4_vm_type_of_exclusive_state :
  forall (vm : AzureVmState.t),
    os_exclusive vm ->
    vm_type vm = Ok (if AzureVmState.is_linux vm then "Linux" else "Windows11") /\
    (AzureVmState.is_windows vm = true <-> vm_type vm = Ok "Windows11") /\
    (forall other e, vm_type other = Raise e ->
       AzureVmState.is_linux other = false /\ AzureVmState.is_windows other = false /\
       e = ValueError "Unknown VM type!").
Proof.
  intros vm Hos. pose proof (os_exclusive_windows vm Hos) as Hw.
  unfold vm_type. rewrite Hw.
  split; [now destruct (AzureVmState.is_linux vm) |].
  split.
  - destruct (AzureVmState.is_linux vm); cbn; split; congruence.
  - intros other e. unfold vm_type.
    destruct (AzureVmState.is_linux other), (AzureVmState.is_windows other);
      intros H; inversion H; auto.
Qed.

Lemma X4_vm_type_of_exclusive_state_witness :
  os_exclusive vm1 /\ vm_type vm1 = Ok "Linux" /\
  os_exclusive win1 /\ vm_type win1 = Ok "Windows11".
Proof.
  assert (Hwin : os_exclusive win1) by (unfold os_exclusive; cbn; discriminate).
  split; [exact vm1_os_exclusive |].
  split; [exact (proj1 (X4_vm_type_of_exclusive_state vm1 vm1_os_exclusive)) |].
  split; [exact Hwin |].
  exact (proj1 (X4_vm_type_of_exclusive_state win1 Hwin)).
Defined.

Lemma init_ok_flags name state l wd w vm :
  fst (AzureVmState.init name state l wd w) = Ok vm ->
  flags_follow_state vm (now w) /\
  AzureVmState.identity vm = None /\
  AzureVmState.subscription_id vm = "" /\ AzureVmState.resource_group vm = "".
Proof.
  unfold AzureVmState.init, flags_follow_state.
  destruct (negb (xorb l wd)); [discriminate |].
  destruct (String.eqb_spec state AzureVmState.STARTING) as [-> | Hs].
  - cbn. intros H. inversion H. cbn. auto.
  - destruct (String.eqb_spec state AzureVmState.DEALLOCATING) as [-> | Hd].
    + cbn. intros H. inversion H. cbn. auto.
    + cbn. intros H. inversion H. cbn.
      apply String.eqb_neq in Hs, Hd. rewrite Hs, Hd. auto.
Qed.

(** What [get_vm_state] does, by the answers of the SDK. *)
Lemma get_vm_state_cases env self vm_name w :
  let rg := AzureVms.resource_group self in
  let w1 := mkWorld (now w + Z.of_N (latency env (trace w ++ [EvVmGet rg vm_name])))
                    (trace w ++ [EvVmGet rg vm_name]) in
  match vm_get_outcome env (trace w) rg vm_name with
  | inl e => AzureVms.get_vm_state env self vm_name w = (Raise e, w1)
  | inr descr =>
      let w2 := mkWorld (now w1 + Z.of_N (latency env (trace w1
                           ++ [EvInstanceView rg (sdk_name descr)])))
                        (trace w1 ++ [EvInstanceView rg (sdk_name descr)]) in
      match instance_view_outcome env (trace w1) rg (sdk_name descr) with
      | inl e => AzureVms.get_vm_state env self vm_name w = (Raise e, w2)
      | inr view =>
          AzureVms.get_vm_state env self vm_name w
          = (match fst (AzureVmState.init (sdk_name descr) (AzureVms.get_power_state view)
                          (has_linux_configuration descr)
                          (has_windows_configuration descr) w2) with
             | Ok st => Ok (AzureVmState.set_origin (vm_identity descr)
                              (AzureVms.subscription_id self) rg st)
             | Raise e => Raise e
             end, w2)
      end
  end.
Proof.
  intros rg w1. subst w1.
  unfold AzureVms.get_vm_state, sdk_get, sdk_instance_view, request, bind.
  cbn [trace now fst snd ret]. fold rg.
  destruct (vm_get_outcome env (trace w) rg vm_name) as [e | descr];
    cbn [ret raise]; [reflexivity |].
  cbn [trace now].
  destruct (instance_view_outcome env _ rg (sdk_name descr)) as [e | view];
    cbn [ret raise]; [reflexivity |].
  fold (has_linux_configuration descr) (has_windows_configuration descr).
  match goal with
  | |- context [AzureVmState.init ?n ?s ?l ?wd ?w0] =>
      pose proof (init_world n s l wd w0) as Hw;
      destruct (AzureVmState.init n s l wd w0) as [[st | e] w3]
  end; cbn [fst snd] in *; subst w3; reflexivity.
Qed.

(** X5.  A VM state returned by [get_vm_state] carries the name of the
    descriptor, the power state read from the instance view, the
    controller's subscription and resource group, the OS flags of the
    descriptor's profile (exactly one of them set) and flags and timestamps
    that follow the power state; it cost exactly the two SDK requests, the
    instance view being asked for the descriptor's name. *)
Theorem X5_get_vm_state_result :
  forall env (self : AzureVms.t) (vm_name : string) (w w' : World) (vm : AzureVmState.t),
    AzureVms.get_vm_state env self vm_name w = (Ok vm, w') ->
    let rg := AzureVms.resource_group self in
    exists descr view,
      vm_get_outcome env (trace w) rg vm_name = inr descr /\
      instance_view_outcome env (trace w ++ [EvVmGet rg vm_name]) rg (sdk_name descr)
      = inr view /\
      AzureVmState.name vm = sdk_name descr /\
      AzureVmState.state vm = AzureVms.get_power_state view /\
      AzureVmState.identity vm = vm_identity descr /\
      AzureVmState.subscription_id vm = AzureVms.subscription_id self /\
      AzureVmState.resource_group vm = rg /\
      AzureVmState.is_linux vm = has_linux_configuration descr /\
      AzureVmState.is_windows vm = has_windows_configuration descr /\
      os_exclusive vm /\
      flags_follow_state vm (now w') /\
      trace w' = trace w ++ [EvVmGet rg vm_name; EvInstanceView rg (sdk_name descr)].
Proof.
  intros env self vm_name w w' vm Hrun rg.
  pose proof (get_vm_state_cases env self vm_name w) as Hc. cbv zeta in Hc. fold rg in Hc.
  destruct (vm_get_outcome env (trace w) rg vm_name) as [e | descr] eqn:Hd;
    [rewrite Hc in Hrun; discriminate |].
  cbn [trace] in Hc.
  destruct (instance_view_outcome env (trace w ++ [EvVmGet rg vm_name]) rg
              (sdk_name descr)) as [e | view] eqn:Hv;
    [rewrite Hc in Hrun; discriminate |].
  rewrite Hc in Hrun. clear Hc.
  match type of Hrun with
  | context [AzureVmState.init ?n ?s ?l ?wd ?w0] =>
      pose proof (init_ok_fields n s l wd w0) as Hf;
      pose proof (init_ok_flags n s l wd w0) as Hfl;
      destruct (fst (AzureVmState.init n s l wd w0)) as [st | e]
  end; [| discriminate].
  destruct (Hf st eq_refl) as (Hn & Hs & Hl & Hwd & Hne).
  destruct (Hfl st eq_refl) as (Hflags & _).
  clear Hf Hfl.
  inversion Hrun as [[Hvm Hw']]. clear Hrun.
  exists descr, view.
  split; [reflexivity |]. split; [exact Hv |].
  cbn [AzureVmState.set_origin AzureVmState.name AzureVmState.state
    AzureVmState.identity AzureVmState.subscription_id AzureVmState.resource_group
    AzureVmState.is_linux AzureVmState.is_windows trace now].
  split; [exact Hn |]. split; [exact Hs |]. split; [reflexivity |].
  split; [reflexivity |]. split; [reflexivity |].
  split; [exact Hl |]. split; [exact Hwd |].
  split; [unfold os_exclusive; cbn; now rewrite Hl, Hwd |].
  split; [exact Hflags |].
  now rewrite <- app_assoc.
Qed.

Lemma X5_get_vm_state_result_witness :
  exists vm w',
    AzureVms.get_vm_state (no_extensions_env None) fleet "vm1" noon = (Ok vm, w') /\
    AzureVmState.state vm = "PowerState/deallocated" /\
    AzureVmState.is_linux vm = true /\
    sdk_requests (trace w') = 2%nat.
Proof.
  destruct (AzureVms.get_vm_state (no_extensions_env None) fleet "vm1" noon)
    as [[vm | e] w'] eqn:Hrun; [| vm_compute in Hrun; discriminate].
  exists vm, w'. split; [reflexivity |].
  destruct (X5_get_vm_state_result (no_extensions_env None) fleet "vm1" noon w' vm Hrun)
    as (descr & view & Hd & Hv & _ & Hs & _ & _ & _ & Hl & _ & _ & _ & Ht).
  cbn in Hd, Hv. inversion Hd; subst descr. inversion Hv; subst view.
  split; [exact Hs |]. split; [exact Hl |]. rewrite Ht. reflexivity.
Defined.

(** X6.  [get_vm_state] fails in three ways only: the descriptor request
    raises (the instance view is then not requested), the instance view
    request raises, or both answer and the OS profile exposes both
    configurations or neither, in which case the constructor's assertion
    error comes out after the two requests. *)
Theorem X6_get_vm_state_failures :
  forall env (self : AzureVms.t) (vm_name : string) (w w' : World) (e : Exn),
    AzureVms.get_vm_state env self vm_name w = (Raise e, w') ->
    let rg := AzureVms.resource_group self in
    (vm_get_outcome env (trace w) rg vm_name = inl e /\
     trace w' = trace w ++ [EvVmGet rg vm_name]) \/
    (exists descr,
       vm_get_outcome env (trace w) rg vm_name = inr descr /\
       trace w' = trace w ++ [EvVmGet rg vm_name; EvInstanceView rg (sdk_name descr)] /\
       (instance_view_outcome env (trace w ++ [EvVmGet rg vm_name]) rg (sdk_name descr)
        = inl e \/
        (exists view,
           instance_view_outcome env (trace w ++ [EvVmGet rg vm_name]) rg (sdk_name descr)
           = inr view /\
           has_linux_configuration descr = has_windows_configuration descr /\
           e = AzureVmState.AssertionError
                 "is_linux and is_windows are mutually exclusive!"))).
Proof.
  intros env self vm_name w w' e Hrun rg.
  pose proof (get_vm_state_cases env self vm_name w) as Hc. cbv zeta in Hc. fold rg in Hc.
  destruct (vm_get_outcome env (trace w) rg vm_name) as [e0 | descr].
  - rewrite Hc in Hrun. inversion Hrun; subst. left. auto.
  - right. exists descr. split; [reflexivity |]. cbn [trace] in Hc.
    destruct (instance_view_outcome env (trace w ++ [EvVmGet rg vm_name]) rg
                (sdk_name descr)) as [e0 | view].
    + rewrite Hc in Hrun. inversion Hrun; subst. cbn [trace].
      split; [now rewrite <- app_assoc | now left].
    + rewrite Hc in Hrun. clear Hc.
      match type of Hrun with
      | context [AzureVmState.init ?n ?s ?l ?wd ?w0] =>
          pose proof (init_fails_iff n s l wd w0) as Hf;
          destruct (fst (AzureVmState.init n s l wd w0)) as [st | e0] eqn:Hi
      end; [discriminate |].
      inversion Hrun; subst. cbn [trace].
      split; [now rewrite <- app_assoc |]. right. exists view.
      split; [reflexivity |].
      assert (Heq : has_linux_configuration descr = has_windows_configuration descr).
      { apply Hf. now exists e. }
      split; [exact Heq |].
      unfold AzureVmState.init in Hi. rewrite Heq, xorb_nilpotent in Hi.
      cbn in Hi. now inversion Hi.
Qed.

Lemma X6_get_vm_state_failures_witness :
  exists w',
    AzureVms.get_vm_state bare_vm_env fleet "vm0" noon
    = (Raise (AzureVmState.AssertionError
                "is_linux and is_windows are mutually exclusive!"), w') /\
    sdk_requests (trace w') = 2%nat.
Proof.
  destruct (AzureVms.get_vm_state bare_vm_env fleet "vm0" noon)
    as [[vm | e] w'] eqn:Hrun; [vm_compute in Hrun; discriminate |].
  exists w'.
  destruct (X6_get_vm_state_failures bare_vm_env fleet "vm0" noon w' e Hrun)
    as [[Hd _] | (descr & Hd & Ht & [Hv | (view & _ & _ & He)])];
    [discriminate Hd | discriminate Hv |].
  rewrite He, Ht. split; reflexivity.
Defined.


Lemma dict_mem_set_mem {V} (k : string) (d : pydict V) :
  set_mem k (dict_keys d) = dict_mem k d.
Proof.
  unfold dict_mem, dict_keys, set_mem.
  induction d as [| [k' v] d IH]; cbn; [reflexivity |].
  destruct (String.eqb k k'); [reflexivity | exact IH].
Qed.

Lemma dict_keys_set {V} (k : string) (v : V) (d : pydict V) :
  dict_keys (dict_set k v d) = set_add k (dict_keys d).
Proof.
  unfold set_add. rewrite dict_mem_set_mem. unfold dict_mem, dict_keys.
  induction d as [| [k' v'] d IH]; cbn; [reflexivity |].
  destruct (String.eqb k k') eqn:E; cbn; [reflexivity |].
  rewrite IH. now destruct (dict_get k d).
Qed.

Lemma dict_get_set_cases {V} (k k0 : string) (v v0 : V) (d : pydict V) :
  dict_get k0 (dict_set k v d) = Some v0 ->
  (k0 = k /\ v0 = v) \/ dict_get k0 d = Some v0.
Proof.
  destruct (String.eqb_spec k0 k) as [-> | Hne].
  - rewrite dict_get_set_same. intros H. inversion H. now left.
  - rewrite dict_get_set_other by exact Hne. now right.
Qed.






(** ** install_extensions.py and az_cmd.py *)

Lemma index_extensions_spec :
  forall data found,
    dict_keys (index_extensions data found)
    = fold_left (fun s x => set_add x s) (map ext_name data) (dict_keys found) /\
    (forall n ext,
       dict_get n (index_extensions data found) = Some ext ->
       dict_get n found = Some ext \/ (ext_name ext = n /\ In ext data)).
Proof.
  induction data as [| e data IH]; intros found; cbn [index_extensions map fold_left].
  - split; [reflexivity | auto].
  - destruct (IH (dict_set (ext_name e) e found)) as [Hk Hv]. split.
    + now rewrite Hk, dict_keys_set.
    + intros n ext Hget. destruct (Hv n ext Hget) as [H | [H1 H2]].
      * apply dict_get_set_cases in H. destruct H as [[-> ->] | H]; [| now left].
        right. split; [reflexivity | now left].
      * right. split; [exact H1 | now right].
Qed.

Lemma index_extensions_keeps :
  forall data found n,
    (forall e, In e data -> ext_name e <> n) ->
    dict_get n (index_extensions data found) = dict_get n found.
Proof.
  induction data as [| e data IH]; intros found n Hne; [reflexivity |].
  cbn [index_extensions]. rewrite IH by (intros x Hx; apply Hne; now right).
  apply dict_get_set_other. intros E. apply (Hne e); [now left | now symmetry].
Qed.

(** X8.  The listing that [list_extensions] builds is keyed by the distinct
    extension names in order of first occurrence; the record stored under a
    name bears that name, and it is the last record of that name in the
    answer.  The call runs the one listing command. *)
Theorem X8_list_extensions_index :
  forall env (vm : AzureVmState.t) (resource_group : string) (w : World)
         (exts : list Extension),
    let found := index_extensions exts [] in
    dict_keys found = distinct (map ext_name exts) /\
    (forall n ext, dict_get n found = Some ext -> ext_name ext = n /\ In ext exts) /\
    (forall l1 ext l2,
       exts = l1 ++ ext :: l2 ->
       (forall e, In e l2 -> ext_name e <> ext_name ext) ->
       dict_get (ext_name ext) found = Some ext) /\
    trace (snd (list_extensions env vm resource_group w))
    = trace w ++ [EvPrint ("listing extensions on " +++ AzureVmState.name vm);
                  EvAz (list_extensions_cmd vm resource_group)] /\
    (forall w1,
       run_az_cmd env (list_extensions_cmd vm resource_group)
         ("listing extensions on " +++ AzureVmState.name vm) false w
       = (Ok (JExtensions exts), w1) ->
       list_extensions env vm resource_group w = (Ok found, w1)).
Proof.
  intros env vm resource_group w exts found. subst found.
  destruct (index_extensions_spec exts []) as [Hk Hv].
  split; [exact Hk |]. split; [| split; [| split]].
  - intros n ext Hget. destruct (Hv n ext Hget) as [H | H]; [discriminate H | exact H].
  - intros l1 ext l2 -> Hl2.
    assert (Happ : forall a b f, index_extensions (a ++ b) f
                                 = index_extensions b (index_extensions a f)).
    { induction a as [| x a IHa]; intros b f; [reflexivity | cbn; apply IHa]. }
    rewrite Happ. cbn [index_extensions].
    rewrite index_extensions_keeps by exact Hl2. apply dict_get_set_same.
  - unfold list_extensions. fold (list_extensions_cmd vm resource_group).
    pose proof (run_az_cmd_trace env (list_extensions_cmd vm resource_group)
                  ("listing extensions on " +++ AzureVmState.name vm) false w) as Ht.
    unfold bind.
    destruct (run_az_cmd env _ _ false w) as [[data | e] w1]; cbn [snd] in *;
      [| exact Ht].
    destruct data as [[| f fs] | x | [| i items]]; exact Ht.
  - intros w1 Hrun. unfold list_extensions. fold (list_extensions_cmd vm resource_group).
    unfold bind. now rewrite Hrun.
Qed.

(** X9.  The command gateway prints the description and runs the command
    once.  A non-zero exit code raises with the description and the captured
    error text, whatever was printed on the output; a zero exit code with an
    empty output gives the empty object when the caller allowed it and
    raises otherwise; a zero exit code with an output gives what the JSON
    decoder makes of it. *)
Theorem X9_run_az_cmd_outcomes :
  forall env (cmd description : string) (no_data_ok : bool) (w : World),
    let p := az_outcome env (trace w ++ [EvPrint description]) cmd in
    let run := run_az_cmd env cmd description no_data_ok w in
    trace (snd run) = trace w ++ [EvPrint description; EvAz cmd] /\
    (returncode p <> 0%Z ->
     fst run = Raise (mkExn false "<class 'Exception'>"
                        ("Error " +++ description +++ ": " +++ stderr p) "")) /\
    (returncode p = 0%Z -> stdout p <> "" ->
     fst run = match json_loads env (stdout p) with
               | inr data => Ok data
               | inl e => Raise e
               end) /\
    (returncode p = 0%Z -> stdout p = "" ->
     fst run = if no_data_ok then Ok (JObject [])
               else Raise (mkExn false "<class 'Exception'>"
                             ("No json data returned: " +++ stderr p) "")) /\
    (no_data_ok = true ->
     (forall out, exists data, json_loads env out = inr data) ->
     ((exists e, fst run = Raise e) <-> returncode p <> 0%Z)).
Proof.
  intros env cmd description no_data_ok w p run.
  split; [apply run_az_cmd_trace |].
  assert (Hrun : fst run
                 = if negb (returncode p =? 0)%Z then
                     Raise (mkExn false "<class 'Exception'>"
                              ("Error " +++ description +++ ": " +++ stderr p) "")
                   else if negb (String.eqb (stdout p) "") then
                     match json_loads env (stdout p) with
                     | inr data => Ok data
                     | inl e => Raise e
                     end
                   else if negb no_data_ok then
                     Raise (mkExn false "<class 'Exception'>"
                              ("No json data returned: " +++ stderr p) "")
                   else Ok (JObject [])).
  { subst run p. unfold run_az_cmd, bind, print, emit, subprocess_run, request, bind, ret.
    cbn [trace now fst snd].
    destruct (negb _); [reflexivity |].
    destruct (negb _); [now destruct (json_loads env _) |].
    now destruct (negb no_data_ok). }
  rewrite Hrun. clear Hrun.
  split; [| split; [| split]].
  - intros Hne. apply Z.eqb_neq in Hne. now rewrite Hne.
  - intros H0 Hout. apply Z.eqb_eq in H0. apply String.eqb_neq in Hout.
    now rewrite H0, Hout.
  - intros H0 Hout. apply Z.eqb_eq in H0. rewrite H0, Hout. cbn.
    now destruct no_data_ok.
  - intros -> Hdec. destruct (Z.eqb_spec (returncode p) 0) as [E | E]; cbn [negb].
    + split; [| contradiction]. intros [e He]. exfalso.
      destruct (negb (String.eqb (stdout p) "")).
      * destruct (Hdec (stdout p)) as [data Hd]. rewrite Hd in He. discriminate.
      * discriminate.
    + split; [auto |]. intros _. eexists. reflexivity.
Qed.

Lemma split_on_nonempty sep s : split_on sep s <> [].
Proof.
  destruct s as [| c s]; cbn; [discriminate |].
  destruct (Ascii.eqb c sep); [discriminate |].
  destruct (split_on sep s); discriminate.
Qed.

Lemma concat_cons sep x y ys :
  String.concat sep (x :: y :: ys) = x +++ sep +++ String.concat sep (y :: ys).
Proof. reflexivity. Qed.

Lemma concat_head_char sep c part parts :
  String.concat sep (String c part :: parts) = String c (String.concat sep (part :: parts)).
Proof. destruct parts; reflexivity. Qed.

(** Joining the parts of a split with the separator gives the string back. *)
Lemma split_on_join sep s :
  String.concat (String sep EmptyString) (split_on sep s) = s.
Proof.
  induction s as [| c s IH]; [reflexivity |].
  cbn [split_on]. pose proof (split_on_nonempty sep s) as Hn.
  destruct (split_on sep s) as [| part parts]; [contradiction |].
  destruct (Ascii.eqb_spec c sep) as [-> | Hne].
  - rewrite concat_cons, IH. reflexivity.
  - rewrite concat_head_char, IH. reflexivity.
Qed.

(** No part of a split holds the separator. *)
Lemma split_on_free sep :
  forall s part, In part (split_on sep s) -> has_char sep part = false.
Proof.
  induction s as [| c s IH]; intros part; cbn [split_on].
  - intros [<- | []]. reflexivity.
  - destruct (Ascii.eqb c sep) eqn:E.
    + intros [<- | H]; [reflexivity | now apply IH].
    + pose proof (split_on_nonempty sep s) as Hn.
      destruct (split_on sep s) as [| p ps]; [contradiction |].
      intros [<- | H].
      * cbn [has_char]. rewrite E. cbn [orb]. apply IH. now left.
      * apply IH. now right.
Qed.

(** A list of separator-free parts is the split of its join: the parts of a
    string are determined by the two facts above. *)
Lemma split_on_of_join sep :
  forall parts,
    parts <> [] ->
    (forall part, In part parts -> has_char sep part = false) ->
    split_on sep (String.concat (String sep EmptyString) parts) = parts.
Proof.
  induction parts as [| p parts IH]; intros Hne Hfree; [contradiction |].
  assert (Hp : has_char sep p = false) by (apply Hfree; now left).
  assert (Hrest : forall part, In part parts -> has_char sep part = false)
    by (intros part Hin; apply Hfree; now right).
  destruct parts as [| q parts].
  - cbn [String.concat]. clear IH Hfree Hrest Hne.
    induction p as [| c p IHp]; [reflexivity |].
    cbn [has_char] in Hp. apply orb_false_iff in Hp. destruct Hp as [Hc Hp].
    cbn [split_on]. rewrite Hc, (IHp Hp). reflexivity.
  - rewrite concat_cons. specialize (IH ltac:(discriminate) Hrest).
    clear Hfree Hrest Hne.
    change (String sep EmptyString
              +++ String.concat (String sep EmptyString) (q :: parts))
      with (String sep (String.concat (String sep EmptyString) (q :: parts))).
    induction p as [| c p IHp].
    + cbn [String.append split_on]. rewrite Ascii.eqb_refl, IH. reflexivity.
    + cbn [has_char] in Hp. apply orb_false_iff in Hp. destruct Hp as [Hc Hp].
      cbn [String.append split_on]. rewrite Hc, (IHp Hp). reflexivity.
Qed.

(** X10.  [find_az_cmd] raises a KeyError when PATH is not set; otherwise it
    returns the "az.cmd" of the first directory of PATH that has one, and
    raises "az.cmd not found in PATH" when none has.  The directories it
    tries are the separator-free pieces of PATH: none of them holds the
    separator, joined again by the separator they give PATH back, and they
    are the only list of separator-free strings that does. *)
Theorem X10_find_az_cmd_first_directory :
  forall (pathsep : ascii) (path_join : string -> string -> string)
         (path_exists : string -> bool) (path : string),
    let dirs := split_on pathsep path in
    let has_az d := path_exists (path_join d "az.cmd") in
    find_az_cmd None pathsep path_join path_exists = Raise (KeyError "'PATH'") /\
    String.concat (String pathsep EmptyString) dirs = path /\
    (forall d, In d dirs -> has_char pathsep d = false) /\
    (forall parts,
       parts <> [] ->
       (forall d, In d parts -> has_char pathsep d = false) ->
       String.concat (String pathsep EmptyString) parts = path ->
       parts = dirs) /\
    ((forall d, In d dirs -> has_az d = false) ->
     find_az_cmd (Some path) pathsep path_join path_exists
     = Raise (mkExn false "<class 'Exception'>" "az.cmd not found in PATH" "")) /\
    (forall l1 d l2,
       dirs = l1 ++ d :: l2 -> (forall x, In x l1 -> has_az x = false) ->
       has_az d = true ->
       find_az_cmd (Some path) pathsep path_join path_exists
       = Ok (path_join d "az.cmd")) /\
    (forall az,
       find_az_cmd (Some path) pathsep path_join path_exists = Ok az ->
       path_exists az = true /\ exists d, In d dirs /\ az = path_join d "az.cmd").
Proof.
  intros pathsep path_join path_exists path dirs has_az.
  split; [reflexivity |]. split; [apply split_on_join |].
  split; [intros d; apply split_on_free |].
  split.
  { intros parts Hne Hfree Hjoin. unfold dirs. rewrite <- Hjoin.
    symmetry. now apply split_on_of_join. }
  unfold find_az_cmd. fold dirs. clearbody dirs. split; [| split].
  - induction dirs as [| d dirs IH]; intros H; [reflexivity |].
    cbn [find_az_cmd_in]. pose proof (H d (or_introl eq_refl)) as Hd.
    unfold has_az in Hd. rewrite Hd. apply IH. intros x Hx. apply H. now right.
  - intros l1 d l2 -> Hl1 Hd.
    induction l1 as [| x l1 IH]; cbn [app find_az_cmd_in].
    + unfold has_az in Hd. now rewrite Hd.
    + pose proof (Hl1 x (or_introl eq_refl)) as Hx. unfold has_az in Hx. rewrite Hx.
      apply IH. intros y Hy. apply Hl1. now right.
  - induction dirs as [| d dirs IH]; intros az; cbn [find_az_cmd_in]; [discriminate |].
    destruct (path_exists (path_join d "az.cmd")) eqn:Hd.
    + intros H. inversion H; subst. split; [exact Hd |]. exists d. split; [now left | auto].
    + intros H. destruct (IH az H) as [H1 (x & Hx & Hx2)].
      split; [exact H1 |]. exists x. split; [now right | exact Hx2].
Qed.

(** X11.  For any timeout object with a positive interval the polling loop
    ends: with [n] rounds of fuel such that the time left fits in [n - 1]
    intervals the loop returns, every sleep lasts the interval, the sleeps
    add up to less than the time left plus one interval, no command is run,
    and a VM state comes out either running or after the timeout was
    reached and printed. *)
Theorem X11_polling_loop_bound :
  forall env (fuel : nat) (monitor : AzureVms.t) (timeout : Timeout.t)
         (vm : AzureVmState.t) (w : World),
    (0 < Timeout.interval timeout)%Z ->
    (1 <= fuel)%nat ->
    (Timeout.timeout_seconds timeout - (now w - Timeout.start timeout)
     <= Timeout.interval timeout * (Z.of_nat fuel - 1))%Z ->
    exists res w' evs n,
      wait_for_running env fuel monitor timeout vm w = Some (res, w') /\
      trace w' = trace w ++ evs /\
      (now w <= now w')%Z /\
      sleep_events evs = repeat (Timeout.interval timeout) n /\
      (Timeout.interval timeout * Z.of_nat n
       <= Z.max 0 (Timeout.timeout_seconds timeout - (now w - Timeout.start timeout)
                   + Timeout.interval timeout - 1))%Z /\
      az_commands evs = [] /\
      match res with
      | Ok vm' =>
          AzureVmState.is_running vm' = true \/
          (AzureVmState.is_running vm' = false /\
           (Timeout.timeout_seconds timeout <= now w' - Timeout.start timeout)%Z /\
           exists evs0, evs = evs0 ++ [EvPrint ("Timeout: " +++ Timeout.title timeout)])
      | Raise _ => True
      end.
Proof.
  intros env fuel monitor timeout. 
  set (i := Timeout.interval timeout). set (t := Timeout.timeout_seconds timeout).
  set (s := Timeout.start timeout).
  induction fuel as [| fuel IH]; intros vm w Hi Hf Hb; [lia |].
  cbn [wait_for_running].
  destruct (AzureVmState.is_running vm) eqn:Hrun; cbn [negb].
  - exists (Ok vm), w, [], 0%nat. rewrite app_nil_r.
    split; [reflexivity |]. split; [reflexivity |]. split; [lia |].
    split; [reflexivity |]. split; [lia |]. split; [reflexivity | now left].
  - unfold bindP, liftP, Timeout.step, bind, time_time, time_sleep, print, emit, ret.
    fold i t s. cbn [trace now fst snd].
    destruct (Z.ltb_spec (now w - s) t) as [Hlt | Hge].
    + set (w1 := mkWorld (now w + i) (trace w ++ [EvSleep i])).
      destruct (get_vm_state_effects env monitor (AzureVmState.name vm) w1)
        as (evsg & Htg & Hng & Hsg & Hag & _).
      destruct (AzureVms.get_vm_state env monitor (AzureVmState.name vm) w1)
        as [[vm' | e] w2] eqn:Hg; cbn [fst snd] in *.
      * assert (Hw1 : now w1 = (now w + i)%Z) by reflexivity.
        destruct (IH vm' w2 Hi) as (res & w' & evs & n & Hw & Ht & Hn & Hs & Hnb & Ha & Hres);
          [nia | nia |].
        exists res, w', (EvSleep i :: evsg ++ evs), (S n).
        split; [exact Hw |]. split.
        { rewrite Ht, Htg. subst w1. cbn [trace]. now rewrite <- !app_assoc. }
        split; [lia |]. split.
        { cbn [sleep_events repeat]. now rewrite sleep_events_app, Hsg, Hs. }
        split; [nia |]. split.
        { cbn [az_commands]. now rewrite az_commands_app, Hag, Ha. }
        destruct res as [vm'' | e]; [| exact I].
        destruct Hres as [Hres | (Hnr & Hto & evs0 & Hev)]; [now left | right].
        split; [exact Hnr |]. split; [exact Hto |].
        exists (EvSleep i :: evsg ++ evs0). rewrite Hev. cbn.
        now rewrite <- app_assoc.
      * exists (Raise e), w2, (EvSleep i :: evsg), 1%nat.
        assert (Hw1 : now w1 = (now w + i)%Z) by reflexivity.
        split; [reflexivity |]. split.
        { rewrite Htg. subst w1. cbn [trace]. now rewrite <- app_assoc. }
        split; [lia |]. split.
        { cbn [sleep_events repeat]. now rewrite Hsg. }
        split; [lia |]. split; [exact Hag | exact I].
    + exists (Ok vm),
        (mkWorld (now w) (trace w ++ [EvPrint ("Timeout: " +++ Timeout.title timeout)])),
        [EvPrint ("Timeout: " +++ Timeout.title timeout)], 0%nat.
      split; [reflexivity |]. split; [reflexivity |]. split; [cbn [now]; lia |].
      split; [reflexivity |]. split; [lia |]. split; [reflexivity |].
      right. split; [exact Hrun |]. split; [cbn [now]; lia |]. now exists [].
Qed.

Lemma X11_polling_loop_bound_witness :
  exists r,
    wait_for_running (no_extensions_env None) 4 fleet (Timeout.mk "t" 10 25 1000)
      vm1 noon = Some r /\
    sleep_events (trace (snd r)) = [10; 10; 10]%Z.
Proof.
  destruct (X11_polling_loop_bound (no_extensions_env None) 4 fleet
              (Timeout.mk "t" 10 25 1000) vm1 noon)
    as (res & w' & evs & n & Hrun & _); [reflexivity | cbn; lia | cbn; lia |].
  exists (res, w'). split; [exact Hrun |].
  vm_compute in Hrun. inversion Hrun. reflexivity.
Defined.

Lemma start_and_wait_fuel env fuel monitor vm w :
  (41 <= fuel)%nat ->
  start_and_wait env fuel monitor vm w = start_and_wait env 41 monitor vm w /\
  exists r, start_and_wait env 41 monitor vm w = Some r.
Proof.
  intros Hfuel. unfold start_and_wait.
  destruct (AzureVmState.is_running vm); cbn [negb];
    [split; [reflexivity | eexists; reflexivity] |].
  unfold bindP, liftP.
  destruct ((print ("Wait for " +++ AzureVmState.name vm +++ " to be running...") ;;;
             AzureVms.try_start_vm env monitor vm) w) as [[[m' vm'] | e] w1];
    [| split; [reflexivity | eexists; reflexivity]].
  unfold Timeout.init, bind, time_time, ret.
  fold (poll_timeout ("starting vm " +++ AzureVmState.name vm') (now w1)).
  destruct (wait_for_running_total env 41 m' ("starting vm " +++ AzureVmState.name vm')
              (now w1) vm' w1) as (res & w2 & evs & Hwait & _); [lia | lia |].
  rewrite Hwait.
  rewrite (wait_for_running_more_fuel env 41 fuel _ _ _ _ _ Hfuel Hwait).
  split; [reflexivity |]. destruct res; eexists; reflexivity.
Qed.

Lemma process_vm_fuel env jd fuel monitor vm subscription_id resource_group uami w :
  (41 <= fuel)%nat ->
  process_vm env jd fuel monitor vm subscription_id resource_group uami w
  = process_vm env jd 41 monitor vm subscription_id resource_group uami w /\
  exists r, process_vm env jd 41 monitor vm subscription_id resource_group uami w = Some r.
Proof.
  intros Hfuel. unfold process_vm, bindP, liftP, print, emit.
  match goal with
  | |- context [start_and_wait env fuel monitor vm ?w0] =>
      destruct (start_and_wait_fuel env fuel monitor vm w0 Hfuel) as [Heq [r Hr]]
  end.
  rewrite Heq, Hr.
  split; [reflexivity |].
  destruct r as [[[m' vm'] | e] w1]; [| eexists; reflexivity].
  destruct (reconcile_extensions env jd vm' subscription_id resource_group uami w1)
    as [[[] | e] w2]; eexists; reflexivity.
Qed.

Lemma process_vms_fuel env jd fuel subscription_id resource_group uami :
  (41 <= fuel)%nat ->
  forall vms monitor w,
    process_vms env jd fuel monitor vms subscription_id resource_group uami w
    = process_vms env jd 41 monitor vms subscription_id resource_group uami w /\
    exists r,
      process_vms env jd 41 monitor vms subscription_id resource_group uami w = Some r.
Proof.
  intros Hfuel. induction vms as [| vm vms IH]; intros monitor w.
  - split; [reflexivity | eexists; reflexivity].
  - cbn [process_vms]. unfold bindP.
    destruct (process_vm_fuel env jd fuel monitor vm subscription_id resource_group
                uami w Hfuel) as [Heq [r Hr]].
    rewrite Heq, Hr. destruct r as [[m' | e] w1].
    + apply IH.
    + split; [reflexivity | eexists; reflexivity].
Qed.

Lemma select_vms_spec :
  forall names vms found w,
    select_vms names vms found w
    = (Ok (fold_left (fun f n => match dict_get n vms with
                                 | Some vm => dict_set n vm f
                                 | None => f
                                 end) names found),
       mkWorld (now w)
         (trace w ++ map (fun n => EvPrint ("VM " +++ n +++ " not found"))
                         (filter (fun n => negb (dict_mem n vms)) names))).
Proof.
  induction names as [| n names IH]; intros vms found w.
  - cbn. rewrite app_nil_r. now destruct w.
  - cbn [select_vms fold_left filter]. unfold dict_mem.
    destruct (dict_get n vms) as [vm |]; cbn [negb].
    + apply IH.
    + unfold bind, print, emit. rewrite IH. cbn [now trace map].
      now rewrite <- app_assoc.
Qed.

Lemma select_fold_spec (vms : pydict AzureVmState.t) :
  forall names found,
    let f := fold_left (fun f n => match dict_get n vms with
                                   | Some vm => dict_set n vm f
                                   | None => f
                                   end) names found in
    dict_keys f
    = fold_left (fun s x => set_add x s) (filter (fun n => dict_mem n vms) names)
                (dict_keys found) /\
    (forall n st, dict_get n f = Some st ->
                  dict_get n found = Some st \/ (In n names /\ dict_get n vms = Some st)) /\
    (forall n st, In n names -> dict_get n vms = Some st -> dict_get n f = Some st).
Proof.
  induction names as [| x names IH]; intros found; cbn [fold_left filter].
  - cbn. split; [reflexivity |]. split; [auto | easy].
  - unfold dict_mem at 1. destruct (dict_get x vms) as [vm |] eqn:Hx.
    + destruct (IH (dict_set x vm found)) as (Hk & Hv & Hin). cbv zeta in *.
      split; [cbn [fold_left]; now rewrite Hk, dict_keys_set |]. split.
      * intros n st Hget. destruct (Hv n st Hget) as [H | [H1 H2]].
        -- apply dict_get_set_cases in H. destruct H as [[-> ->] | H]; [| now left].
           right. split; [now left | exact Hx].
        -- right. split; [now right | exact H2].
      * intros n st [-> | Hn] Hget; [| now apply Hin].
        destruct (in_dec string_dec n names) as [Hi | Hni]; [now apply Hin |].
        assert (Hkeep : forall l f0, ~ In n l ->
                  dict_get n (fold_left (fun f n0 => match dict_get n0 vms with
                                                     | Some vm0 => dict_set n0 vm0 f
                                                     | None => f
                                                     end) l f0) = dict_get n f0).
        { induction l as [| y l IHl]; intros f0 Hnl; [reflexivity |].
          cbn [fold_left]. rewrite IHl by (intros H; apply Hnl; now right).
          destruct (dict_get y vms); [| reflexivity].
          apply dict_get_set_other. intros E. apply Hnl. now left. }
        rewrite Hkeep by exact Hni. rewrite dict_get_set_same. congruence.
    + destruct (IH found) as (Hk & Hv & Hin). cbv zeta in *.
      split; [exact Hk |]. split.
      * intros n st Hget. destruct (Hv n st Hget) as [H | [H1 H2]]; [now left |].
        right. split; [now right | exact H2].
      * intros n st [-> | Hn] Hget; [congruence | now apply Hin].
Qed.

(** X12.  Selecting VMs by name never fails and runs nothing: the VMs kept
    are those named that exist in the fleet, each with the state the fleet
    holds for it, keyed in the order the names were first given; every
    occurrence of a name that is not in the fleet is reported as not found. *)
Theorem X12_select_vms_by_name :
  forall (names : list string) (vms : pydict AzureVmState.t) (w : World),
    exists found,
      select_vms names vms [] w
      = (Ok found,
         mkWorld (now w)
           (trace w ++ map (fun n => EvPrint ("VM " +++ n +++ " not found"))
                           (filter (fun n => negb (dict_mem n vms)) names))) /\
      dict_keys found = distinct (filter (fun n => dict_mem n vms) names) /\
      (forall n st, dict_get n found = Some st <->
                    In n names /\ dict_get n vms = Some st).
Proof.
  intros names vms w. eexists. split; [apply select_vms_spec |].
  destruct (select_fold_spec vms names []) as (Hk & Hv & Hin). cbv zeta in *.
  split; [exact Hk |].
  intros n st. split.
  - intros H. destruct (Hv n st H) as [H0 | H0]; [discriminate H0 | exact H0].
  - intros [H1 H2]. now apply Hin.
Qed.

(** X13.  [install_extensions] always ends: with 41 rounds of fuel for each
    polling loop the run returns, and more fuel gives the same run.  When
    names are given and none of them is in the fleet, every name is
    reported and no VM is processed: the run adds no command and no start
    request to what listing the fleet did. *)
Theorem X13_install_extensions_ends :
  forall env jd (fuel : nat) (listed : list VirtualMachine) (names : list string)
         (resource_group subscription_id uami : string) (w : World),
    (41 <= fuel)%nat ->
    (exists r,
       install_extensions env jd fuel listed names resource_group subscription_id uami w
       = Some r /\
       install_extensions env jd 41 listed names resource_group subscription_id uami w
       = Some r) /\
    (forall vms w1,
       list_vms env (AzureVms.init_default subscription_id resource_group) listed
         (print_to w "finding vms...") = (Ok vms, w1) ->
       names <> [] ->
       (forall n, In n names -> dict_mem n vms = false) ->
       install_extensions env jd fuel listed names resource_group subscription_id uami w
       = Some (Ok (AzureVms.init_default subscription_id resource_group),
               mkWorld (now w1)
                 (trace w1 ++ map (fun n => EvPrint ("VM " +++ n +++ " not found")) names))).
Proof.
  intros env jd fuel listed names resource_group subscription_id uami w Hfuel.
  split.
  - unfold install_extensions, bindP, liftP, print, emit. cbv zeta.
    destruct (list_vms env _ listed _) as [[vms | e] w1]; [| eexists; split; reflexivity].
    destruct ((match names with
               | [] => ret vms
               | _ :: _ => select_vms names vms []
               end) w1) as [[vms' | e] w2]; [| eexists; split; reflexivity].
    destruct (process_vms_fuel env jd fuel subscription_id resource_group uami Hfuel
                (map snd vms') (AzureVms.init_default subscription_id resource_group) w2)
      as [Heq [r Hr]].
    exists r. now rewrite Heq, Hr.
  - intros vms w1 Hlist Hne Hnone.
    unfold install_extensions, bindP, liftP, print, emit.
    cbv zeta. change (mkWorld (now w) (trace w ++ [EvPrint "finding vms..."]))
      with (print_to w "finding vms...").
    rewrite Hlist.
    destruct names as [| n names]; [contradiction |].
    rewrite select_vms_spec.
    assert (Hf : forall l f,
               (forall x, In x l -> dict_mem x vms = false) ->
               fold_left (fun f n0 => match dict_get n0 vms with
                                      | Some vm => dict_set n0 vm f
                                      | None => f
                                      end) l f = f
               /\ filter (fun n0 => negb (dict_mem n0 vms)) l = l).
    { induction l as [| x l IHl]; intros f Hx; [split; reflexivity |].
      cbn [fold_left filter]. pose proof (Hx x (or_introl eq_refl)) as Hxm.
      rewrite Hxm. unfold dict_mem in Hxm.
      destruct (dict_get x vms); [discriminate |]. cbn [negb].
      destruct (IHl f (fun y Hy => Hx y (or_intror Hy))) as [H1 H2].
      now rewrite H1, H2. }
    destruct (Hf (n :: names) [] Hnone) as [H1 H2]. rewrite H1, H2.
    reflexivity.
Qed.

Lemma X13_install_extensions_ends_witness :
  (41 <= 41)%nat /\
  exists r,
    install_extensions (no_extensions_env None) quote_json 41 [linux_vm_descriptor]
      ["ghost"] "rg" "sub" "" noon = Some r /\
    az_commands (trace (snd r)) = [] /\
    In (EvPrint "VM ghost not found") (trace (snd r)).
Proof.
  split; [apply le_n |].
  destruct (X13_install_extensions_ends (no_extensions_env None) quote_json 41
              [linux_vm_descriptor] ["ghost"] "rg" "sub" "" noon (le_n 41))
    as [_ H].
  destruct (list_vms (no_extensions_env None) (AzureVms.init_default "sub" "rg")
              [linux_vm_descriptor] (print_to noon "finding vms..."))
    as [[vms | e] w1] eqn:Hl; [| vm_compute in Hl; discriminate].
  assert (Hv : vms = [("vm1", AzureVmState.set_origin None "sub" "rg"
                                (AzureVmState.mk "vm1" "PowerState/deallocated" true false
                                   None "" "" false false 0 0))]
               /\ trace w1 = [EvPrint "finding vms..."; EvVmGet "rg" "vm1";
                              EvInstanceView "rg" "vm1"]).
  { vm_compute in Hl. inversion Hl. split; reflexivity. }
  destruct Hv as [Hvms Htr].
  eexists. split.
  - apply (H vms w1 eq_refl); [discriminate |].
    intros n [<- | []]. rewrite Hvms. reflexivity.
  - cbn [snd trace]. rewrite Htr. split; [reflexivity | cbn; auto 10].
Defined.

(** ** remove_orphaned_accounts.py *)

Lemma get_unique_users_from_fold :
  forall stale acc,
    get_unique_users_from stale acc
    = fold_left (fun s x => set_add x s) (map UserName stale) acc.
Proof.
  induction stale as [| i stale IH]; intros acc; [reflexivity |].
  cbn [get_unique_users_from map fold_left]. apply IH.
Qed.

Lemma distinct_fold_NoDup :
  forall l acc,
    NoDup acc ->
    NoDup (fold_left (fun s x => set_add x s) l acc) /\
    (List.length (fold_left (fun s x => set_add x s) l acc)
     <= List.length acc + List.length l)%nat.
Proof.
  induction l as [| x l IH]; intros acc Hnd; cbn [fold_left List.length].
  - split; [exact Hnd | lia].
  - destruct (IH (set_add x acc) (set_add_NoDup x acc Hnd)) as [H1 H2].
    split; [exact H1 |]. pose proof (set_add_length x acc). lia.
Qed.

Lemma get_unique_users_NoDup stale : NoDup (get_unique_users stale).
Proof.
  unfold get_unique_users. rewrite get_unique_users_from_fold.
  apply (distinct_fold_NoDup (map UserName stale) []). constructor.
Qed.

(** X14.  [get_unique_users] returns the set of the principal ids of the
    report: each UserName value of an entry is in it, once, and nothing
    else; so it has at most as many elements as the report has entries, it
    is empty only for an empty report, and as a set it does not depend on
    the order of the entries. *)
Theorem X14_get_unique_users_distinct :
  forall (stale : list Identity),
    NoDup (get_unique_users stale) /\
    (forall x, In x (get_unique_users stale) <->
               exists identity, In identity stale /\ UserName identity = x) /\
    (List.length (get_unique_users stale) <= List.length stale)%nat /\
    (get_unique_users stale = [] <-> stale = []) /\
    (forall stale',
       Permutation stale stale' ->
       Permutation (get_unique_users stale) (get_unique_users stale')).
Proof.
  intros stale.
  assert (Hin : forall l x, In x (get_unique_users l) <->
                            exists identity, In identity l /\ UserName identity = x).
  { intros l x. rewrite get_unique_users_In, in_map_iff. split.
    - intros (i & Hi & Hl). now exists i.
    - intros (i & Hl & Hi). now exists i. }
  split; [apply get_unique_users_NoDup |]. split; [apply Hin |].
  split; [| split].
  - unfold get_unique_users. rewrite get_unique_users_from_fold.
    destruct (distinct_fold_NoDup (map UserName stale) [] (NoDup_nil _)) as [_ Hl].
    rewrite length_map in Hl. exact Hl.
  - split; [| intros ->; reflexivity].
    intros He. destruct stale as [| i stale]; [reflexivity |]. exfalso.
    assert (H : In (UserName i) (get_unique_users (i :: stale))).
    { apply Hin. exists i. split; [now left | reflexivity]. }
    now rewrite He in H.
  - intros stale' Hperm.
    apply NoDup_Permutation; try apply get_unique_users_NoDup.
    intros x. rewrite !Hin. split; intros (i & Hi & Hx); exists i; (split; [| exact Hx]).
    + now apply (Permutation_in i Hperm).
    + now apply (Permutation_in i (Permutation_sym Hperm)).
Qed.

Lemma check_users_commands env count :
  forall users pos to_remove w,
    exists evs,
      trace (snd (check_users env count pos users to_remove w)) = trace w ++ evs /\
      az_commands evs = map lookup_cmd users.
Proof.
  induction users as [| p users IH]; intros pos to_remove w.
  - exists []. cbn. now rewrite app_nil_r.
  - cbn [check_users]. unfold bind.
    destruct (check_user_effects env count pos p to_remove w)
      as (tr1 & verdict & Hc & _ & Ht).
    rewrite Hc.
    destruct (IH (S pos) tr1 (print_to (snd (lookup env count pos p w)) verdict))
      as (evs & Hte & Ha).
    exists ([EvPrint (lookup_description count pos p); EvAz (lookup_cmd p);
             EvPrint verdict] ++ evs).
    split; [now rewrite Hte, Ht, <- app_assoc |].
    rewrite az_commands_app, Ha. reflexivity.
Qed.

Lemma filter_filter {A} (f g : A -> bool) (l : list A) :
  filter f (filter g l) = filter (fun x => g x && f x) l.
Proof.
  induction l as [| a l IH]; [reflexivity |].
  cbn. destruct (g a); cbn; [destruct (f a) |]; now rewrite IH.
Qed.

Lemma drop_identities_filter :
  forall to_remove stale,
    drop_identities to_remove stale
    = filter (fun i => negb (set_mem (UserName i) to_remove)) stale.
Proof.
  induction to_remove as [| p l IH]; intros stale; cbn [drop_identities].
  - induction stale as [| a stale IHs]; [reflexivity |]. cbn. f_equal. exact IHs.
  - rewrite IH, filter_filter. apply filter_ext. intros i.
    unfold set_mem. cbn [existsb]. now rewrite negb_orb.
Qed.

Lemma set_mem_iterates set_iter s x :
  iterates_elements set_iter -> set_mem x (set_iter s) = set_mem x s.
Proof.
  intros H. destruct (set_mem x s) eqn:E.
  - apply set_mem_In. apply set_mem_In in E. now apply (iterates_In set_iter s x H).
  - destruct (set_mem x (set_iter s)) eqn:E2; [| reflexivity].
    apply set_mem_In in E2. apply (iterates_In set_iter s x H) in E2.
    apply set_mem_In in E2. congruence.
Qed.

(** X15.  [check_orphans] never raises.  It looks every distinct principal
    of the report up exactly once; what is left of the report is the
    original list, in order, without the entries of the principals put in
    [to_remove] (all of them principals of the report); the removed count is
    the number of entries dropped, and the call returns true exactly when
    some entry was dropped. *)
Theorem X15_check_orphans_filters_report :
  forall env set_iter (stale : list Identity) (w : World),
    iterates_elements set_iter ->
    exists to_remove after removed w' evs,
      check_orphans env set_iter stale w = (Ok (after, removed, (removed >? 0)%Z), w') /\
      trace w' = trace w ++ evs /\
      az_commands evs = map lookup_cmd (set_iter (get_unique_users stale)) /\
      NoDup (set_iter (get_unique_users stale)) /\
      (forall x, In x to_remove -> In x (get_unique_users stale)) /\
      after = filter (fun i => negb (set_mem (UserName i) to_remove)) stale /\
      removed
      = Z.of_nat (List.length (filter (fun i => set_mem (UserName i) to_remove) stale)) /\
      ((removed >? 0)%Z = true <->
       exists identity, In identity stale /\ In (UserName identity) to_remove).
Proof.
  intros env set_iter stale w Hiter.
  destruct (check_orphans_result env set_iter stale w)
    as (to_remove & w1 & w2 & Hc & Hco & evs2 & Ht2 & Ha2). cbv zeta in Hco.
  destruct (check_users_commands env (List.length (get_unique_users stale))
              (set_iter (get_unique_users stale)) 0 [] w) as (evs1 & Ht1 & Ha1).
  destruct (check_users_effects env (List.length (get_unique_users stale))
              (set_iter (get_unique_users stale)) 0 [] w)
    as (tr & evs0 & Hf & _ & _ & Hfrom & _).
  rewrite Hc in Ht1, Hf. cbn [fst snd] in Ht1, Hf. inversion Hf; subst tr.
  assert (Hafter : drop_identities (set_iter to_remove) stale
                   = filter (fun i => negb (set_mem (UserName i) to_remove)) stale).
  { rewrite drop_identities_filter. apply filter_ext. intros i.
    now rewrite (set_mem_iterates set_iter to_remove _ Hiter). }
  assert (Hlen : (Z.of_nat (List.length stale)
                  - Z.of_nat (List.length (drop_identities (set_iter to_remove) stale)))%Z
                 = Z.of_nat (List.length
                               (filter (fun i => set_mem (UserName i) to_remove) stale))).
  { rewrite Hafter.
    pose proof (filter_length (fun i => set_mem (UserName i) to_remove) stale). lia. }
  rewrite Hlen in Hco.
  exists to_remove. do 2 eexists. exists w2, (evs1 ++ evs2).
  split; [exact Hco |]. split; [now rewrite Ht2, Ht1, app_assoc |].
  split; [now rewrite az_commands_app, Ha1, Ha2, app_nil_r |].
  split.
  { apply (Permutation_NoDup (l := get_unique_users stale));
      [apply Permutation_sym, Hiter |].
    unfold get_unique_users. rewrite get_unique_users_from_fold.
    apply distinct_fold_NoDup. constructor. }
  split.
  { intros x Hx. destruct (Hfrom x Hx) as [[] | H].
    now apply (iterates_In set_iter _ x Hiter). }
  split; [exact Hafter |]. split; [reflexivity |].
  rewrite Z.gtb_lt. split.
  - intros Hpos.
    destruct (filter (fun i => set_mem (UserName i) to_remove) stale) as [| i l] eqn:E;
      [cbn in Hpos; lia |].
    assert (Hi : In i (filter (fun i => set_mem (UserName i) to_remove) stale))
      by (rewrite E; now left).
    apply filter_In in Hi. destruct Hi as [Hi Hm]. exists i. split; [exact Hi |].
    now apply set_mem_In.
  - intros (i & Hi & Hr).
    assert (Hin : In i (filter (fun i => set_mem (UserName i) to_remove) stale)).
    { apply filter_In. split; [exact Hi | now apply set_mem_In]. }
    destruct (filter (fun i => set_mem (UserName i) to_remove) stale); [easy |].
    cbn [List.length]. lia.
Qed.

Lemma X15_check_orphans_filters_report_witness :
  iterates_elements insertion_order /\
  exists after w',
    check_orphans unreachable_env insertion_order
      [stale_entry "p" "/s1"; stale_entry "q" "/s2"; stale_entry "p" "/s3"] noon
    = (Ok (after, 3%Z, true), w') /\
    az_commands (trace w') = [lookup_cmd "p"; lookup_cmd "q"].
Proof.
  split; [exact insertion_order_iterates |].
  destruct (X15_check_orphans_filters_report unreachable_env insertion_order
              [stale_entry "p" "/s1"; stale_entry "q" "/s2"; stale_entry "p" "/s3"] noon
              insertion_order_iterates)
    as (to_remove & after & removed & w' & evs & Hrun & Ht & Ha & _).
  assert (Hr : removed = 3%Z).
  { vm_compute in Hrun. inversion Hrun. reflexivity. }
  subst removed. exists after, w'. split; [exact Hrun |].
  rewrite Ht. exact Ha.
Defined.

Lemma str_in_append_r needle a b :
  str_in needle b = true -> str_in needle (a +++ b) = true.
Proof.
  intros H. induction a as [| c a IH]; [exact H |].
  cbn [String.append str_in]. now destruct (String.prefix needle _).
Qed.

Lemma check_users_all_missing env count :
  forall users pos to_remove w,
    (forall p pos' w0, In p users ->
       confirms_missing (fst (lookup env count pos' p w0)) = true) ->
    fst (check_users env count pos users to_remove w) = Ok to_remove.
Proof.
  induction users as [| p users IH]; intros pos to_remove w Hall; [reflexivity |].
  cbn [check_users]. unfold bind.
  pose proof (Hall p pos w (or_introl eq_refl)) as Hp.
  destruct (lookup env count pos p w) as [[data | e] w1] eqn:Hl; cbn in Hp;
    [discriminate |].
  rewrite (check_user_missing env count pos p to_remove w e w1 Hl Hp).
  apply IH. intros q pos' w0 Hq. apply Hall. now right.
Qed.

(** X16.  When the directory confirms for every principal of the report
    that it does not exist, [check_orphans] leaves the report as it was:
    nothing is removed, the removed count is 0 and the call returns false,
    after one lookup per distinct principal. *)
Theorem X16_check_orphans_all_missing :
  forall env set_iter (stale : list Identity) (w : World),
    iterates_elements set_iter ->
    (forall p pos w0,
       In p (map UserName stale) ->
       confirms_missing
         (fst (lookup env (List.length (get_unique_users stale)) pos p w0)) = true) ->
    exists w' evs,
      check_orphans env set_iter stale w = (Ok (stale, 0%Z, false), w') /\
      trace w' = trace w ++ evs /\
      az_commands evs = map lookup_cmd (set_iter (get_unique_users stale)).
Proof.
  intros env set_iter stale w Hiter Hall.
  destruct (check_orphans_result env set_iter stale w)
    as (to_remove & w1 & w2 & Hc & Hco & evs2 & Ht2 & Ha2). cbv zeta in Hco.
  destruct (check_users_commands env (List.length (get_unique_users stale))
              (set_iter (get_unique_users stale)) 0 [] w) as (evs1 & Ht1 & Ha1).
  assert (Hnil : to_remove = []).
  { pose proof (check_users_all_missing env (List.length (get_unique_users stale))
                  (set_iter (get_unique_users stale)) 0 [] w) as Hm.
    rewrite Hc in Hm. cbn [fst] in Hm.
    assert (Hok : Ok to_remove = Ok (@nil string)); [| now inversion Hok].
    apply Hm. intros p pos' w0 Hp. apply Hall.
    apply (proj1 (get_unique_users_In stale p)).
    apply (proj1 (iterates_In set_iter _ p Hiter)). exact Hp. }
  subst to_remove. rewrite Hc in Ht1. cbn [snd] in Ht1.
  rewrite (iterates_nil set_iter Hiter) in Hco. cbn [drop_identities] in Hco.
  rewrite Z.sub_diag in Hco. cbn in Hco.
  exists w2, (evs1 ++ evs2). split; [exact Hco |].
  split; [now rewrite Ht2, Ht1, app_assoc |].
  now rewrite az_commands_app, Ha1, Ha2, app_nil_r.
Qed.

Lemma X16_check_orphans_all_missing_witness :
  iterates_elements insertion_order /\
  exists w',
    check_orphans orphan_env insertion_order
      [stale_entry "abc" "/sub/x"; stale_entry "abd" "/sub/y"] noon
    = (Ok ([stale_entry "abc" "/sub/x"; stale_entry "abd" "/sub/y"], 0%Z, false), w').
Proof.
  split; [exact insertion_order_iterates |].
  destruct (X16_check_orphans_all_missing orphan_env insertion_order
              [stale_entry "abc" "/sub/x"; stale_entry "abd" "/sub/y"] noon
              insertion_order_iterates) as (w' & evs & Hrun & _).
  - intros p pos w0 _.
    change (str_in "does not exist"
              ("Error " +++ lookup_description 2 pos p
                 +++ ": " +++ "ERROR: Resource 'abc' does not exist.") = true).
    do 2 apply str_in_append_r. reflexivity.
  - exists w'. exact Hrun.
Defined.

Lemma first_assignments_incl :
  forall items known item, In item (first_assignments known items) -> In item items.
Proof.
  induction items as [| a rest IH]; intros known item; cbn; [easy |].
  destruct (is_user a); cbn [negb]; [| intros H; right; now apply (IH known)].
  destruct (set_mem (principalId a) known); [intros H; right; now apply (IH known) |].
  intros [<- | H]; [now left | right; now apply (IH _ _ H)].
Qed.

Lemma pick_incl {A} :
  forall (mask : list bool) (l : list A), incl (pick mask l) l.
Proof.
  induction mask as [| b mask IH]; intros l x Hx; [easy |].
  destruct l as [| y l]; [easy |]. cbn in Hx.
  destruct b; [destruct Hx as [-> | Hx]; [now left |] |]; right; now apply IH.
Qed.

Lemma add_roles_of_In :
  forall items orphans s r,
    In r (roles_of s (add_roles_of items orphans)) ->
    In r (roles_of s orphans) \/
    exists item, In item items /\ scope item = s /\ id item = r.
Proof.
  induction items as [| a items IH]; intros orphans s r; cbn; [auto |].
  intros H. apply IH in H. destruct H as [H | (item & Hi & Hs & Hr)].
  - destruct (String.eqb_spec s (scope a)) as [-> | Hne].
    + rewrite roles_of_add_role_same in H. apply set_add_In in H.
      destruct H as [-> | H]; [| now left]. right. exists a. auto.
    + rewrite roles_of_add_role_other in H by exact Hne. now left.
  - right. exists item. auto.
Qed.

Lemma seen_after_In_iff :
  forall items known x,
    In x (seen_after known items) <->
    In x known \/ exists item, In item items /\ is_user item = true /\ principalId item = x.
Proof.
  induction items as [| a items IH]; intros known x; cbn [seen_after].
  - split; [auto |]. intros [H | (i & [] & _)]. exact H.
  - destruct (is_user a) eqn:Hu; cbn [negb]; rewrite IH.
    + rewrite set_add_In. split.
      * intros [[-> | H] | (i & Hi & Hui & Hp)]; [right; exists a; cbn; auto | now left |].
        right. exists i. cbn. auto.
      * intros [H | (i & [<- | Hi] & Hui & Hp)]; [left; now right | left; now left |].
        right. now exists i.
    + split.
      * intros [H | (i & Hi & Hui & Hp)]; [now left |]. right. exists i. cbn. auto.
      * intros [H | (i & [<- | Hi] & Hui & Hp)]; [now left | congruence |].
        right. now exists i.
Qed.

Lemma scan_items_known env :
  forall items known orphans w known' orphans',
    fst (scan_items env items (known, orphans) w) = Ok (known', orphans') ->
    known' = seen_after known items.
Proof.
  induction items as [| item rest IH]; intros known orphans w known' orphans'.
  - cbn. intros H. now inversion H.
  - cbn [scan_items seen_after]. unfold bind.
    destruct (is_user item) eqn:Hu; cbn [negb].
    + destruct (set_mem (principalId item) known) eqn:Hk.
      * rewrite scan_item_skip by now right.
        unfold set_add. rewrite Hk. apply IH.
      * destruct (scan_item_lookup env item known orphans w Hu Hk)
          as (orphans1 & evs1 & Hf & _).
        destruct (scan_item env item (known, orphans) w) as [r w1].
        cbn [fst] in Hf. subst r. apply IH.
    + rewrite scan_item_skip by now left. apply IH.
Qed.

(** X17.  The discovery scan only ever deals with "User" assignments: every
    lookup it makes is for the principal of a "User" assignment of the
    listing, the principals it records as seen are exactly those of the
    "User" assignments, and every role id it collects is the id of a "User"
    assignment, held under that assignment's scope.  A listing without any
    "User" assignment is scanned without any effect. *)
Theorem X17_scan_only_user_assignments :
  forall env (items : list RoleAssignment) (w : World),
    (exists known orphans evs,
       fst (scan_items env items ([], []) w) = Ok (known, orphans) /\
       trace (snd (scan_items env items ([], []) w)) = trace w ++ evs /\
       (forall c, In c (az_commands evs) ->
          exists item, In item items /\ principalType item = "User" /\
                       c = orphan_lookup_cmd (principalId item)) /\
       (forall x, In x known <->
          exists item, In item items /\ principalType item = "User" /\
                       principalId item = x) /\
       (forall s r, In r (roles_of s orphans) ->
          exists item, In item items /\ principalType item = "User" /\
                       scope item = s /\ id item = r)) /\
    ((forall item, In item items -> principalType item <> "User") ->
     scan_items env items ([], []) w = (Ok ([], []), w)).
Proof.
  intros env items w. split.
  - destruct (scan_items_effects env items [] [] w)
      as (known & orphans & evs & mask & Hf & Ht & Ha & Hpick & _).
    exists known, orphans, evs. split; [exact Hf |]. split; [exact Ht |].
    assert (Huser : forall item, In item (first_assignments [] items) ->
                                 In item items /\ principalType item = "User").
    { intros item Hi. split; [now apply (first_assignments_incl items []) |].
      apply first_assignments_fresh in Hi. destruct Hi as [Hu _].
      now apply String.eqb_eq in Hu. }
    split; [| split].
    + intros c Hc. rewrite Ha, map_map in Hc. apply in_map_iff in Hc.
      destruct Hc as (item & <- & Hi). destruct (Huser item Hi) as [H1 H2].
      exists item. auto.
    + intros x. rewrite (scan_items_known env items [] [] w known orphans Hf).
      rewrite seen_after_In_iff. split.
      * intros [[] | (item & Hi & Hu & Hp)]. exists item.
        apply String.eqb_eq in Hu. auto.
      * intros (item & Hi & Hu & Hp). right. exists item.
        split; [exact Hi |]. split; [now apply String.eqb_eq | exact Hp].
    + intros s r Hr. rewrite Hpick in Hr. apply add_roles_of_In in Hr.
      destruct Hr as [[] | (item & Hi & Hs & Hid)].
      apply pick_incl in Hi. destruct (Huser item Hi) as [H1 H2].
      exists item. auto.
  - intros Hnone. rewrite scan_items_first.
    assert (E : first_assignments [] items = []).
    { clear - Hnone. generalize (@nil string) as known.
      induction items as [| a items IH]; intros known; [reflexivity |].
      cbn [first_assignments].
      assert (Ha : is_user a = false).
      { apply String.eqb_neq. apply Hnone. now left. }
      rewrite Ha. cbn [negb]. apply IH. intros i Hi. apply Hnone. now right. }
    now rewrite E.
Qed.

(** What an examined assignment leaves behind, from the answer of its
    lookup. *)
Lemma scan_item_result env item known orphans w :
  is_user item = true -> set_mem (principalId item) known = false ->
  exists d,
    fst (scan_item env item (known, orphans) w)
    = Ok (set_add (principalId item) known,
          if confirms_missing
               (fst (run_az_cmd env (orphan_lookup_cmd (principalId item)) d false w))
          then add_role (scope item) (id item) orphans
          else orphans).
Proof.
  intros Hu Hk. unfold scan_item. unfold is_user in Hu. rewrite Hu, Hk. cbn [negb].
  fold (orphan_lookup_cmd (principalId item)).
  unfold try_except, bind.
  match goal with
  | |- context [run_az_cmd env ?c ?d false w] =>
      exists d; destruct (run_az_cmd env c d false w) as [[data | e] w1]
  end; cbn [fst snd confirms_missing].
  - destruct data as [fields | exts | items];
      unfold print, emit, ret, raise; cbn [fst snd exn_str AttributeError];
      try change (str_in "does not exist" "'list' object has no attribute 'get'")
        with false; cbv iota; reflexivity.
  - destruct (str_in "does not exist" (exn_str e)); reflexivity.
Qed.

Lemma scan_items_by_principal env (missing : string -> bool) :
  forall items known orphans w,
    (forall item d w0,
       In item items ->
       confirms_missing
         (fst (run_az_cmd env (orphan_lookup_cmd (principalId item)) d false w0))
       = missing (principalId item)) ->
    fst (scan_items env items (known, orphans) w)
    = Ok (seen_after known items,
          add_roles_of (filter (fun item => missing (principalId item))
                               (first_assignments known items)) orphans).
Proof.
  induction items as [| item rest IH]; intros known orphans w Hall; [reflexivity |].
  assert (Hrest : forall item0 d w0,
             In item0 rest ->
             confirms_missing
               (fst (run_az_cmd env (orphan_lookup_cmd (principalId item0)) d false w0))
             = missing (principalId item0)).
  { intros item0 d w0 Hi. apply Hall. now right. }
  cbn [scan_items first_assignments seen_after]. unfold bind.
  destruct (is_user item) eqn:Hu; cbn [negb].
  - destruct (set_mem (principalId item) known) eqn:Hk.
    + rewrite scan_item_skip by now right.
      unfold set_add. rewrite Hk. now apply IH.
    + destruct (scan_item_result env item known orphans w Hu Hk) as (d & Hf).
      rewrite (Hall item d w (or_introl eq_refl)) in Hf.
      destruct (scan_item env item (known, orphans) w) as [r w1].
      cbn [fst] in Hf. subst r. rewrite (IH _ _ w1 Hrest).
      cbn [filter]. destruct (missing (principalId item)); reflexivity.
  - rewrite scan_item_skip by now left. now apply IH.
Qed.

(** X18.  When the directory's verdict on a principal (its lookup fails with
    "does not exist" or not) depends on the principal only, the discovery
    returns exactly one role id per missing principal: the id of the first
    "User" assignment of the listing that names it, under that assignment's
    scope.  Later assignments of the principal and principals whose lookup
    succeeds or fails in another way contribute nothing.  A listing that
    fails makes the discovery fail with the same exception. *)
Theorem X18_discovery_by_principal :
  forall env (missing : string -> bool) (items : list RoleAssignment) (w w1 : World),
    (forall item d w0,
       In item items ->
       confirms_missing
         (fst (run_az_cmd env (orphan_lookup_cmd (principalId item)) d false w0))
       = missing (principalId item)) ->
    (list_role_assignments env
       "list all role assignments to find orphaned accounts" "" w
     = (Ok (JRoleAssignments items), w1) ->
     fst (find_orphaned_roles env w)
     = Ok (add_roles_of (filter (fun item => missing (principalId item))
                                (first_assignments [] items)) [])) /\
    (forall e,
       list_role_assignments env
         "list all role assignments to find orphaned accounts" "" w = (Raise e, w1) ->
       find_orphaned_roles env w = (Raise e, w1)).
Proof.
  intros env missing items w w1 Hall. split.
  - intros Hl. unfold find_orphaned_roles. unfold bind at 1. rewrite Hl.
    unfold bind.
    destruct (scan_items env items ([], []) w1) as [r w2] eqn:E.
    assert (Hs : fst (r, w2)
                 = Ok (seen_after [] items,
                       add_roles_of (filter (fun item => missing (principalId item))
                                            (first_assignments [] items)) [])).
    { rewrite <- E. exact (scan_items_by_principal env missing items [] [] w1 Hall). }
    cbn [fst] in Hs. subst r. reflexivity.
  - intros e Hl. unfold find_orphaned_roles. unfold bind at 1. now rewrite Hl.
Qed.

Lemma X18_discovery_by_principal_witness :
  fst (find_orphaned_roles orphan_env noon)
  = Ok (add_roles_of (filter (fun _ => true) (first_assignments [] two_assignments)) []).
Proof.
  refine (proj1 (X18_discovery_by_principal orphan_env (fun _ => true) two_assignments
                   noon _ _) eq_refl).
  intros item d w0 _.
  change (str_in "does not exist"
            ("Error " +++ d +++ ": " +++ "ERROR: Resource 'abc' does not exist.") = true).
  do 2 apply str_in_append_r. reflexivity.
Defined.

(** ** remove_orphaned_accounts.py: the report-driven collection *)

Lemma fold_add_extends :
  forall l (acc : pyset),
    initial_segment acc (fold_left (fun s x => set_add x s) l acc).
Proof.
  induction l as [| x l IH]; intros acc; cbn [fold_left].
  - exists []. now rewrite app_nil_r.
  - destruct (IH (set_add x acc)) as (rest & Hr). rewrite Hr.
    unfold set_add. destruct (set_mem x acc).
    + now exists rest.
    + exists (x :: rest). now rewrite <- app_assoc.
Qed.

(** One report entry: its scope is listed when, and only when, the cache
    does not hold it yet. *)
Lemma lookup_identity_fetch env count pos identity cache roles w :
  exists evs,
    trace (snd (lookup_identity env count pos identity (cache, roles) w))
    = trace w ++ evs /\
    az_commands evs
    = (if dict_mem (Scope identity) cache then [] else [list_cmd (Scope identity)]) /\
    (forall cache' roles',
       fst (lookup_identity env count pos identity (cache, roles) w)
       = Ok (cache', roles') ->
       dict_keys cache' = set_add (Scope identity) (dict_keys cache)).
Proof.
  unfold lookup_identity, bind.
  destruct (dict_mem (Scope identity) cache) eqn:Hm; cbn [negb].
  - unfold ret, raise. cbv beta iota. exists []. rewrite app_nil_r.
    assert (Hk : dict_keys cache = set_add (Scope identity) (dict_keys cache)).
    { unfold set_add. now rewrite dict_mem_set_mem, Hm. }
    destruct (dict_get (Scope identity) cache) as [[[| ? ?] | [| ? ?] | all_roles] |];
      cbn [fst snd];
      (split; [reflexivity |]); (split; [reflexivity |]);
      intros cache' roles' H; inversion H; subst; exact Hk.
  - unfold list_role_assignments.
    assert (Hcmd : (if negb (String.eqb (Scope identity) "")
                    then "role assignment list --scope " +++ dquote
                           +++ Scope identity +++ dquote
                    else "role assignment list --all")
                   = list_cmd (Scope identity)).
    { unfold list_cmd, list_scope_cmd. now destruct (String.eqb (Scope identity) ""). }
    match goal with
    | |- context [if negb (String.eqb (Scope identity) "")
                  then run_az_cmd env ?c1 ?d false else run_az_cmd env ?c2 ?d false] =>
        replace (if negb (String.eqb (Scope identity) "")
                 then run_az_cmd env c1 d false else run_az_cmd env c2 d false)
          with (run_az_cmd env (list_cmd (Scope identity)) d false)
          by (rewrite <- Hcmd; now destruct (negb (String.eqb (Scope identity) "")));
        pose proof (run_az_cmd_trace env (list_cmd (Scope identity)) d false w) as Ht;
        destruct (run_az_cmd env (list_cmd (Scope identity)) d false w)
          as [[data | e] w1]
    end; cbn [fst snd] in Ht |- *.
    + unfold ret, raise. cbv beta iota. rewrite dict_get_set_same.
      eexists [_; _].
      destruct data as [[| ? ?] | [| ? ?] | all_roles];
        cbn [fst snd];
        (split; [exact Ht |]); (split; [reflexivity |]);
        intros cache' roles' H; inversion H; subst; apply dict_keys_set.
    + eexists [_; _]. split; [exact Ht |]. split; [reflexivity |].
      intros cache' roles' H. discriminate H.
Qed.

Lemma lookup_identities_fetch env count :
  forall stale pos cache roles w,
    exists evs fetched,
      trace (snd (lookup_identities env count pos stale (cache, roles) w))
      = trace w ++ evs /\
      az_commands evs = map list_cmd fetched /\
      initial_segment (dict_keys cache ++ fetched)
        (fold_left (fun s x => set_add x s) (map Scope stale) (dict_keys cache)) /\
      (forall st,
         fst (lookup_identities env count pos stale (cache, roles) w) = Ok st ->
         dict_keys cache ++ fetched
         = fold_left (fun s x => set_add x s) (map Scope stale) (dict_keys cache)).
Proof.
  induction stale as [| identity rest IH]; intros pos cache roles w.
  - exists [], []. cbn. rewrite !app_nil_r.
    split; [reflexivity |]. split; [reflexivity |].
    split; [exists []; now rewrite app_nil_r | reflexivity].
  - cbn [lookup_identities map fold_left]. unfold bind.
    destruct (lookup_identity_fetch env count pos identity cache roles w)
      as (evs1 & Ht1 & Ha1 & Hkeys).
    assert (Hadd : set_add (Scope identity) (dict_keys cache)
                   = dict_keys cache
                       ++ (if dict_mem (Scope identity) cache then []
                           else [Scope identity])).
    { unfold set_add. rewrite dict_mem_set_mem.
      destruct (dict_mem (Scope identity) cache); [now rewrite app_nil_r | reflexivity]. }
    destruct (lookup_identity env count pos identity (cache, roles) w)
      as [[[cache' roles'] | e] w1]; cbn [fst snd] in *.
    + specialize (Hkeys cache' roles' eq_refl).
      destruct (IH (S pos) cache' roles' w1) as (evs2 & fetched2 & Ht2 & Ha2 & Hseg & Hok).
      exists (evs1 ++ evs2).
      exists ((if dict_mem (Scope identity) cache then [] else [Scope identity])
                ++ fetched2).
      split; [now rewrite Ht2, Ht1, app_assoc |].
      split; [rewrite az_commands_app, Ha1, Ha2, map_app;
              now destruct (dict_mem (Scope identity) cache) |].
      rewrite app_assoc, <- Hadd, <- Hkeys. split; [exact Hseg | exact Hok].
    + exists evs1, (if dict_mem (Scope identity) cache then [] else [Scope identity]).
      split; [exact Ht1 |].
      split; [rewrite Ha1; now destruct (dict_mem (Scope identity) cache) |].
      rewrite <- Hadd. split; [apply fold_add_extends | discriminate].
Qed.

Lemma initial_segment_map {A B} (f : A -> B) (l1 l2 : list A) :
  initial_segment l1 l2 -> initial_segment (map f l1) (map f l2).
Proof. intros (rest & ->). exists (map f rest). apply map_app. Qed.

(** X19.  The report-driven collection lists the role assignments of a
    scope at most once, however many report entries share the scope: the
    commands it runs are the listings of the distinct scopes of the report,
    in order of first appearance (the listing of a scope being
    [role assignment list --all] when the scope is the empty string).  When
    the collection raises it has run an initial segment of these listings;
    when it returns it has run all of them. *)
Theorem X19_collection_lists_each_scope_once :
  forall env (stale : list Identity) (w : World),
    NoDup (distinct (map Scope stale)) /\
    (forall scope, In scope (distinct (map Scope stale)) <-> In scope (map Scope stale)) /\
    exists evs,
      trace (snd (collect_roles_to_remove env stale w)) = trace w ++ evs /\
      initial_segment (az_commands evs) (map list_cmd (distinct (map Scope stale))) /\
      (forall roles,
         fst (collect_roles_to_remove env stale w) = Ok roles ->
         az_commands evs = map list_cmd (distinct (map Scope stale))).
Proof.
  intros env stale w.
  split; [apply (distinct_fold_NoDup (map Scope stale) []); constructor |].
  split.
  { intros scope. unfold distinct.
    assert (H : forall l acc,
               In scope (fold_left (fun s x => set_add x s) l acc)
               <-> In scope acc \/ In scope l).
    { induction l as [| x l IH]; intros acc; cbn [fold_left In]; [tauto |].
      rewrite IH, set_add_In. intuition. }
    rewrite H. cbn [In]. tauto. }
  unfold collect_roles_to_remove. unfold bind at 1. unfold print, emit. unfold bind.
  match goal with
  | |- context [lookup_identities env ?c 0 stale ?st0 ?w0] =>
      pose proof (lookup_identities_fetch env c stale 0 [] [] w0) as H;
      change (lookup_identities env c 0 stale ([], []) w0)
        with (lookup_identities env c 0 stale st0 w0) in H;
      destruct H as (evs & fetched & Ht & Ha & Hseg & Hok);
      destruct (lookup_identities env c 0 stale st0 w0) as [[st | e] w1]
  end; unfold ret; cbn [fst snd trace dict_keys map app] in *;
    eexists (_ :: evs);
    (split; [rewrite Ht, <- app_assoc; reflexivity |]);
    cbn [az_commands]; rewrite Ha.
  - split; [now apply initial_segment_map |].
    intros roles _. unfold distinct. now rewrite <- (Hok st eq_refl).
  - split; [now apply initial_segment_map | discriminate].
Qed.

(** ** remove_orphaned_accounts.py: the deletion phase *)

(** One real deletion: the delete command is run, and a failure is printed
    and appended to the errors instead of being raised. *)
Lemma remove_role_real env r errors w :
  exists new evs,
    fst (remove_role env false r errors w) = Ok (errors ++ new) /\
    trace (snd (remove_role env false r errors w)) = trace w ++ evs /\
    az_commands evs = [delete_cmd r] /\
    (forall err, In err new ->
       exists msg, err = "Failed to remove role " +++ r +++ ": " +++ msg /\
                   In (EvPrint ("  " +++ err)) evs).
Proof.
  unfold remove_role, try_except, bind. fold (delete_cmd r).
  match goal with
  | |- context [run_az_cmd env (delete_cmd r) ?d true w] =>
      pose proof (run_az_cmd_trace env (delete_cmd r) d true w) as Ht;
      destruct (run_az_cmd env (delete_cmd r) d true w) as [[data | e] w1]
  end; cbn [fst snd] in Ht |- *.
  - assert (Hnone : exists new evs,
               Ok errors = Ok (errors ++ new) /\
               trace w1 = trace w ++ evs /\
               az_commands evs = [delete_cmd r] /\
               (forall err, In err new ->
                  exists msg, err = "Failed to remove role " +++ r +++ ": " +++ msg /\
                              In (EvPrint ("  " +++ err)) evs)).
    { exists []. eexists [_; _]. rewrite app_nil_r.
      split; [reflexivity |]. split; [exact Ht |]. split; [reflexivity | easy]. }
    destruct data as [fields | exts | items]; unfold ret; cbn [fst snd];
      [| exact Hnone | exact Hnone].
    destruct (dict_get "provisioningState" fields) as [st |];
      unfold print, emit, ret; cbn [fst snd trace]; [| exact Hnone].
    exists []. eexists [_; _; _]. rewrite app_nil_r.
    split; [reflexivity |]. split; [rewrite Ht, <- app_assoc; reflexivity |].
    split; [reflexivity | easy].
  - unfold print, emit, ret. cbn [fst snd trace].
    eexists [_]. eexists [_; _; _].
    split; [reflexivity |]. split; [rewrite Ht, <- app_assoc; reflexivity |].
    split; [reflexivity |].
    intros err [<- | []]. exists (exn_str e). split; [reflexivity |].
    right. right. left. reflexivity.
Qed.

Lemma remove_roles_real env :
  forall ids errors w,
    exists new evs,
      fst (remove_roles env false ids errors w) = Ok (errors ++ new) /\
      trace (snd (remove_roles env false ids errors w)) = trace w ++ evs /\
      az_commands evs = map delete_cmd ids /\
      (forall err, In err new ->
         exists r msg, In r ids /\
                       err = "Failed to remove role " +++ r +++ ": " +++ msg /\
                       In (EvPrint ("  " +++ err)) evs).
Proof.
  induction ids as [| r ids IH]; intros errors w.
  - exists [], []. cbn. rewrite !app_nil_r. repeat split; auto. easy.
  - cbn [remove_roles]. unfold bind.
    destruct (remove_role_real env r errors w) as (new1 & evs1 & Hf1 & Ht1 & Ha1 & He1).
    destruct (remove_role env false r errors w) as [res w1].
    cbn [fst snd] in Hf1, Ht1. subst res.
    destruct (IH (errors ++ new1) w1) as (new2 & evs2 & Hf2 & Ht2 & Ha2 & He2).
    exists (new1 ++ new2), (evs1 ++ evs2).
    split; [now rewrite Hf2, app_assoc |].
    split; [now rewrite Ht2, Ht1, app_assoc |].
    split; [now rewrite az_commands_app, Ha1, Ha2 |].
    intros err Hin. apply in_app_or in Hin. destruct Hin as [Hin | Hin].
    + destruct (He1 err Hin) as (msg & Hm & Hp). exists r, msg.
      split; [now left |]. split; [exact Hm |]. apply in_or_app. now left.
    + destruct (He2 err Hin) as (r' & msg & Hr & Hm & Hp). exists r', msg.
      split; [now right |]. split; [exact Hm |]. apply in_or_app. now right.
Qed.

Lemma remove_scopes_real env set_iter :
  forall items errors w,
    exists new evs,
      fst (remove_scopes env set_iter false items errors w) = Ok (errors ++ new) /\
      trace (snd (remove_scopes env set_iter false items errors w)) = trace w ++ evs /\
      az_commands evs = map delete_cmd (ids_in_order set_iter items) /\
      (forall err, In err new ->
         exists r msg, In r (ids_in_order set_iter items) /\
                       err = "Failed to remove role " +++ r +++ ": " +++ msg /\
                       In (EvPrint ("  " +++ err)) evs).
Proof.
  induction items as [| [scope roles] items IH]; intros errors w.
  - exists [], []. cbn. rewrite !app_nil_r. repeat split; auto. easy.
  - cbn [remove_scopes]. unfold bind, print, emit.
    match goal with
    | |- context [remove_roles env false (set_iter roles) errors ?w0] =>
        destruct (remove_roles_real env (set_iter roles) errors w0)
          as (new1 & evs1 & Hf1 & Ht1 & Ha1 & He1);
        destruct (remove_roles env false (set_iter roles) errors w0) as [res w1]
    end.
    cbn [fst snd trace] in Hf1, Ht1. subst res. cbv beta iota.
    destruct (IH (errors ++ new1) w1) as (new2 & evs2 & Hf2 & Ht2 & Ha2 & He2).
    exists (new1 ++ new2). eexists (_ :: evs1 ++ evs2).
    split; [now rewrite Hf2, app_assoc |].
    split; [rewrite Ht2, Ht1, <- !app_assoc; reflexivity |].
    unfold ids_in_order. cbn [map List.concat snd].
    fold (ids_in_order set_iter items).
    split; [cbn [az_commands]; now rewrite az_commands_app, Ha1, Ha2, map_app |].
    intros err Hin. apply in_app_or in Hin. destruct Hin as [Hin | Hin].
    + destruct (He1 err Hin) as (r & msg & Hr & Hm & Hp). exists r, msg.
      split; [apply in_or_app; now left |]. split; [exact Hm |].
      right. apply in_or_app. now left.
    + destruct (He2 err Hin) as (r & msg & Hr & Hm & Hp). exists r, msg.
      split; [apply in_or_app; now right |]. split; [exact Hm |].
      right. apply in_or_app. now right.
Qed.

(** A delete that fails: the handler prints the failure and appends it to
    the errors; a delete that succeeds records nothing. *)
Lemma remove_role_failed env r errors w e w1 :
  run_az_cmd env (delete_cmd r) (removing_msg r) true w = (Raise e, w1) ->
  remove_role env false r errors w
  = (Ok (errors ++ [failure_msg r (exn_str e)]),
     print_to w1 ("  " +++ failure_msg r (exn_str e))).
Proof.
  intros Hrun. unfold remove_role, try_except, bind.
  fold (delete_cmd r). fold (removing_msg r). rewrite Hrun. reflexivity.
Qed.

Lemma remove_role_succeeded env r errors w data w1 :
  run_az_cmd env (delete_cmd r) (removing_msg r) true w = (Ok data, w1) ->
  fst (remove_role env false r errors w) = Ok errors.
Proof.
  intros Hrun. unfold remove_role, try_except, bind.
  fold (delete_cmd r). fold (removing_msg r). rewrite Hrun.
  destruct data as [fields | exts | items]; try reflexivity.
  destruct (dict_get "provisioningState" fields); reflexivity.
Qed.

Lemma remove_roles_app env :
  forall l1 l2 errors w,
    remove_roles env false (l1 ++ l2) errors w
    = match remove_roles env false l1 errors w with
      | (Ok errors1, w1) => remove_roles env false l2 errors1 w1
      | (Raise e, w1) => (Raise e, w1)
      end.
Proof.
  induction l1 as [| r l1 IH]; intros l2 errors w; [reflexivity |].
  cbn [app remove_roles]. unfold bind.
  destruct (remove_role env false r errors w) as [[errors1 | e] w1];
    [apply IH | reflexivity].
Qed.

Lemma remove_scopes_app env set_iter :
  forall items1 items2 errors w,
    remove_scopes env set_iter false (items1 ++ items2) errors w
    = match remove_scopes env set_iter false items1 errors w with
      | (Ok errors1, w1) => remove_scopes env set_iter false items2 errors1 w1
      | (Raise e, w1) => (Raise e, w1)
      end.
Proof.
  induction items1 as [| [scope ids] items1 IH]; intros items2 errors w; [reflexivity |].
  cbn [app remove_scopes]. unfold bind, print, emit.
  match goal with
  | |- context [remove_roles env false (set_iter ids) errors ?w0] =>
      destruct (remove_roles env false (set_iter ids) errors w0) as [[errors1 | e] w1]
  end; [apply IH | reflexivity].
Qed.

(** A delete that fails when its turn comes: its failure is in the errors
    the loop returns and is printed right after the command. *)
Lemma remove_scopes_failure_recorded env set_iter :
  forall items1 scope ids items2 l1 r l2 errs1 w1 errs2 w2 e w3 w,
    set_iter ids = l1 ++ r :: l2 ->
    remove_scopes env set_iter false items1 [] w = (Ok errs1, w1) ->
    remove_roles env false l1 errs1 (print_to w1 (removing_scope_msg ids scope))
    = (Ok errs2, w2) ->
    run_az_cmd env (delete_cmd r) (removing_msg r) true w2 = (Raise e, w3) ->
    exists errors rest,
      fst (remove_scopes env set_iter false (items1 ++ (scope, ids) :: items2) [] w)
      = Ok errors /\
      In (failure_msg r (exn_str e)) errors /\
      trace (snd (remove_scopes env set_iter false
                    (items1 ++ (scope, ids) :: items2) [] w))
      = trace w3 ++ EvPrint ("  " +++ failure_msg r (exn_str e)) :: rest.
Proof.
  intros items1 scope ids items2 l1 r l2 errs1 w1 errs2 w2 e w3 w Hiter H1 H2 Hrun.
  rewrite remove_scopes_app, H1. cbn [remove_scopes]. unfold bind, print, emit.
  fold (removing_scope_msg ids scope).
  change (mkWorld (now w1) (trace w1 ++ [EvPrint (removing_scope_msg ids scope)]))
    with (print_to w1 (removing_scope_msg ids scope)).
  rewrite Hiter, remove_roles_app, H2. cbn [remove_roles]. unfold bind.
  rewrite (remove_role_failed env r errs2 w2 e w3 Hrun).
  set (f := failure_msg r (exn_str e)).
  destruct (remove_roles_real env l2 (errs2 ++ [f]) (print_to w3 ("  " +++ f)))
    as (new3 & evs3 & Hf3 & Ht3 & _).
  destruct (remove_roles env false l2 (errs2 ++ [f]) (print_to w3 ("  " +++ f)))
    as [res3 w4].
  cbn [fst snd] in Hf3, Ht3. subst res3.
  destruct (remove_scopes_real env set_iter items2 ((errs2 ++ [f]) ++ new3) w4)
    as (new4 & evs4 & Hf4 & Ht4 & _).
  exists (((errs2 ++ [f]) ++ new3) ++ new4), (evs3 ++ evs4).
  split; [exact Hf4 |]. split.
  - apply in_or_app. left. apply in_or_app. left. apply in_or_app. right. now left.
  - rewrite Ht4, Ht3. unfold print_to. cbn [trace].
    now rewrite <- !app_assoc.
Qed.

(** X22.  Outside a dry run the deletion loop never raises and runs one
    delete command for every role id held, scope by scope, in the order the
    sets are iterated, whether or not earlier deletions failed.  Every
    failure is printed when it happens and recorded: a delete command that
    fails makes the handler print the failure and append it to the errors,
    one that succeeds records nothing, and when the delete of a role id
    fails at its turn in the loop, its failure message is among the errors
    the loop returns and is the event that follows the command in the
    trace.  When the loop is over, the recorded failures are printed again,
    joined by newlines, and nothing more is printed when there was none. *)
Theorem X22_deletion_runs_every_delete :
  forall env set_iter (roles : pydict pyset) (w : World),
    exists errors evs,
      fst (remove_scopes env set_iter false roles [] w) = Ok errors /\
      trace (snd (remove_scopes env set_iter false roles [] w)) = trace w ++ evs /\
      az_commands evs = map delete_cmd (ids_in_order set_iter roles) /\
      (forall err, In err errors ->
         exists r msg, In r (ids_in_order set_iter roles) /\
                       err = "Failed to remove role " +++ r +++ ": " +++ msg /\
                       In (EvPrint ("  " +++ err)) evs) /\
      (roles <> [] ->
       delete_roles env set_iter roles false w
       = (Ok tt,
          match errors with
          | [] => snd (remove_scopes env set_iter false roles [] w)
          | _ :: _ => print_to (snd (remove_scopes env set_iter false roles [] w))
                               (String.concat newline errors)
          end)) /\
      (* one deletion: what the handler does with a failure *)
      (forall r errs w0 e w1,
         run_az_cmd env (delete_cmd r) (removing_msg r) true w0 = (Raise e, w1) ->
         remove_role env false r errs w0
         = (Ok (errs ++ [failure_msg r (exn_str e)]),
            print_to w1 ("  " +++ failure_msg r (exn_str e)))) /\
      (forall r errs w0 data w1,
         run_az_cmd env (delete_cmd r) (removing_msg r) true w0 = (Ok data, w1) ->
         fst (remove_role env false r errs w0) = Ok errs) /\
      (* in the loop: the delete of [r] fails when its turn comes *)
      (forall items1 scope ids items2 l1 r l2 errs1 w1 errs2 w2 e w3,
         roles = items1 ++ (scope, ids) :: items2 ->
         set_iter ids = l1 ++ r :: l2 ->
         remove_scopes env set_iter false items1 [] w = (Ok errs1, w1) ->
         remove_roles env false l1 errs1 (print_to w1 (removing_scope_msg ids scope))
         = (Ok errs2, w2) ->
         run_az_cmd env (delete_cmd r) (removing_msg r) true w2 = (Raise e, w3) ->
         In (failure_msg r (exn_str e)) errors /\
         exists rest,
           trace (snd (remove_scopes env set_iter false roles [] w))
           = trace w3 ++ EvPrint ("  " +++ failure_msg r (exn_str e)) :: rest).
Proof.
  intros env set_iter roles w.
  destruct (remove_scopes_real env set_iter roles [] w) as (new & evs & Hf & Ht & Ha & He).
  cbn [app] in Hf. exists new, evs.
  split; [exact Hf |]. split; [exact Ht |]. split; [exact Ha |]. split; [exact He |].
  split.
  { intros Hne. unfold delete_roles.
    destruct roles as [| kv roles]; [contradiction |].
    cbn [List.length Nat.eqb]. unfold bind.
    destruct (remove_scopes env set_iter false (kv :: roles) [] w) as [res w1].
    cbn [fst snd] in Hf |- *. subst res.
    destruct new; reflexivity. }
  split; [intros r errs w0 e w1; apply remove_role_failed |].
  split; [intros r errs w0 data w1; apply remove_role_succeeded |].
  intros items1 scope ids items2 l1 r l2 errs1 w1 errs2 w2 e w3 -> Hiter H1 H2 Hrun.
  destruct (remove_scopes_failure_recorded env set_iter items1 scope ids items2
              l1 r l2 errs1 w1 errs2 w2 e w3 w Hiter H1 H2 Hrun)
    as (errors & rest & Hfst & Hin & Htr).
  rewrite Hfst in Hf. inversion Hf; subst.
  split; [exact Hin | now exists rest].
Qed.

(** ** remove_orphaned_accounts.py: the whole reconciler *)

Lemma read_only_lookups (l : list string) :
  Forall (fun c => is_read_only c = true) (map lookup_cmd l).
Proof. apply Forall_map, Forall_forall. intros p _. destruct p; reflexivity. Qed.

Lemma read_only_orphan_lookups (l : list string) :
  Forall (fun c => is_read_only c = true) (map orphan_lookup_cmd l).
Proof. apply Forall_map, Forall_forall. intros p _. destruct p; reflexivity. Qed.

Lemma read_only_listings (l : list string) :
  Forall (fun c => is_read_only c = true) (map list_cmd l).
Proof.
  apply Forall_map, Forall_forall. intros s _. unfold list_cmd.
  destruct (String.eqb s ""); reflexivity.
Qed.

(** What the deletion phase runs: delete commands only, and none at all in
    a dry run. *)
Lemma delete_roles_commands env set_iter roles dry_run w :
  exists evs,
    trace (snd (delete_roles env set_iter roles dry_run w)) = trace w ++ evs /\
    (forall c, In c (az_commands evs) -> exists r, c = delete_cmd r) /\
    (dry_run = true -> az_commands evs = []).
Proof.
  unfold delete_roles. destruct roles as [| kv roles].
  - eexists [_]. cbn. split; [reflexivity |]. split; [easy | reflexivity].
  - cbn [List.length Nat.eqb]. unfold bind. destruct dry_run.
    + destruct (remove_scopes_dry_run env set_iter (kv :: roles) [] w) as (msgs & Hr & _).
      rewrite Hr. exists (map EvPrint msgs). cbn [snd trace ret].
      rewrite az_commands_prints. split; [reflexivity |]. split; [easy | reflexivity].
    + destruct (remove_scopes_real env set_iter (kv :: roles) [] w)
        as (new & evs & Hf & Ht & Ha & _).
      destruct (remove_scopes env set_iter false (kv :: roles) [] w) as [res w1].
      cbn [fst snd app] in Hf, Ht. subst res.
      assert (Hdel : forall c, In c (map delete_cmd (ids_in_order set_iter (kv :: roles))) ->
                               exists r, c = delete_cmd r).
      { intros c Hc. apply in_map_iff in Hc. destruct Hc as (r & <- & _). now exists r. }
      destruct new as [| err new]; unfold ret, print, emit; cbn [snd trace].
      * exists evs. split; [exact Ht |]. rewrite Ha. split; [exact Hdel | discriminate].
      * eexists (evs ++ [_]). split; [rewrite Ht, <- app_assoc; reflexivity |].
        rewrite az_commands_app, Ha. cbn [az_commands]. rewrite app_nil_r.
        split; [exact Hdel | discriminate].
Qed.

Lemma collect_roles_to_remove_reads env stale w :
  exists evs,
    trace (snd (collect_roles_to_remove env stale w)) = trace w ++ evs /\
    Forall (fun c => is_read_only c = true) (az_commands evs).
Proof.
  unfold collect_roles_to_remove. unfold bind, print, emit.
  match goal with
  | |- context [lookup_identities env ?c 0 stale ?st0 ?w0] =>
      pose proof (lookup_identities_fetch env c stale 0 [] [] w0) as H;
      change (lookup_identities env c 0 stale ([], []) w0)
        with (lookup_identities env c 0 stale st0 w0) in H;
      destruct H as (evs & fetched & Ht & Ha & _);
      destruct (lookup_identities env c 0 stale st0 w0) as [[st | e] w1]
  end; unfold ret; cbn [fst snd trace] in *;
    eexists (_ :: evs);
    (split; [rewrite Ht, <- app_assoc; reflexivity |]);
    cbn [az_commands]; rewrite Ha; apply read_only_listings.
Qed.

Lemma find_orphaned_roles_reads env w :
  exists evs,
    trace (snd (find_orphaned_roles env w)) = trace w ++ evs /\
    Forall (fun c => is_read_only c = true) (az_commands evs).
Proof.
  unfold find_orphaned_roles, list_role_assignments.
  change (negb (String.eqb "" "")) with false. cbv iota. unfold bind.
  match goal with
  | |- context [run_az_cmd env ?c ?d false w] =>
      pose proof (run_az_cmd_trace env c d false w) as Ht;
      destruct (run_az_cmd env c d false w) as [[data | e] w1]
  end; cbn [fst snd] in Ht |- *.
  - destruct data as [[| ? ?] | exts | items]; unfold ret, raise; cbn [fst snd];
      try (eexists [_; _]; split; [exact Ht |];
           repeat constructor).
    match goal with
    | |- context [scan_items env items ?st0 w1] =>
        pose proof (scan_items_effects env items [] [] w1) as H;
        change (scan_items env items ([], []) w1)
          with (scan_items env items st0 w1) in H;
        destruct H as (known & orphans & evs & mask & Hf & Hts & Ha & _);
        destruct (scan_items env items st0 w1) as [res w2]
    end.
    cbn [fst snd] in Hf, Hts |- *. subst res. cbn [snd].
    eexists (_ :: _ :: evs). split; [rewrite Hts, Ht, <- app_assoc; reflexivity |].
    cbn [az_commands]. rewrite Ha. constructor; [reflexivity |].
    apply read_only_orphan_lookups.
  - eexists [_; _]. split; [exact Ht |]. repeat constructor.
Qed.

Lemma check_orphans_reads env set_iter stale w :
  exists after removed flag w2 evs,
    check_orphans env set_iter stale w = (Ok (after, removed, flag), w2) /\
    trace w2 = trace w ++ evs /\
    az_commands evs = map lookup_cmd (set_iter (get_unique_users stale)).
Proof.
  destruct (check_orphans_result env set_iter stale w)
    as (to_remove & w1 & w2 & Hc & Hco & evs2 & Ht2 & Ha2). cbv zeta in Hco.
  destruct (check_users_commands env (List.length (get_unique_users stale))
              (set_iter (get_unique_users stale)) 0 [] w) as (evs1 & Ht1 & Ha1).
  rewrite Hc in Ht1. cbn [snd] in Ht1.
  do 4 eexists. exists (evs1 ++ evs2). split; [exact Hco |].
  split; [now rewrite Ht2, Ht1, app_assoc |].
  now rewrite az_commands_app, Ha1, Ha2, app_nil_r.
Qed.

(** X21.  Whatever the mode and the answers of Azure, the reconciler first
    only reads (directory lookups and listings of role assignments) and
    then only deletes: its trace splits into a part whose commands are all
    read-only and a part whose commands are all delete commands.  In a dry
    run the second part holds no command at all, so a dry run never changes
    anything. *)
Theorem X21_reads_then_deletes :
  forall env set_iter (json_file : option Report) (dry_run : bool) (w : World),
    (forall r, is_read_only (delete_cmd r) = false) /\
    exists reads deletes,
      trace (snd (remove_orphaned_account env set_iter json_file dry_run w))
      = trace w ++ reads ++ deletes /\
      (forall c, In c (az_commands reads) -> is_read_only c = true) /\
      (forall c, In c (az_commands deletes) -> exists r, c = delete_cmd r) /\
      (dry_run = true ->
       forall c,
         In c (az_commands
                 (reads ++ deletes)) -> is_read_only c = true).
Proof.
  intros env set_iter json_file dry_run w. split; [intros r; reflexivity |].
  assert (Hfin : forall reads deletes,
             Forall (fun c => is_read_only c = true) (az_commands reads) ->
             (forall c, In c (az_commands deletes) -> exists r, c = delete_cmd r) ->
             (dry_run = true -> az_commands deletes = []) ->
             (forall c, In c (az_commands reads) -> is_read_only c = true) /\
             (forall c, In c (az_commands deletes) -> exists r, c = delete_cmd r) /\
             (dry_run = true ->
              forall c, In c (az_commands (reads ++ deletes)) -> is_read_only c = true)).
  { intros reads deletes Hr Hd Hdry.
    split; [now apply Forall_forall |]. split; [exact Hd |].
    intros E c Hc. rewrite az_commands_app, (Hdry E), app_nil_r in Hc.
    revert c Hc. now apply Forall_forall. }
  assert (Hnone : forall c, In c (az_commands []) -> exists r, c = delete_cmd r) by easy.
  unfold remove_orphaned_account.
  destruct json_file as [data |].
  - destruct (stale_identities data) as [stale |].
    + unfold bind at 1.
      destruct (check_orphans_reads env set_iter stale w)
        as (after & removed & flag & w2 & evs1 & Hco & Ht1 & Ha1).
      rewrite Hco. cbv beta iota.
      destruct after as [| identity after].
      * unfold print, emit. cbn [snd trace].
        exists (evs1 ++ [EvPrint "No stale identities to process"]), [].
        split; [now rewrite Ht1, app_nil_r, app_assoc |].
        apply Hfin; [| exact Hnone | reflexivity].
        rewrite az_commands_app, Ha1. cbn [az_commands]. rewrite app_nil_r.
        apply read_only_lookups.
      * unfold bind.
        destruct (collect_roles_to_remove_reads env (identity :: after) w2)
          as (evs2 & Ht2 & Ha2).
        destruct (collect_roles_to_remove env (identity :: after) w2) as [[roles | e] w3];
          cbn [snd] in Ht2 |- *.
        -- destruct (delete_roles_commands env set_iter roles dry_run w3)
             as (evs3 & Ht3 & Hd3 & Hdry3).
           exists (evs1 ++ evs2), evs3.
           split; [now rewrite Ht3, Ht2, Ht1, <- !app_assoc |].
           apply Hfin; [| exact Hd3 | exact Hdry3].
           rewrite az_commands_app, Ha1. apply Forall_app.
           split; [apply read_only_lookups | exact Ha2].
        -- exists (evs1 ++ evs2), [].
           split; [now rewrite Ht2, Ht1, app_nil_r, <- app_assoc |].
           apply Hfin; [| exact Hnone | reflexivity].
           rewrite az_commands_app, Ha1. apply Forall_app.
           split; [apply read_only_lookups | exact Ha2].
    + unfold print, emit. cbn [snd trace]. eexists [_], [].
      split; [reflexivity |]. apply Hfin; [constructor | exact Hnone | reflexivity].
  - unfold bind.
    destruct (find_orphaned_roles_reads env w) as (evs1 & Ht1 & Ha1).
    destruct (find_orphaned_roles env w) as [[roles | e] w1]; cbn [snd] in Ht1 |- *.
    + destruct (delete_roles_commands env set_iter roles dry_run w1)
        as (evs3 & Ht3 & Hd3 & Hdry3).
      exists evs1, evs3. split; [now rewrite Ht3, Ht1, <- app_assoc |].
      apply Hfin; [exact Ha1 | exact Hd3 | exact Hdry3].
    + exists evs1, []. split; [now rewrite Ht1, app_nil_r |].
      apply Hfin; [exact Ha1 | exact Hnone | reflexivity].
Qed.

Lemma check_users_none_missing env count :
  forall users pos to_remove w,
    (forall p pos' w0, In p users ->
       confirms_missing (fst (lookup env count pos' p w0)) = false) ->
    fst (check_users env count pos users to_remove w)
    = Ok (fold_left (fun s x => set_add x s) users to_remove).
Proof.
  induction users as [| p users IH]; intros pos to_remove w Hall; [reflexivity |].
  cbn [check_users fold_left]. unfold bind.
  destruct (check_user_adds env count pos p to_remove w
              (Hall p pos w (or_introl eq_refl))) as (verdict & Hc & _).
  rewrite Hc. apply IH. intros q pos' w0 Hq. apply Hall. now right.
Qed.

Lemma fold_add_In (x : string) :
  forall l (acc : pyset),
    In x (fold_left (fun s y => set_add y s) l acc) <-> In x acc \/ In x l.
Proof.
  induction l as [| y l IH]; intros acc; cbn [fold_left In]; [tauto |].
  rewrite IH, set_add_In. intuition.
Qed.

(** X20.  A report without the key "Stale identities" is answered with one
    message.  Otherwise, when no lookup of a principal of the report comes
    back with "does not exist" (every user exists, or the directory cannot
    be reached), every entry is dropped: the lookups of the distinct
    principals are the only commands that are run, nothing is listed or
    deleted, and the run ends with "No stale identities to process", dry
    run or not.  A report whose list is empty is the special case without
    any command. *)
Theorem X20_nothing_confirmed_nothing_removed :
  forall env set_iter (stale : list Identity) (dry_run : bool) (w : World),
    iterates_elements set_iter ->
    (forall p pos w0,
       In p (map UserName stale) ->
       confirms_missing
         (fst (lookup env (List.length (get_unique_users stale)) pos p w0)) = false) ->
    remove_orphaned_account env set_iter (Some (mkReport None)) dry_run w
    = (Ok tt, print_to w "No 'Stale identities' found") /\
    exists w2 evs,
      fst (check_orphans env set_iter stale w) = Ok ([], Z.of_nat (List.length stale),
                                                     negb (List.length stale =? 0)%nat) /\
      remove_orphaned_account env set_iter (Some (mkReport (Some stale))) dry_run w
      = (Ok tt, print_to w2 "No stale identities to process") /\
      trace w2 = trace w ++ evs /\
      az_commands evs = map lookup_cmd (set_iter (get_unique_users stale)) /\
      (stale = [] -> az_commands evs = []).
Proof.
  intros env set_iter stale dry_run w Hiter Hall. split; [reflexivity |].
  destruct (check_orphans_result env set_iter stale w)
    as (to_remove & w1 & w2 & Hc & Hco & evs2 & Ht2 & Ha2). cbv zeta in Hco.
  destruct (check_users_commands env (List.length (get_unique_users stale))
              (set_iter (get_unique_users stale)) 0 [] w) as (evs1 & Ht1 & Ha1).
  rewrite Hc in Ht1. cbn [snd] in Ht1.
  assert (Hrem : forall p, In p (map UserName stale) -> In p to_remove).
  { intros p Hp.
    pose proof (check_users_none_missing env (List.length (get_unique_users stale))
                  (set_iter (get_unique_users stale)) 0 [] w) as Hm.
    rewrite Hc in Hm. cbn [fst] in Hm.
    assert (Hok : Ok to_remove
                  = Ok (fold_left (fun s x => set_add x s)
                                  (set_iter (get_unique_users stale)) [])).
    { apply Hm. intros q pos' w0 Hq. apply Hall.
      apply (proj1 (get_unique_users_In stale q)).
      apply (proj1 (iterates_In set_iter _ q Hiter)). exact Hq. }
    inversion Hok. apply fold_add_In. right.
    apply (proj2 (iterates_In set_iter _ p Hiter)).
    now apply (proj2 (get_unique_users_In stale p)). }
  assert (Hafter : drop_identities (set_iter to_remove) stale = []).
  { destruct (drop_identities (set_iter to_remove) stale) as [| i l] eqn:E; [reflexivity |].
    assert (Hi : In i (drop_identities (set_iter to_remove) stale)) by (rewrite E; now left).
    apply drop_identities_In in Hi. destruct Hi as [Hi Hn]. exfalso. apply Hn.
    apply (proj2 (iterates_In set_iter _ _ Hiter)). apply Hrem. now apply in_map. }
  rewrite Hafter in Hco. cbn [List.length] in Hco. rewrite Z.sub_0_r in Hco.
  assert (Hflag : (Z.of_nat (List.length stale) >? 0)%Z
                  = negb (List.length stale =? 0)%nat).
  { destruct stale; reflexivity. }
  rewrite Hflag in Hco.
  exists w2, (evs1 ++ evs2).
  split; [now rewrite Hco |].
  split; [unfold remove_orphaned_account; cbn [stale_identities];
          unfold bind; now rewrite Hco |].
  split; [now rewrite Ht2, Ht1, app_assoc |].
  assert (Hcmds : az_commands (evs1 ++ evs2)
                  = map lookup_cmd (set_iter (get_unique_users stale)))
    by now rewrite az_commands_app, Ha1, Ha2, app_nil_r.
  split; [exact Hcmds |].
  intros ->. rewrite Hcmds. unfold get_unique_users. cbn [get_unique_users_from].
  now rewrite (iterates_nil set_iter Hiter).
Qed.

Lemma X20_nothing_confirmed_nothing_removed_witness :
  iterates_elements insertion_order /\
  exists w2,
    remove_orphaned_account real_user_env insertion_order
      (Some (mkReport (Some [stale_entry "p" "/s1"; stale_entry "q" "/s2"]))) false noon
    = (Ok tt, print_to w2 "No stale identities to process").
Proof.
  split; [exact insertion_order_iterates |].
  destruct (X20_nothing_confirmed_nothing_removed real_user_env insertion_order
              [stale_entry "p" "/s1"; stale_entry "q" "/s2"] false noon
              insertion_order_iterates) as (_ & w2 & evs & _ & Hrun & _).
  - intros p pos w0 _. reflexivity.
  - exists w2. exact Hrun.
Defined.

(** ** logger.py *)

Lemma split_on_space_free :
  forall s part, In part (split_on " "%char s) -> remove_spaces part = part.
Proof.
  induction s as [| c s IH]; intros part; cbn [split_on].
  - intros [<- | []]. reflexivity.
  - destruct (Ascii.eqb c " "%char) eqn:E.
    + intros [<- | H]; [reflexivity | now apply IH].
    + pose proof (split_on_nonempty " "%char s) as Hn.
      destruct (split_on " "%char s) as [| p ps]; [contradiction |].
      intros [<- | H].
      * cbn [remove_spaces]. rewrite E. f_equal. apply IH. now left.
      * apply IH. now right.
Qed.

(** X23.  [_mirror_format_message] leaves a record whose message has at
    most four space-separated parts untouched.  Otherwise it takes the
    message apart without losing anything: the new time stamp, host name,
    level name and message, joined by single spaces, are the original
    message, and the host name and the level name it sets hold no space. *)
Theorem X23_mirror_message_round_trip :
  forall record : LogRecord,
    let parts := split_on " "%char (rec_message record) in
    let record' := mirror_format_message record in
    ((List.length parts <= 4)%nat -> record' = record) /\
    ((4 < List.length parts)%nat ->
     rec_asctime record' +++ " " +++ rec_hostname record' +++ " "
       +++ rec_levelname record' +++ " " +++ rec_message record'
     = rec_message record /\
     remove_spaces (rec_hostname record') = rec_hostname record' /\
     remove_spaces (rec_levelname record') = rec_levelname record').
Proof.
  intros record parts record'.
  pose proof (split_on_join " "%char (rec_message record)) as Hjoin.
  pose proof (split_on_space_free (rec_message record)) as Hfree.
  unfold record', mirror_format_message. fold parts in Hjoin, Hfree |- *.
  clearbody parts.
  destruct parts as [| p0 [| p1 [| p2 [| p3 [| p4 more]]]]]; cbn [List.length];
    (split; [intros Hle; try reflexivity; exfalso; lia
            | intros Hlt; try (exfalso; lia)]).
  cbn [rec_asctime rec_hostname rec_levelname rec_message].
  split; [| split].
  - rewrite <- Hjoin. unfold join_spaces. rewrite !concat_cons, !append_assoc.
    reflexivity.
  - apply Hfree. cbn. auto.
  - apply Hfree. cbn. auto.
Qed.

(** X24.  The name [Logger.get_logger] asks for always lies under the
    prefix "smart_replay.": a name that already does is kept, any other name
    is put below the prefix, and asking again with the result changes
    nothing. *)
Theorem X24_get_logger_name_prefixed :
  forall name : string,
    startswith (get_logger_name name) (PREFIX +++ ".") = true /\
    get_logger_name (get_logger_name name) = get_logger_name name /\
    (get_logger_name name = name <-> startswith name (PREFIX +++ ".") = true) /\
    exists pre, get_logger_name name = pre +++ name /\
                (pre = "" \/ pre = PREFIX +++ ".").
Proof.
  intros name.
  assert (Hp : startswith (PREFIX +++ "." +++ name) (PREFIX +++ ".") = true)
    by (destruct name; reflexivity).
  unfold get_logger_name.
  destruct (startswith name (PREFIX +++ ".")) eqn:E.
  - rewrite ?E. split; [reflexivity |]. split; [reflexivity |].
    split; [tauto |]. exists "". split; [reflexivity | now left].
  - rewrite ?Hp. split; [reflexivity |]. split; [reflexivity |]. split.
    + split; [| discriminate]. intros H. rewrite <- H in E. congruence.
    + exists (PREFIX +++ "."). split; [| now right].
      now rewrite append_assoc.
Qed.

(** ** Runs of the model: failures *)

(** Both deletes fail: both are run, and both failures are recorded. *)
Example failing_deletes_are_recorded :
  let run := remove_scopes unreachable_env insertion_order false
               [("/s", ["r1"; "r2"])] [] noon in
  fst run
  = Ok [failure_msg "r1" ("Error " +++ removing_msg "r1" +++ ": ERROR: connection reset");
        failure_msg "r2" ("Error " +++ removing_msg "r2" +++ ": ERROR: connection reset")] /\
  az_commands (trace (snd run)) = [delete_cmd "r1"; delete_cmd "r2"].
Proof. vm_compute. split; reflexivity. Qed.

(** The second descriptor of a listing cannot be fetched: the first one is
    fetched, and the call raises what the second fetch raised. *)
Example list_vms_stops_at_failing_descriptor :
  let gone := mkExn false "<class 'azure.core.exceptions.ResourceNotFoundError'>"
                    "vm2 not found" "" in
  let env := mkEnv (fun _ _ _ => None)
                   (fun _ _ nm => if String.eqb nm "vm2" then inl gone
                                  else inr linux_vm_descriptor)
                   (fun _ _ _ => inr deallocated_view)
                   (fun _ _ => mkCompleted 0 "[]" "")
                   (fun _ => inr (JExtensions []))
                   (fun _ => 0%N) in
  let run := list_vms env fleet
               [linux_vm_descriptor; mkVirtualMachine "vm2" None None;
                mkVirtualMachine "vm3" None None] noon in
  fst run = Raise gone /\
  vm_get_requests (trace (snd run)) = [("rg", "vm1"); ("rg", "vm2")].
Proof. vm_compute. split; reflexivity. Qed.
